(** * OTTER course projects: the three [main.cpp] programs

    A shallow embedding of the three programs under [src/]:
    - [Week3]   : src/projects/Week3-Starter/src/main.cpp, first program
                  (lines 1-218);
    - [Week5]   : the same file, second program (lines 219-442, the one with
                  the "WEEK 5" input handling);
    - [Part000] : src/unnamed/part_000, lines 22-297.

    Each program is a sequence of calls into GLFW, glad/OpenGL, GLM and the
    course's wrapper classes.  None of those libraries is under [src/]: a
    call is recorded, in order, in the list of calls the program issues, and
    what a call hands back comes from an [environment].  Every library call
    is taken to return.  The destructors of the [Sptr] locals of [main], which
    run as it returns, are recorded in the same list.  The messages that
    OpenGL sends to the debug callback are logged only; they are not in the
    list of calls. *)

From Stdlib Require Import ZArith List String Bool QArith Lia.
Import ListNotations.

Local Open Scope string_scope.
Local Open Scope list_scope.
Local Open Scope Z_scope.

(** ** Numbers, vectors and matrices *)

(** A reading of [glfwGetTime()]: the 64 bits of the [double]. *)
Definition double : Type := Z.

(** Single-precision values, kept as the expression that computes them. *)
Inductive float32 : Type :=
| f32 (literal : Q)                     (* a literal such as 0.5f, or an int converted to float *)
| static_cast_float (d : double)        (* static_cast<float>(d) *)
| glm_sin (x : float32).                (* glm::sin(x) *)

Record vec3 : Type := glm_vec3 { vec3_x : float32; vec3_y : float32; vec3_z : float32 }.

Record ivec2 : Type := glm_ivec2 { ivec2_x : Z; ivec2_y : Z }.

(** Modelled from the spec: the [Camera] class ("a pinhole/orthographic
    camera") is not under [src/]; it is the data its setters name. *)
Record Camera : Type := {
  cam_position : vec3;
  cam_lookAt : option vec3;
  cam_isOrtho : bool;
  cam_orthoVerticalScale : float32
}.

Definition SetPosition (p : vec3) (c : Camera) : Camera :=
  {| cam_position := p; cam_lookAt := cam_lookAt c;
     cam_isOrtho := cam_isOrtho c; cam_orthoVerticalScale := cam_orthoVerticalScale c |}.

Definition LookAt (p : vec3) (c : Camera) : Camera :=
  {| cam_position := cam_position c; cam_lookAt := Some p;
     cam_isOrtho := cam_isOrtho c; cam_orthoVerticalScale := cam_orthoVerticalScale c |}.

Definition SetOrthoEnabled (b : bool) (c : Camera) : Camera :=
  {| cam_position := cam_position c; cam_lookAt := cam_lookAt c;
     cam_isOrtho := b; cam_orthoVerticalScale := cam_orthoVerticalScale c |}.

Definition SetOrthoVerticalScale (s : float32) (c : Camera) : Camera :=
  {| cam_position := cam_position c; cam_lookAt := cam_lookAt c;
     cam_isOrtho := cam_isOrtho c; cam_orthoVerticalScale := s |}.

(** 4x4 matrices, kept as the GLM expression that computes them. *)
Inductive mat4 : Type :=
| glm_mat4 (diagonal : float32)                          (* glm::mat4(1.0f) *)
| glm_rotate (m : mat4) (angle : float32) (axis : vec3)  (* glm::rotate(m, angle, axis) *)
| glm_translate (m : mat4) (v : vec3)                    (* glm::translate(m, v) *)
| mat4_mul (a b : mat4)                                  (* a * b *)
| GetViewProjection (c : Camera).                        (* camera->GetViewProjection() *)

(** ** Globals of a program *)

Definition pointer : Type := Z.
Definition nullptr : pointer := 0.

Record globals : Type := {
  window : pointer;
  windowSize : ivec2;
  windowTitle : string
}.

Definition with_window (w : pointer) (g : globals) : globals :=
  {| window := w; windowSize := windowSize g; windowTitle := windowTitle g |}.

Definition with_windowSize (s : ivec2) (g : globals) : globals :=
  {| window := window g; windowSize := s; windowTitle := windowTitle g |}.

(** ** The calls a program issues *)

Inductive log_level : Type := LOG_INFO | LOG_WARN | LOG_ERROR.

Inductive gl_name : Type :=
| GL_DEBUG_OUTPUT | GL_DEBUG_OUTPUT_SYNCHRONOUS | GL_DEPTH_TEST | GL_CULL_FACE
| GL_BACK | GL_FRONT_AND_BACK | GL_FILL | GL_TRIANGLES
| GL_COLOR_BUFFER_BIT | GL_DEPTH_BUFFER_BIT.

Inductive AttributeType : Type := AttributeType_Float.
Inductive ShaderPartType : Type := ShaderPartType_Vertex | ShaderPartType_Fragment.
Inductive IndexType : Type := IndexType_UShort.
Inductive glfw_key : Type := GLFW_KEY_SPACE.

Record BufferAttribute : Type := mkBufferAttribute {
  attr_slot : Z; attr_size : Z; attr_type : AttributeType;
  attr_stride : Z; attr_offset : Z
}.

(** Objects of the wrapper classes are named by the variable that holds them;
    every such variable is assigned once. *)
Definition object : Type := string.

Inductive call : Type :=
| Logger_Init
| Logger_Uninitialize
| LOG (level : log_level) (text : string)
| glfwInit
| glfwCreateWindow (width height : Z) (title : string)
| glfwMakeContextCurrent (w : pointer)
| glfwSetWindowSizeCallback (w : pointer)
| gladLoadGLLoader
| glEnable (cap : gl_name)
| glDebugMessageCallback
| glViewport (x y width height : Z)
| glPolygonMode (face mode : gl_name)
| glCullFace (mode : gl_name)
| glClearColor (r g b a : float32)
| glClear (mask : list gl_name)
| glDrawArrays (mode : gl_name) (first count : Z)
| glDrawElements (mode : gl_name) (count : Z) (type : IndexType)
| glfwGetTime
| glfwWindowShouldClose (w : pointer)
| glfwPollEvents
| glfwGetKey (w : pointer) (key : glfw_key)
| glfwSwapBuffers (w : pointer)
| Construct_VertexBuffer (o : object)
| Construct_IndexBuffer (o : object)
| Construct_VertexArrayObject (o : object)
| Construct_Shader (o : object)
| VertexBuffer_LoadData (o : object) (data : list float32) (count : Z)
| IndexBuffer_LoadData (o : object) (data : list Z) (count : Z)
| AddVertexBuffer (vao vbo : object) (attributes : list BufferAttribute)
| SetIndexBuffer (vao ibo : object)
| LoadShaderPartFromFile (shader : object) (path : string) (part : ShaderPartType)
| Shader_Link (shader : object)
| Shader_Bind (shader : object)
| SetUniformMatrix (shader : object) (name : string) (value : mat4)
| VertexArrayObject_Bind (vao : object)
| VertexArrayObject_Unbind
| VertexArrayObject_Draw (vao : object)
| ObjLoader_LoadFromFile (o : object) (path : string)
| Delete (o : object)
| Destroy_Sptr (o : object).   (* the destructor of the [Sptr] local [o] *)

(** ** What the libraries hand back *)

(** [glfwInit] returns [GLFW_TRUE] or [GLFW_FALSE]. *)
Inductive glfw_bool : Type := GLFW_TRUE | GLFW_FALSE.

Definition glfw_bool_eqb (a b : glfw_bool) : bool :=
  match a, b with
  | GLFW_TRUE, GLFW_TRUE | GLFW_FALSE, GLFW_FALSE => true
  | _, _ => false
  end.

(** One turn of the render loop as the outside world decides it: what the
    loop test reads, and, when the turn runs, the resizes that
    [glfwPollEvents] dispatches, the state of the space key after it and the
    timer. *)
Record frame_input : Type := {
  ret_glfwWindowShouldClose : Z;
  resize_events : list (Z * Z);
  ret_glfwGetKey_space : Z;
  ret_glfwGetTime : double
}.

Record environment : Type := {
  ret_glfwInit : glfw_bool;
  ret_glfwCreateWindow : pointer;
  ret_gladLoadGLLoader : Z;
  ret_Camera_Create : Camera;
  frames : nat -> frame_input
}.

(** ** Programs: globals are threaded and calls are collected.  The result
    is [None] when a loop was given too little fuel to end: the run stops
    there, with the calls issued until then. *)

Definition prog (A : Type) : Type := globals -> option A * globals * list call.

Definition ret {A : Type} (a : A) : prog A := fun g => (Some a, g, []).

Definition bind {A B : Type} (m : prog A) (k : A -> prog B) : prog B :=
  fun g =>
    match m g with
    | (None, g1, t1) => (None, g1, t1)
    | (Some a, g1, t1) =>
        match k a g1 with
        | (b, g2, t2) => (b, g2, t1 ++ t2)
        end
    end.

Declare Scope prog_scope.
Delimit Scope prog_scope with prog.
Notation "x <- m ;; k" := (bind m (fun x => k))
  (at level 61, m at next level, right associativity) : prog_scope.
Notation "m ;; k" := (bind m (fun _ => k))
  (at level 61, right associativity) : prog_scope.
Local Open Scope prog_scope.

Definition issue (c : call) : prog unit := fun g => (Some tt, g, [c]).
Definition get_globals : prog globals := fun g => (Some g, g, []).
Definition set_windowSize (s : ivec2) : prog unit :=
  fun g => (Some tt, with_windowSize s g, []).
Definition set_window (w : pointer) : prog unit :=
  fun g => (Some tt, with_window w g, []).
Definition out_of_fuel {A : Type} : prog A := fun g => (None, g, []).

Fixpoint for_each {A : Type} (f : A -> prog unit) (l : list A) : prog unit :=
  match l with
  | [] => ret tt
  | a :: l' => f a ;; for_each f l'
  end.

(** ** GlDebugMessage *)

Definition log_entry : Type := log_level * string.

(** "[{}] {}" filled with the tag and the message. *)
Definition format_tagged (sourceTxt message : string) : string :=
  ("[" ++ sourceTxt ++ "] " ++ message)%string.

Section DebugMessage.

(** The [GLenum] values of glad.h, which is not under [src/]. *)
Variables GL_DEBUG_SOURCE_API GL_DEBUG_SOURCE_WINDOW_SYSTEM
          GL_DEBUG_SOURCE_SHADER_COMPILER GL_DEBUG_SOURCE_THIRD_PARTY
          GL_DEBUG_SOURCE_APPLICATION GL_DEBUG_SOURCE_OTHER : Z.
Variables GL_DEBUG_SEVERITY_LOW GL_DEBUG_SEVERITY_MEDIUM
          GL_DEBUG_SEVERITY_HIGH GL_DEBUG_SEVERITY_NOTIFICATION : Z.

Definition source_tag (source : Z) : string :=
  if source =? GL_DEBUG_SOURCE_API then "DEBUG"
  else if source =? GL_DEBUG_SOURCE_WINDOW_SYSTEM then "WINDOW"
  else if source =? GL_DEBUG_SOURCE_SHADER_COMPILER then "SHADER"
  else if source =? GL_DEBUG_SOURCE_THIRD_PARTY then "THIRD PARTY"
  else if source =? GL_DEBUG_SOURCE_APPLICATION then "APP"
  else "OTHER".

(** The lines the callback logs.  [LOG_GL_NOTIFICATIONS] is defined in all
    three programs, so the notification case is compiled in. *)
Definition GlDebugMessage (source type id severity length : Z)
           (message : string) (userParam : pointer) : list log_entry :=
  let sourceTxt := source_tag source in
  if severity =? GL_DEBUG_SEVERITY_LOW then [(LOG_INFO, format_tagged sourceTxt message)]
  else if severity =? GL_DEBUG_SEVERITY_MEDIUM then [(LOG_WARN, format_tagged sourceTxt message)]
  else if severity =? GL_DEBUG_SEVERITY_HIGH then [(LOG_ERROR, format_tagged sourceTxt message)]
  else if severity =? GL_DEBUG_SEVERITY_NOTIFICATION then [(LOG_INFO, format_tagged sourceTxt message)]
  else [].

End DebugMessage.

(** The values the Khronos registry gives these names. *)
Definition khronos_GlDebugMessage : Z -> Z -> Z -> Z -> Z -> string -> pointer -> list log_entry :=
  GlDebugMessage 0x8246 0x8247 0x8248 0x8249 0x824A
                 0x9148 0x9147 0x9146 0x826B.

(** ** Window callbacks and initialisation, shared by the three programs *)

Definition GlfwWindowResizedCallback (window_arg : pointer) (width height : Z) : prog unit :=
  issue (glViewport 0 0 width height) ;;
  set_windowSize (glm_ivec2 width height).

Section Shared.

Variable e : environment.

Definition initGLFW : prog bool :=
  issue glfwInit ;;
  if glfw_bool_eqb (ret_glfwInit e) GLFW_FALSE then
    issue (LOG LOG_ERROR "Failed to initialize GLFW") ;;
    ret false
  else
    g <- get_globals ;;
    issue (glfwCreateWindow (ivec2_x (windowSize g)) (ivec2_y (windowSize g)) (windowTitle g)) ;;
    set_window (ret_glfwCreateWindow e) ;;
    g <- get_globals ;;
    issue (glfwMakeContextCurrent (window g)) ;;
    issue (glfwSetWindowSizeCallback (window g)) ;;
    ret true.

Definition initGLAD : prog bool :=
  issue gladLoadGLLoader ;;
  if ret_gladLoadGLLoader e =? 0 then
    issue (LOG LOG_ERROR "Failed to initialize Glad") ;;
    ret false
  else ret true.

(** [glfwPollEvents()]: GLFW runs the registered size callback for each
    resize it has queued. *)
Definition pollEvents (k : nat) : prog unit :=
  issue glfwPollEvents ;;
  for_each (fun wh => g <- get_globals ;;
                      GlfwWindowResizedCallback (window g) (fst wh) (snd wh))
           (resize_events (frames e k)).

(** [while (!glfwWindowShouldClose(window)) body]; [k] counts the turns
    already taken. *)
Fixpoint while_window_open {L : Type} (body : nat -> L -> prog L)
         (fuel k : nat) (l : L) : prog L :=
  match fuel with
  | O => out_of_fuel
  | S fuel' =>
      g <- get_globals ;;
      issue (glfwWindowShouldClose (window g)) ;;
      if ret_glfwWindowShouldClose (frames e k) =? 0
      then l' <- body k l ;; while_window_open body fuel' (S k) l'
      else ret l
  end.

(** The first [n] turns of the loop, each one test that lets the body run
    followed by the body. *)
Fixpoint run_frames {L : Type} (body : nat -> L -> prog L)
         (n k : nat) (l : L) : prog L :=
  match n with
  | O => ret l
  | S n' =>
      g <- get_globals ;;
      issue (glfwWindowShouldClose (window g)) ;;
      l' <- body k l ;;
      run_frames body n' (S k) l'
  end.

End Shared.

(** ** Integer conversions at the draw calls *)

(** [(GLenum)x]: to unsigned 32 bits. *)
Definition to_GLenum (x : Z) : Z := x mod 2 ^ 32.

(** A value passed where [GLsizei] (a signed 32-bit [int]) is expected. *)
Definition to_GLsizei (x : Z) : Z := (x + 2 ^ 31) mod 2 ^ 32 - 2 ^ 31.

Definition sizeof_float : Z := 4.

(** ** Index buffers *)

Module IndexBuffer.

(** Modelled from the spec: the [IndexBuffer] class is not under [src/]; it
    is one of the "buffer wrappers" that "map near 1:1 onto a handful of
    graphics-API calls".  The wrapper keeps the count and the element type
    of the data last loaded into it. *)
Record t : Type := {
  name : object;
  elementCount : Z;
  elementType : IndexType
}.

(** Modelled from the spec: [new IndexBuffer()] / [IndexBuffer::Create()],
    not under [src/]. *)
Definition Create (o : object) : prog t :=
  issue (Construct_IndexBuffer o) ;;
  ret {| name := o; elementCount := 0; elementType := IndexType_UShort |}.

(** Modelled from the spec: [LoadData(const uint16_t* data, size_t count)],
    not under [src/]. *)
Definition LoadData (data : list Z) (count : Z) (b : t) : prog t :=
  issue (IndexBuffer_LoadData (name b) data count) ;;
  ret {| name := name b; elementCount := count; elementType := IndexType_UShort |}.

(** Modelled from the spec: the two getters, not under [src/]. *)
Definition GetElementCount (b : t) : Z := elementCount b.
Definition GetElementType (b : t) : IndexType := elementType b.

End IndexBuffer.

(** ** Data shared by the programs *)

Definition points : list float32 :=
  [ f32 (-0.5); f32 (-0.5); f32 0.5;
    f32 0.5;    f32 (-0.5); f32 0.5;
    f32 (-0.5); f32 0.5;    f32 0.5 ].

Definition colors : list float32 :=
  [ f32 1.0; f32 0.0; f32 0.0;
    f32 0.0; f32 1.0; f32 0.0;
    f32 0.0; f32 0.0; f32 1.0 ].

Definition indices : list Z := [3; 0; 1; 3; 1; 2].

Definition clear_mask : list gl_name := [GL_COLOR_BUFFER_BIT; GL_DEPTH_BUFFER_BIT].

(** ** First program of src/projects/Week3-Starter/src/main.cpp (lines 1-218) *)

Module Week3.

Definition initial_globals : globals :=
  {| window := nullptr; windowSize := glm_ivec2 800 800; windowTitle := "INFR-1350U" |}.

Definition interleaved : list float32 :=
  [ f32 0.5;    f32 (-0.5); f32 0.5;  f32 0.0; f32 0.0; f32 0.0;
    f32 0.5;    f32 0.5;    f32 0.5;  f32 0.3; f32 0.2; f32 0.5;
    f32 (-0.5); f32 0.5;    f32 0.5;  f32 0.0; f32 1.0; f32 3.0;
    f32 (-0.5); f32 (-0.5); f32 0.5;  f32 4.0; f32 7.0; f32 4.0 ].

Record locals : Type := { interleaved_ibo : IndexBuffer.t }.

Section Program.

Variable e : environment.

(** Lines 108-185: from [glEnable(GL_DEBUG_OUTPUT)] to the first timer
    reading. *)
Definition setup : prog locals :=
  issue (glEnable GL_DEBUG_OUTPUT) ;;
  issue glDebugMessageCallback ;;
  issue (Construct_VertexBuffer "interleaved_vbo") ;;
  issue (VertexBuffer_LoadData "interleaved_vbo" interleaved (6 * 4)) ;;
  interleaved_ibo <- IndexBuffer.Create "interleaved_ibo" ;;
  interleaved_ibo <- IndexBuffer.LoadData indices (3 * 2) interleaved_ibo ;;
  let stride := sizeof_float * 6 in
  issue (Construct_VertexArrayObject "vao2") ;;
  issue (AddVertexBuffer "vao2" "interleaved_vbo"
           [ mkBufferAttribute 0 3 AttributeType_Float stride 0;
             mkBufferAttribute 1 3 AttributeType_Float stride (sizeof_float * 3) ]) ;;
  issue (SetIndexBuffer "vao2" (IndexBuffer.name interleaved_ibo)) ;;
  issue (Construct_VertexBuffer "posVbo") ;;
  issue (VertexBuffer_LoadData "posVbo" points 9) ;;
  issue (Construct_VertexBuffer "color_vbo") ;;
  issue (VertexBuffer_LoadData "color_vbo" colors 9) ;;
  issue (Construct_VertexArrayObject "vao") ;;
  issue (AddVertexBuffer "vao" "posVbo" [ mkBufferAttribute 0 3 AttributeType_Float 0 0 ]) ;;
  issue (AddVertexBuffer "vao" "color_vbo" [ mkBufferAttribute 1 3 AttributeType_Float 0 0 ]) ;;
  issue (Construct_Shader "shader") ;;
  issue (LoadShaderPartFromFile "shader" "shaders/vertex_shader.glsl" ShaderPartType_Vertex) ;;
  issue (LoadShaderPartFromFile "shader" "shaders/frag_shader.glsl" ShaderPartType_Fragment) ;;
  issue (Shader_Link "shader") ;;
  issue (glEnable GL_DEPTH_TEST) ;;
  issue (glPolygonMode GL_FRONT_AND_BACK GL_FILL) ;;
  issue glfwGetTime ;;
  ret {| interleaved_ibo := interleaved_ibo |}.

(** Lines 191-204: a turn of the loop after its [glfwPollEvents].  [dt]
    is computed and never read. *)
Definition render (k : nat) (l : locals) : prog locals :=
  issue glfwGetTime ;;
  issue (glClearColor (f32 0.2) (f32 0.2) (f32 0.2) (f32 1.0)) ;;
  issue (glClear clear_mask) ;;
  issue (Shader_Bind "shader") ;;
  issue (VertexArrayObject_Bind "vao") ;;
  issue (glDrawArrays GL_TRIANGLES 0 3) ;;
  issue (VertexArrayObject_Bind "vao2") ;;
  issue (glDrawElements GL_TRIANGLES
           (to_GLsizei (to_GLenum (IndexBuffer.GetElementCount (interleaved_ibo l))))
           (IndexBuffer.GetElementType (interleaved_ibo l))) ;;
  issue VertexArrayObject_Unbind ;;
  g <- get_globals ;;
  issue (glfwSwapBuffers (window g)) ;;
  ret l.

(** Lines 189-204: one turn of the loop. *)
Definition frame (k : nat) (l : locals) : prog locals :=
  pollEvents e k ;;
  render k l.

(** Lines 207-217.  Every object of the program is held by a plain
    pointer, so that [return 0] destroys none. *)
Definition teardown : prog unit :=
  issue (Delete "shader") ;;
  issue (Delete "vao") ;;
  issue (Delete "posVbo") ;;
  issue (Delete "color_vbo") ;;
  issue Logger_Uninitialize.

Definition main (fuel : nat) : prog Z :=
  issue Logger_Init ;;
  ok <- initGLFW e ;;
  if negb ok then ret 1 else
  ok <- initGLAD e ;;
  if negb ok then ret 1 else
  l <- setup ;;
  while_window_open e frame fuel 0 l ;;
  teardown ;;
  ret 0.

End Program.

End Week3.

(** ** src/unnamed/part_000 (lines 22-297) *)

Module Part000.

Definition initial_globals : globals :=
  {| window := nullptr; windowSize := glm_ivec2 800 800; windowTitle := "INFR-1350U" |}.

Definition interleaved : list float32 :=
  [ f32 0.5;    f32 (-0.5); f32 0.5;  f32 0.0; f32 0.0; f32 0.0;
    f32 0.5;    f32 0.5;    f32 0.5;  f32 0.3; f32 0.2; f32 0.5;
    f32 (-0.5); f32 0.5;    f32 0.5;  f32 1.0; f32 1.0; f32 0.0;
    f32 (-0.5); f32 (-0.5); f32 0.5;  f32 1.0; f32 1.0; f32 1.0 ].

Definition interleaved1 : list float32 :=
  [ f32 0.5;    f32 0.5;    f32 0.5;  f32 0.0; f32 0.0; f32 1.0;
    f32 0.5;    f32 0.5;    f32 0.5;  f32 0.3; f32 5.2; f32 0.5;
    f32 (-0.5); f32 0.5;    f32 0.5;  f32 5.0; f32 6.0; f32 3.0;
    f32 (-0.5); f32 (-0.5); f32 0.5;  f32 4.0; f32 1.0; f32 1.0 ].

Definition indices1 : list Z := [3; 0; 1; 3; 1; 2].

Record locals : Type := {
  interleaved_ibo : IndexBuffer.t;
  interleaved_ibo1 : IndexBuffer.t;
  transform : mat4;
  transform2 : mat4;
  transform3 : mat4;
  camera : Camera
}.

(** The locals of [main] that are [Sptr] smart pointers, in the order of
    their declarations (lines 151-246). *)
Definition sptr_locals : list object :=
  [ "posVbo"; "color_vbo"; "vao"; "interleaved_vbo"; "interleaved_ibo"; "vao2";
    "interleaved_vbo1"; "interleaved_ibo1"; "vao3"; "shader"; "camera" ].

Section Program.

Variable e : environment.

(** Lines 133-251. *)
Definition setup : prog locals :=
  issue (glEnable GL_DEBUG_OUTPUT) ;;
  issue (glEnable GL_DEBUG_OUTPUT_SYNCHRONOUS) ;;
  issue glDebugMessageCallback ;;
  issue (Construct_VertexBuffer "posVbo") ;;
  issue (VertexBuffer_LoadData "posVbo" points 9) ;;
  issue (Construct_VertexBuffer "color_vbo") ;;
  issue (VertexBuffer_LoadData "color_vbo" colors 9) ;;
  issue (Construct_VertexArrayObject "vao") ;;
  issue (AddVertexBuffer "vao" "posVbo" [ mkBufferAttribute 0 3 AttributeType_Float 0 0 ]) ;;
  issue (AddVertexBuffer "vao" "color_vbo" [ mkBufferAttribute 1 3 AttributeType_Float 0 0 ]) ;;
  issue (Construct_VertexBuffer "interleaved_vbo") ;;
  issue (VertexBuffer_LoadData "interleaved_vbo" interleaved (6 * 4)) ;;
  interleaved_ibo <- IndexBuffer.Create "interleaved_ibo" ;;
  interleaved_ibo <- IndexBuffer.LoadData indices (3 * 2) interleaved_ibo ;;
  let stride := sizeof_float * 6 in
  issue (Construct_VertexArrayObject "vao2") ;;
  issue (AddVertexBuffer "vao2" "interleaved_vbo"
           [ mkBufferAttribute 0 3 AttributeType_Float stride 0;
             mkBufferAttribute 1 3 AttributeType_Float stride (sizeof_float * 3) ]) ;;
  issue (SetIndexBuffer "vao2" (IndexBuffer.name interleaved_ibo)) ;;
  issue (Construct_VertexBuffer "interleaved_vbo1") ;;
  issue (VertexBuffer_LoadData "interleaved_vbo1" interleaved1 (6 * 4)) ;;
  interleaved_ibo1 <- IndexBuffer.Create "interleaved_ibo1" ;;
  interleaved_ibo1 <- IndexBuffer.LoadData indices1 (3 * 2) interleaved_ibo1 ;;
  let stride1 := sizeof_float * 6 in
  issue (Construct_VertexArrayObject "vao3") ;;
  issue (AddVertexBuffer "vao3" "interleaved_vbo1"
           [ mkBufferAttribute 0 3 AttributeType_Float stride1 0;
             mkBufferAttribute 1 3 AttributeType_Float stride1 (sizeof_float * 3) ]) ;;
  issue (SetIndexBuffer "vao3" (IndexBuffer.name interleaved_ibo1)) ;;
  issue (Construct_Shader "shader") ;;
  issue (LoadShaderPartFromFile "shader" "shaders/vertex_shader.glsl" ShaderPartType_Vertex) ;;
  issue (LoadShaderPartFromFile "shader" "shaders/frag_shader.glsl" ShaderPartType_Fragment) ;;
  issue (Shader_Link "shader") ;;
  issue (glEnable GL_DEPTH_TEST) ;;
  issue (glPolygonMode GL_FRONT_AND_BACK GL_FILL) ;;
  let transform := glm_mat4 (f32 1.0) in
  let transform2 := glm_mat4 (f32 1.0) in
  let transform3 := glm_mat4 (f32 1.0) in
  let camera := ret_Camera_Create e in
  let camera := SetPosition (glm_vec3 (f32 0) (f32 1) (f32 1)) camera in
  let camera := LookAt (glm_vec3 (f32 0.0) (f32 0.0) (f32 0.0)) camera in
  issue glfwGetTime ;;
  ret {| interleaved_ibo := interleaved_ibo; interleaved_ibo1 := interleaved_ibo1;
         transform := transform; transform2 := transform2; transform3 := transform3;
         camera := camera |}.

(** Lines 260-292: a turn of the loop after its [glfwPollEvents].  [dt]
    is computed and never read. *)
Definition render (k : nat) (l : locals) : prog locals :=
  issue glfwGetTime ;;
  let thisFrame := ret_glfwGetTime (frames e k) in
  let transform :=
    glm_rotate (glm_mat4 (f32 1.0)) (static_cast_float thisFrame)
               (glm_vec3 (f32 0) (f32 0) (f32 1)) in
  let transform2 :=
    glm_translate (glm_mat4 (f32 1.0))
                  (glm_vec3 (f32 0) (f32 0.0) (glm_sin (static_cast_float thisFrame))) in
  let transform3 :=
    glm_translate (glm_mat4 (f32 1.0))
                  (glm_vec3 (glm_sin (static_cast_float thisFrame)) (f32 0.0) (f32 0.0)) in
  issue (glClearColor (f32 0.2) (f32 0.2) (f32 0.2) (f32 1.0)) ;;
  issue (glClear clear_mask) ;;
  issue (Shader_Bind "shader") ;;
  issue (SetUniformMatrix "shader" "u_ModelViewProjection"
           (mat4_mul (GetViewProjection (camera l)) transform)) ;;
  issue (VertexArrayObject_Bind "vao") ;;
  issue (glDrawArrays GL_TRIANGLES 0 3) ;;
  issue VertexArrayObject_Unbind ;;
  issue (SetUniformMatrix "shader" "u_ModelViewProjection"
           (mat4_mul (GetViewProjection (camera l)) transform2)) ;;
  issue (VertexArrayObject_Bind "vao2") ;;
  issue (glDrawElements GL_TRIANGLES
           (to_GLsizei (IndexBuffer.GetElementCount (interleaved_ibo l)))
           (IndexBuffer.GetElementType (interleaved_ibo l))) ;;
  issue VertexArrayObject_Unbind ;;
  issue (SetUniformMatrix "shader" "u_ModelViewProjection"
           (mat4_mul (GetViewProjection (camera l)) transform3)) ;;
  issue (VertexArrayObject_Bind "vao3") ;;
  issue (glDrawElements GL_TRIANGLES
           (to_GLsizei (IndexBuffer.GetElementCount (interleaved_ibo1 l)))
           (IndexBuffer.GetElementType (interleaved_ibo1 l))) ;;
  issue VertexArrayObject_Unbind ;;
  g <- get_globals ;;
  issue (glfwSwapBuffers (window g)) ;;
  ret {| interleaved_ibo := interleaved_ibo l; interleaved_ibo1 := interleaved_ibo1 l;
         transform := transform; transform2 := transform2; transform3 := transform3;
         camera := camera l |}.

(** Lines 258-292: one turn of the loop. *)
Definition frame (k : nat) (l : locals) : prog locals :=
  pollEvents e k ;;
  render k l.

(** Lines 295-297: [Logger::Uninitialize()], then [return 0], which destroys
    the [Sptr] locals of [main], the last declared first.  No local is in
    scope at the two [return 1]. *)
Definition teardown : prog unit :=
  issue Logger_Uninitialize ;;
  for_each (fun o => issue (Destroy_Sptr o)) (rev sptr_locals).

Definition main (fuel : nat) : prog Z :=
  issue Logger_Init ;;
  ok <- initGLFW e ;;
  if negb ok then ret 1 else
  ok <- initGLAD e ;;
  if negb ok then ret 1 else
  l <- setup ;;
  while_window_open e frame fuel 0 l ;;
  teardown ;;
  ret 0.

End Program.

End Part000.

(** ** Second program of src/projects/Week3-Starter/src/main.cpp
    (lines 219-442), the Week-5 project *)

Module Week5.

Definition initial_globals : globals :=
  {| window := nullptr; windowSize := glm_ivec2 800 800;
     windowTitle := "Mark Toufic - 100785011: Anthony Brown - 100748594" |}.

Record locals : Type := {
  camera : Camera;
  transform : mat4;
  transform2 : mat4;
  isRotating : bool;
  isButtonPressed : bool
}.

(** The locals of [main] that are [Sptr] smart pointers, in the order of
    their declarations (lines 356 and 372); [shader] is a plain pointer. *)
Definition sptr_locals : list object := [ "camera"; "vao4" ].

Section Program.

Variable e : environment.

(** Lines 335-377. *)
Definition setup : prog locals :=
  issue (glEnable GL_DEBUG_OUTPUT) ;;
  issue (glEnable GL_DEBUG_OUTPUT_SYNCHRONOUS) ;;
  issue glDebugMessageCallback ;;
  issue (Construct_Shader "shader") ;;
  issue (LoadShaderPartFromFile "shader" "shaders/vertex_shader.glsl" ShaderPartType_Vertex) ;;
  issue (LoadShaderPartFromFile "shader" "shaders/frag_shader.glsl" ShaderPartType_Fragment) ;;
  issue (Shader_Link "shader") ;;
  issue (glEnable GL_DEPTH_TEST) ;;
  issue (glEnable GL_CULL_FACE) ;;
  issue (glCullFace GL_BACK) ;;
  issue (glClearColor (f32 0.2) (f32 0.2) (f32 0.2) (f32 1.0)) ;;
  let camera := ret_Camera_Create e in
  let camera := SetPosition (glm_vec3 (f32 0) (f32 15) (f32 15)) camera in
  let camera := LookAt (glm_vec3 (f32 0.0) (f32 0.0) (f32 0.0)) camera in
  let transform := glm_mat4 (f32 1.0) in
  let transform2 := glm_mat4 (f32 1.0) in
  issue glfwGetTime ;;
  issue (LOG LOG_INFO "Starting mesh build") ;;
  issue (ObjLoader_LoadFromFile "vao4" "Dagger.obj") ;;
  let isRotating := true in
  let isButtonPressed := false in
  ret {| camera := camera; transform := transform; transform2 := transform2;
         isRotating := isRotating; isButtonPressed := isButtonPressed |}.

(** Lines 385-399: the two tests of the space key.  [glfwGetKey] reads
    the state that the last [glfwPollEvents] left, so both calls of one
    turn read the same value. *)
Definition input_handling (k : nat) (l : locals) : prog locals :=
  g <- get_globals ;;
  issue (glfwGetKey (window g) GLFW_KEY_SPACE) ;;
  let key1 := ret_glfwGetKey_space (frames e k) in
  if negb (key1 =? 0) && Bool.eqb (isButtonPressed l) false then
    let camera := SetOrthoEnabled true (camera l) in
    let camera := SetOrthoVerticalScale (f32 (-20.0)) camera in
    ret {| camera := camera; transform := transform l; transform2 := transform2 l;
           isRotating := isRotating l; isButtonPressed := true |}
  else
    issue (glfwGetKey (window g) GLFW_KEY_SPACE) ;;
    let key2 := ret_glfwGetKey_space (frames e k) in
    if negb (key2 =? 0) && Bool.eqb (isButtonPressed l) true then
      let camera := SetOrthoEnabled false (camera l) in
      let camera := SetPosition (glm_vec3 (f32 0) (f32 15) (f32 15)) camera in
      ret {| camera := camera; transform := transform l; transform2 := transform2 l;
             isRotating := isRotating l; isButtonPressed := false |}
    else ret l.

(** Lines 401-437: a turn of the loop after its input handling.  [dt] is
    computed and never read. *)
Definition render (k : nat) (l : locals) : prog locals :=
  issue glfwGetTime ;;
  let thisFrame := ret_glfwGetTime (frames e k) in
  let transform :=
    if isRotating l
    then glm_rotate (glm_mat4 (f32 1.0)) (static_cast_float thisFrame)
                    (glm_vec3 (f32 0) (f32 0) (f32 1))
    else transform l in
  let transform2 :=
    mat4_mul
      (glm_rotate (glm_mat4 (f32 1.0)) (static_cast_float thisFrame)
                  (glm_vec3 (f32 0) (f32 1) (f32 0)))
      (glm_translate (glm_mat4 (f32 1.0))
                     (glm_vec3 (f32 10) (f32 0.0) (glm_sin (static_cast_float thisFrame)))) in
  issue (glClear clear_mask) ;;
  issue (Shader_Bind "shader") ;;
  issue (SetUniformMatrix "shader" "u_ModelViewProjection"
           (mat4_mul (GetViewProjection (camera l)) transform)) ;;
  issue (VertexArrayObject_Draw "vao4") ;;
  issue (SetUniformMatrix "shader" "u_ModelViewProjection"
           (mat4_mul (GetViewProjection (camera l)) transform2)) ;;
  issue (VertexArrayObject_Draw "vao4") ;;
  issue VertexArrayObject_Unbind ;;
  g <- get_globals ;;
  issue (glfwSwapBuffers (window g)) ;;
  ret {| camera := camera l; transform := transform; transform2 := transform2;
         isRotating := isRotating l; isButtonPressed := isButtonPressed l |}.

(** Lines 382-437: one turn of the loop. *)
Definition frame (k : nat) (l : locals) : prog locals :=
  pollEvents e k ;;
  l <- input_handling k l ;;
  render k l.

(** Lines 440-442: [Logger::Uninitialize()], then [return 0], which destroys
    the [Sptr] locals of [main], the last declared first.  No local is in
    scope at the two [return 1]. *)
Definition teardown : prog unit :=
  issue Logger_Uninitialize ;;
  for_each (fun o => issue (Destroy_Sptr o)) (rev sptr_locals).

Definition main (fuel : nat) : prog Z :=
  issue Logger_Init ;;
  ok <- initGLFW e ;;
  if negb ok then ret 1 else
  ok <- initGLAD e ;;
  if negb ok then ret 1 else
  l <- setup ;;
  while_window_open e frame fuel 0 l ;;
  teardown ;;
  ret 0.

End Program.

End Week5.

(** ** The three programs under one name *)

Inductive project : Type := P_Week3 | P_Part000 | P_Week5.

(** A run of [main] that may test the should-close flag [fuel] times: its
    exit code ([None] when it is still in its loop after that), the globals
    it leaves and the calls it issued. *)
Definition run_main (p : project) (e : environment) (fuel : nat)
  : option Z * globals * list call :=
  match p with
  | P_Week3 => Week3.main e fuel Week3.initial_globals
  | P_Part000 => Part000.main e fuel Part000.initial_globals
  | P_Week5 => Week5.main e fuel Week5.initial_globals
  end.

(** The parts of a program, by project. *)
Definition locals_of (p : project) : Type :=
  match p with
  | P_Week3 => Week3.locals
  | P_Part000 => Part000.locals
  | P_Week5 => Week5.locals
  end.

Definition initial_globals_of (p : project) : globals :=
  match p with
  | P_Week3 => Week3.initial_globals
  | P_Part000 => Part000.initial_globals
  | P_Week5 => Week5.initial_globals
  end.

Definition setup_of (p : project) (e : environment) : prog (locals_of p) :=
  match p return prog (locals_of p) with
  | P_Week3 => Week3.setup
  | P_Part000 => Part000.setup e
  | P_Week5 => Week5.setup e
  end.

Definition frame_of (p : project) (e : environment) : nat -> locals_of p -> prog (locals_of p) :=
  match p return nat -> locals_of p -> prog (locals_of p) with
  | P_Week3 => Week3.frame e
  | P_Part000 => Part000.frame e
  | P_Week5 => Week5.frame e
  end.

(** A turn of the loop after its [glfwPollEvents]. *)
Definition after_poll_of (p : project) (e : environment) : nat -> locals_of p -> prog (locals_of p) :=
  match p return nat -> locals_of p -> prog (locals_of p) with
  | P_Week3 => Week3.render
  | P_Part000 => Part000.render e
  | P_Week5 => fun k l => l <- Week5.input_handling e k l ;; Week5.render e k l
  end.

Definition teardown_of (p : project) : prog unit :=
  match p with
  | P_Week3 => Week3.teardown
  | P_Part000 => Part000.teardown
  | P_Week5 => Week5.teardown
  end.

(** The [Sptr] locals of [main], in the order of their declarations. *)
Definition sptr_locals_of (p : project) : list object :=
  match p with
  | P_Week3 => []
  | P_Part000 => Part000.sptr_locals
  | P_Week5 => Week5.sptr_locals
  end.

(** What [return 0] leaves to be done: the destructors of the [Sptr] locals,
    the last declared first. *)
Definition scope_exit (p : project) : list call :=
  map Destroy_Sptr (rev (sptr_locals_of p)).

(** The body that the three [main] functions share. *)
Definition main_skeleton {L : Type} (e : environment) (setup : prog L)
           (frame : nat -> L -> prog L) (teardown : prog unit) (fuel : nat) : prog Z :=
  issue Logger_Init ;;
  ok <- initGLFW e ;;
  if negb ok then ret 1 else
  ok <- initGLAD e ;;
  if negb ok then ret 1 else
  l <- setup ;;
  while_window_open e frame fuel 0 l ;;
  teardown ;;
  ret 0.

(** ** Vocabulary of the statements *)

(** Both initialisations succeed. *)
Definition init_succeeds (e : environment) : Prop :=
  ret_glfwInit e = GLFW_TRUE /\ ret_gladLoadGLLoader e <> 0.

(** From loop test [k] on, the should-close flag reads unset at [n] tests
    and set at the next one. *)
Definition closes_from (e : environment) (k n : nat) : Prop :=
  (forall i, (i < n)%nat -> ret_glfwWindowShouldClose (frames e (k + i)) = 0) /\
  ret_glfwWindowShouldClose (frames e (k + n)) <> 0.

(** The flag reads unset at the first [n] loop tests of a run and set at the
    next one. *)
Definition closes_at (e : environment) (n : nat) : Prop := closes_from e 0 n.

(** The calls of a program that runs from [g]. *)
Definition calls_of {A : Type} (m : prog A) (g : globals) : list call := snd (m g).

(** The exit code and the calls of a run. *)
Definition exit_code (r : option Z * globals * list call) : option Z := fst (fst r).
Definition calls (r : option Z * globals * list call) : list call := snd r.

Definition setup_calls (p : project) (e : environment) : list call :=
  calls_of (setup_of p e) (initial_globals_of p).

Definition teardown_calls (p : project) : list call :=
  calls_of (teardown_of p) (initial_globals_of p).

(** Locals and globals at the top of turn [k] of the loop, that is after a
    successful initialisation, the set-up and [k] turns. *)
Definition top_of_turn (p : project) (e : environment) (k : nat)
  : option (locals_of p * globals) :=
  match (l <- setup_of p e ;; run_frames (frame_of p e) k 0 l)
          (with_window (ret_glfwCreateWindow e) (initial_globals_of p)) with
  | (Some l, g, _) => Some (l, g)
  | (None, _, _) => None
  end.

(** One turn in the list of calls: the loop test on the window [w], then
    calls that satisfy [F]. *)
Definition turn (w : pointer) (F : list call -> Prop) (f : list call) : Prop :=
  exists t, f = glfwWindowShouldClose w :: t /\ F t.

Definition count_calls (f : call -> bool) (t : list call) : nat :=
  List.length (filter f t).

Definition is_glfwWindowShouldClose (c : call) : bool :=
  match c with glfwWindowShouldClose _ => true | _ => false end.

Definition is_glfwSwapBuffers (c : call) : bool :=
  match c with glfwSwapBuffers _ => true | _ => false end.

Definition is_vertex_compile (c : call) : bool :=
  match c with LoadShaderPartFromFile _ _ ShaderPartType_Vertex => true | _ => false end.

Definition is_fragment_compile (c : call) : bool :=
  match c with LoadShaderPartFromFile _ _ ShaderPartType_Fragment => true | _ => false end.

Definition is_link (c : call) : bool :=
  match c with Shader_Link _ => true | _ => false end.

Definition is_draw (c : call) : bool :=
  match c with
  | glDrawArrays _ _ _ | glDrawElements _ _ _ | VertexArrayObject_Draw _ => true
  | _ => false
  end.

(** The phases of a run.  Logging, switches of GL state, timer readings,
    deletions and the destructors run at [return 0] belong to no phase. *)
Inductive phase : Type := Initialisation | GeometryUpload | ShaderBuild | RenderLoop.

Definition phase_of (c : call) : option phase :=
  match c with
  | glfwInit | glfwCreateWindow _ _ _ | glfwMakeContextCurrent _
  | glfwSetWindowSizeCallback _ | gladLoadGLLoader => Some Initialisation
  | Construct_VertexBuffer _ | Construct_IndexBuffer _ | Construct_VertexArrayObject _
  | VertexBuffer_LoadData _ _ _ | IndexBuffer_LoadData _ _ _
  | AddVertexBuffer _ _ _ | SetIndexBuffer _ _ | ObjLoader_LoadFromFile _ _ => Some GeometryUpload
  | Construct_Shader _ | LoadShaderPartFromFile _ _ _ | Shader_Link _ => Some ShaderBuild
  | glfwWindowShouldClose _ | glfwPollEvents | glfwGetKey _ _ | glViewport _ _ _ _
  | glClear _ | Shader_Bind _ | SetUniformMatrix _ _ _
  | VertexArrayObject_Bind _ | VertexArrayObject_Unbind | VertexArrayObject_Draw _
  | glDrawArrays _ _ _ | glDrawElements _ _ _ | glfwSwapBuffers _ => Some RenderLoop
  | _ => None
  end.

(** The order of the phases as the specification gives it. *)
Definition claimed_rank (ph : phase) : nat :=
  match ph with
  | Initialisation => 0 | GeometryUpload => 1 | ShaderBuild => 2 | RenderLoop => 3
  end.

(** The order of the phases in each program: the Week-5 program builds its
    shader before it loads its mesh. *)
Definition rank_of (p : project) (ph : phase) : nat :=
  match p, ph with
  | _, Initialisation => 0
  | P_Week5, ShaderBuild => 1
  | P_Week5, GeometryUpload => 2
  | _, GeometryUpload => 1
  | _, ShaderBuild => 2
  | _, RenderLoop => 3
  end.

Fixpoint ranks (rank : phase -> nat) (t : list call) : list nat :=
  match t with
  | [] => []
  | c :: t' =>
      match phase_of c with
      | Some ph => rank ph :: ranks rank t'
      | None => ranks rank t'
      end
  end.

Fixpoint nondecreasing (l : list nat) : bool :=
  match l with
  | a :: (b :: _) as l' => (a <=? b)%nat && nondecreasing l'
  | _ => true
  end.

(** No call of a later phase comes before a call of an earlier one. *)
Definition in_phase_order (rank : phase -> nat) (t : list call) : Prop :=
  forall i j ri rj, (i < j)%nat ->
    nth_error (ranks rank t) i = Some ri -> nth_error (ranks rank t) j = Some rj ->
    (ri <= rj)%nat.

(** Exactly one vertex part and one fragment part are compiled and the pair
    is linked once. *)
Definition one_shader_pair (t : list call) : Prop :=
  count_calls is_vertex_compile t = 1%nat /\
  count_calls is_fragment_compile t = 1%nat /\
  count_calls is_link t = 1%nat.

(** An index buffer is loaded with the six indices and the count 6, and an
    indexed draw has the count 6. *)
Definition loads_and_draws_6 (c : call) : Prop :=
  match c with
  | IndexBuffer_LoadData _ data count => data = [3; 0; 1; 3; 1; 2] /\ count = 6
  | glDrawElements _ count _ => count = 6
  | _ => True
  end.

(** Going through the calls in order, a draw call is met only once a link
    has been met; [linked] tells whether one was met before [t]. *)
Fixpoint no_draw_before_link (linked : bool) (t : list call) : bool :=
  match t with
  | [] => true
  | c :: t' =>
      (negb (is_draw c) || linked) && no_draw_before_link (linked || is_link c) t'
  end.

(** A call of one of the steps that follow the initialisation: a geometry
    upload, a shader compilation or link, a call of the render loop. *)
Definition is_later_step (c : call) : bool :=
  match phase_of c with
  | Some GeometryUpload | Some ShaderBuild | Some RenderLoop => true
  | _ => false
  end.

(** What every call of a turn satisfies: it belongs to the render loop or to
    no phase, it is not the loop test, and when it is [glDrawElements] its
    count is 6. *)
Definition turn_call (c : call) : bool :=
  match phase_of c with
  | Some RenderLoop | None => true
  | _ => false
  end
  && negb (is_glfwWindowShouldClose c)
  && match c with
     | glDrawElements _ count _ => count =? 6
     | _ => true
     end.

(** What the calls of a turn after the loop test satisfy: one swap of the
    buffers, and [turn_call] throughout. *)
Definition turn_calls (t : list call) : Prop :=
  forallb turn_call t = true /\ count_calls is_glfwSwapBuffers t = 1%nat.

(** What the locals of a program keep through the loop: the element counts
    of its index buffers. *)
Definition locals_inv (p : project) : locals_of p -> Prop :=
  match p return locals_of p -> Prop with
  | P_Week3 => fun l => IndexBuffer.GetElementCount (Week3.interleaved_ibo l) = 6
  | P_Part000 => fun l =>
      IndexBuffer.GetElementCount (Part000.interleaved_ibo l) = 6 /\
      IndexBuffer.GetElementCount (Part000.interleaved_ibo1 l) = 6
  | P_Week5 => fun _ => True
  end.

(** ** What [glfwPollEvents] leaves behind *)

Definition resize (g : globals) (wh : Z * Z) : globals :=
  with_windowSize (glm_ivec2 (fst wh) (snd wh)) g.

Definition apply_resizes (rs : list (Z * Z)) (g : globals) : globals :=
  fold_left resize rs g.

Definition viewport_calls (rs : list (Z * Z)) : list call :=
  map (fun wh => glViewport 0 0 (fst wh) (snd wh)) rs.

(** The calls of a successful initialisation. *)
Definition init_calls (e : environment) (g : globals) : list call :=
  [ Logger_Init; glfwInit;
    glfwCreateWindow (ivec2_x (windowSize g)) (ivec2_y (windowSize g)) (windowTitle g);
    glfwMakeContextCurrent (ret_glfwCreateWindow e);
    glfwSetWindowSizeCallback (ret_glfwCreateWindow e);
    gladLoadGLLoader ].

(** ** Sample environments *)

Definition sample_camera : Camera :=
  {| cam_position := glm_vec3 (f32 0) (f32 0) (f32 0);
     cam_lookAt := None;
     cam_isOrtho := false;
     cam_orthoVerticalScale := f32 1 |}.

(** The window is open for two turns; it is resized during the first one and
    the space key is down during both. *)
Definition sample_frames (k : nat) : frame_input :=
  match k with
  | 0%nat => {| ret_glfwWindowShouldClose := 0; resize_events := [(640, 480)];
                ret_glfwGetKey_space := 1; ret_glfwGetTime := 17 |}
  | 1%nat => {| ret_glfwWindowShouldClose := 0; resize_events := [];
                ret_glfwGetKey_space := 1; ret_glfwGetTime := 18 |}
  | _ => {| ret_glfwWindowShouldClose := 1; resize_events := [];
            ret_glfwGetKey_space := 0; ret_glfwGetTime := 19 |}
  end.

Definition sample_env : environment :=
  {| ret_glfwInit := GLFW_TRUE; ret_glfwCreateWindow := 4096;
     ret_gladLoadGLLoader := 1;
     ret_Camera_Create := sample_camera; frames := sample_frames |}.

(** [glfwInit] fails. *)
Definition no_glfw_env : environment :=
  {| ret_glfwInit := GLFW_FALSE; ret_glfwCreateWindow := 4096;
     ret_gladLoadGLLoader := 1;
     ret_Camera_Create := sample_camera; frames := sample_frames |}.

(** [glfwCreateWindow] fails, everything else succeeds. *)
Definition no_window_env : environment :=
  {| ret_glfwInit := GLFW_TRUE; ret_glfwCreateWindow := nullptr;
     ret_gladLoadGLLoader := 1;
     ret_Camera_Create := sample_camera; frames := sample_frames |}.

(** ** Vocabulary of the further properties *)

(** A call that takes a window handle is given [w]. *)
Definition window_ok (w : pointer) (c : call) : bool :=
  match c with
  | glfwMakeContextCurrent w' | glfwSetWindowSizeCallback w'
  | glfwWindowShouldClose w' | glfwGetKey w' _ | glfwSwapBuffers w' => w' =? w
  | _ => true
  end.

(** The calls that a turn of a loop issues after its test. *)
Definition loop_only (c : call) : bool :=
  match c with
  | glfwPollEvents | glViewport _ _ _ _ | glfwGetKey _ _ | glfwGetTime
  | glClearColor _ _ _ _ | glClear _ | Shader_Bind _ | SetUniformMatrix _ _ _
  | VertexArrayObject_Bind _ | VertexArrayObject_Unbind | VertexArrayObject_Draw _
  | glDrawArrays _ _ _ | glDrawElements _ _ _ | glfwSwapBuffers _ => true
  | _ => false
  end.

Definition is_glViewport (c : call) : bool :=
  match c with glViewport _ _ _ _ => true | _ => false end.

Definition is_glClear (c : call) : bool :=
  match c with glClear _ => true | _ => false end.

Definition is_glfwPollEvents (c : call) : bool :=
  match c with glfwPollEvents => true | _ => false end.

Definition is_glDrawArrays (c : call) : bool :=
  match c with glDrawArrays _ _ _ => true | _ => false end.

Definition is_glDrawElements (c : call) : bool :=
  match c with glDrawElements _ _ _ => true | _ => false end.

Definition is_VertexArrayObject_Draw (c : call) : bool :=
  match c with VertexArrayObject_Draw _ => true | _ => false end.

Definition is_gladLoadGLLoader (c : call) : bool :=
  match c with gladLoadGLLoader => true | _ => false end.

Definition is_glfwMakeContextCurrent (c : call) : bool :=
  match c with glfwMakeContextCurrent _ => true | _ => false end.

Definition is_glfwCreateWindow (c : call) : bool :=
  match c with glfwCreateWindow _ _ _ => true | _ => false end.

Definition is_Logger_Init (c : call) : bool :=
  match c with Logger_Init => true | _ => false end.

Definition is_Logger_Uninitialize (c : call) : bool :=
  match c with Logger_Uninitialize => true | _ => false end.

Definition is_Delete (c : call) : bool :=
  match c with Delete _ => true | _ => false end.

Definition is_Destroy_Sptr (c : call) : bool :=
  match c with Destroy_Sptr _ => true | _ => false end.

(** The draw calls of one turn: [glDrawArrays], [glDrawElements] and
    [vao->Draw()], in this order. *)
Definition draws_per_turn (p : project) : nat * nat * nat :=
  match p with
  | P_Week3 => (1, 1, 0)
  | P_Part000 => (1, 2, 0)
  | P_Week5 => (0, 0, 2)
  end%nat.

(** The vertex arrays that are given an index buffer. *)
Definition indexed_vaos (t : list call) : list object :=
  flat_map (fun c => match c with SetIndexBuffer vao _ => [vao] | _ => [] end) t.

Definition indexed_of (p : project) : list object :=
  match p with
  | P_Week3 => ["vao2"]
  | P_Part000 => ["vao2"; "vao3"]
  | P_Week5 => []
  end.

(** A [glDrawArrays] call comes right after the bind of a vertex array, a
    [glDrawElements] call right after the bind of one of the vertex arrays
    [indexed]; [prev] is the call before [c]. *)
Definition bound_for (indexed : list object) (prev : option call) (c : call) : bool :=
  match c with
  | glDrawArrays _ _ _ =>
      match prev with
      | Some (VertexArrayObject_Bind _) => true
      | _ => false
      end
  | glDrawElements _ _ _ =>
      match prev with
      | Some (VertexArrayObject_Bind vao) => existsb (String.eqb vao) indexed
      | _ => false
      end
  | _ => true
  end.

Fixpoint draws_follow_binds (indexed : list object) (prev : option call)
         (t : list call) : bool :=
  match t with
  | [] => true
  | c :: t' => bound_for indexed prev c && draws_follow_binds indexed (Some c) t'
  end.

(** What the calls of a turn after the loop test satisfy, beyond
    [turn_calls]: they are calls of a loop, on the window [w], with one
    [glfwPollEvents], one [glClear] and the draws of the program, each GL
    draw right after its bind. *)
Definition turn_facts (p : project) (w : pointer) (t : list call) : Prop :=
  forallb (fun c => loop_only c && window_ok w c) t = true /\
  count_calls is_glfwPollEvents t = 1%nat /\
  count_calls is_glClear t = 1%nat /\
  (count_calls is_glDrawArrays t, count_calls is_glDrawElements t,
   count_calls is_VertexArrayObject_Draw t) = draws_per_turn p /\
  forall prev, draws_follow_binds (indexed_of p) prev t = true.

(** The size that the [glViewport] calls of [t] leave, from the size [s]. *)
Definition viewport_size (s : ivec2) (t : list call) : ivec2 :=
  fold_left (fun s c => match c with
                        | glViewport _ _ w h => glm_ivec2 w h
                        | _ => s
                        end) t s.

(** The resizes dispatched in the first [n] turns, in order. *)
Definition resizes_through (e : environment) (n : nat) : list (Z * Z) :=
  flat_map (fun i => resize_events (frames e i)) (seq 0 n).

(** The objects constructed and the objects deleted, in order. *)
Definition constructed (t : list call) : list object :=
  flat_map (fun c => match c with
                     | Construct_VertexBuffer o | Construct_IndexBuffer o
                     | Construct_VertexArrayObject o | Construct_Shader o => [o]
                     | _ => []
                     end) t.

Definition deleted (t : list call) : list object :=
  flat_map (fun c => match c with Delete o => [o] | _ => [] end) t.

(** The uniforms uploaded, in order. *)
Definition uniform_uploads (t : list call) : list (string * mat4) :=
  flat_map (fun c => match c with
                     | SetUniformMatrix _ name value => [(name, value)]
                     | _ => []
                     end) t.

(** The calls of turn [k] of the loop, after its test. *)
Definition turn_calls_of (p : project) (e : environment) (k : nat) : list call :=
  match top_of_turn p e k with
  | Some (l, g) => calls_of (frame_of p e k l) g
  | None => []
  end.

(** In how many of the first [k] turns the space key is down. *)
Fixpoint key_down_turns (e : environment) (k : nat) : nat :=
  match k with
  | O => O
  | S k' =>
      if ret_glfwGetKey_space (frames e k') =? 0
      then key_down_turns e k'
      else S (key_down_turns e k')
  end.

(** Going through the calls in order, a call that satisfies [b] is met only
    once a call that satisfies [a] has been met; [seen] tells whether one was
    met before [t]. *)
Fixpoint each_preceded_by (a b : call -> bool) (seen : bool) (t : list call) : bool :=
  match t with
  | [] => true
  | c :: t' => (negb (b c) || seen) && each_preceded_by a b (seen || a c) t'
  end.

(** The globals that a run leaves. *)
Definition final_globals (r : option Z * globals * list call) : globals := snd (fst r).

(** ** Vertex arrays and index buffers, as the calls leave them *)

(** What the calls issued so far have left: the vertex array that is bound,
    the index buffer given to each vertex array and the count loaded into
    each index buffer, the latest entry first. *)
Record bindings : Type := {
  bound_vao : option object;
  index_buffer_of : list (object * object);
  loaded_count : list (object * Z)
}.

Definition no_bindings : bindings :=
  {| bound_vao := None; index_buffer_of := []; loaded_count := [] |}.

(** The latest entry for [o]. *)
Fixpoint lookup {A : Type} (o : object) (l : list (object * A)) : option A :=
  match l with
  | [] => None
  | (o', a) :: l' => if String.eqb o' o then Some a else lookup o l'
  end.

(** [vao->Draw()] is not under [src/]; it is taken to leave the bindings as
    they are.  The program that calls it issues no [glDrawElements]. *)
Definition track (s : bindings) (c : call) : bindings :=
  match c with
  | VertexArrayObject_Bind vao =>
      {| bound_vao := Some vao; index_buffer_of := index_buffer_of s;
         loaded_count := loaded_count s |}
  | VertexArrayObject_Unbind =>
      {| bound_vao := None; index_buffer_of := index_buffer_of s;
         loaded_count := loaded_count s |}
  | SetIndexBuffer vao ibo =>
      {| bound_vao := bound_vao s; index_buffer_of := (vao, ibo) :: index_buffer_of s;
         loaded_count := loaded_count s |}
  | IndexBuffer_LoadData ibo _ count =>
      {| bound_vao := bound_vao s; index_buffer_of := index_buffer_of s;
         loaded_count := (ibo, count) :: loaded_count s |}
  | _ => s
  end.

Definition bindings_after (t : list call) (s : bindings) : bindings := fold_left track t s.

(** The count last passed to [LoadData] on the index buffer of the vertex
    array that is bound. *)
Definition count_to_draw (s : bindings) : option Z :=
  match bound_vao s with
  | Some vao =>
      match lookup vao (index_buffer_of s) with
      | Some ibo => lookup ibo (loaded_count s)
      | None => None
      end
  | None => None
  end.

(** Going through the calls in order from the bindings [s]: each
    [glDrawElements] call is issued while a vertex array is bound that has
    an index buffer which has been loaded, and its count is the count of
    the last load. *)
Fixpoint draws_use_loaded_counts (s : bindings) (t : list call) : bool :=
  match t with
  | [] => true
  | c :: t' =>
      match c with
      | glDrawElements _ count _ =>
          match count_to_draw s with
          | Some n => count =? n
          | None => false
          end
      | _ => true
      end
      && draws_use_loaded_counts (track s c) t'
  end.

(** The [glDrawElements] calls of [t], in order, each with the vertex array
    that is bound when it is issued and with its count. *)
Fixpoint indexed_draws (s : bindings) (t : list call) : list (option object * Z) :=
  match t with
  | [] => []
  | c :: t' =>
      match c with
      | glDrawElements _ count _ => [(bound_vao s, count)]
      | _ => []
      end
      ++ indexed_draws (track s c) t'
  end.

(** The indexed meshes of a run: the vertex arrays given an index buffer,
    each with that buffer, in the order of the [SetIndexBuffer] calls. *)
Definition indexed_meshes (t : list call) : list (object * object) :=
  flat_map (fun c => match c with SetIndexBuffer vao ibo => [(vao, ibo)] | _ => [] end) t.

(** The array and the count of each [LoadData] call on the index buffer
    [ibo]. *)
Definition loads_of (ibo : object) (t : list call) : list (list Z * Z) :=
  flat_map (fun c => match c with
                     | IndexBuffer_LoadData o data count =>
                         if String.eqb o ibo then [(data, count)] else []
                     | _ => []
                     end) t.

Definition meshes_of (p : project) : list (object * object) :=
  match p with
  | P_Week3 => [("vao2", "interleaved_ibo")]
  | P_Part000 => [("vao2", "interleaved_ibo"); ("vao3", "interleaved_ibo1")]
  | P_Week5 => []
  end.

(** The index buffers among the locals of a program. *)
Definition index_buffers_of (p : project) : locals_of p -> list IndexBuffer.t :=
  match p return locals_of p -> list IndexBuffer.t with
  | P_Week3 => fun l => [Week3.interleaved_ibo l]
  | P_Part000 => fun l => [Part000.interleaved_ibo l; Part000.interleaved_ibo1 l]
  | P_Week5 => fun _ => []
  end.

(** The indexed draws that one turn of [p] is to issue. *)
Definition draws_of_a_turn (p : project) : list (option object * Z) :=
  map (fun m => (Some (fst m), 6)) (meshes_of p).

(** Bindings in which the index buffers of [p] are attached and loaded as
    its set-up leaves them, whatever is bound. *)
Definition buffers_of (p : project) (s : bindings) : Prop :=
  index_buffer_of s = rev (meshes_of p) /\
  loaded_count s = map (fun m => (snd m, 6)) (rev (meshes_of p)).

(** What the calls of a turn do from such bindings: every indexed draw uses
    the loaded count, the indexed draws are those of the program, and the
    buffers are left as they were. *)
Definition turn_draws (p : project) (t : list call) : Prop :=
  forall s, buffers_of p s ->
    draws_use_loaded_counts s t = true /\
    indexed_draws s t = draws_of_a_turn p /\
    buffers_of p (bindings_after t s).

(** * Properties *)

(** ** Events and the loop *)

Lemma apply_resizes_window rs g : window (apply_resizes rs g) = window g.
Proof.
  revert g; induction rs as [|wh rs IH]; intros g; simpl; [reflexivity|].
  unfold apply_resizes in IH; rewrite IH; reflexivity.
Qed.

Lemma for_each_resize rs g :
  for_each (fun wh => g0 <- get_globals ;;
                      GlfwWindowResizedCallback (window g0) (fst wh) (snd wh)) rs g
  = (Some tt, apply_resizes rs g, viewport_calls rs).
Proof.
  revert g; induction rs as [|wh rs IH]; intros g; [reflexivity|].
  cbn [for_each]. unfold bind at 1.
  unfold bind at 1, get_globals at 1. unfold GlfwWindowResizedCallback.
  unfold bind at 1, issue, set_windowSize. cbn [app].
  rewrite IH. reflexivity.
Qed.

Lemma pollEvents_spec e k g :
  pollEvents e k g
  = (Some tt, apply_resizes (resize_events (frames e k)) g,
     glfwPollEvents :: viewport_calls (resize_events (frames e k))).
Proof.
  unfold pollEvents, bind, issue. rewrite for_each_resize. reflexivity.
Qed.

Lemma bind_Some {A B : Type} (m : prog A) (f : A -> prog B) g a g1 t1 :
  m g = (Some a, g1, t1) ->
  bind m f g = match f a g1 with
               | (b, g2, t2) => (b, g2, t1 ++ t2)
               end.
Proof. intros H; unfold bind; rewrite H; reflexivity. Qed.

(** One more turn of the loop when the flag reads unset. *)
Lemma while_window_open_step {L : Type} e (body : nat -> L -> prog L) fuel k l g :
  ret_glfwWindowShouldClose (frames e k) = 0 ->
  while_window_open e body (S fuel) k l g
  = match body k l g with
    | (None, g1, t1) => (None, g1, glfwWindowShouldClose (window g) :: t1)
    | (Some l1, g1, t1) =>
        match while_window_open e body fuel (S k) l1 g1 with
        | (r, g2, t2) => (r, g2, glfwWindowShouldClose (window g) :: t1 ++ t2)
        end
    end.
Proof.
  intros H. cbn [while_window_open]. unfold bind at 1, get_globals at 1.
  unfold bind at 1, issue at 1. rewrite H. cbn [Z.eqb].
  unfold bind at 1. destruct (body k l g) as [[[l1|] g1] t1]; [|reflexivity].
  destruct (while_window_open e body fuel (S k) l1 g1) as [[r g2] t2]; reflexivity.
Qed.

(** The loop ends when the flag reads set. *)
Lemma while_window_open_exit {L : Type} e (body : nat -> L -> prog L) fuel k l g :
  ret_glfwWindowShouldClose (frames e k) <> 0 ->
  while_window_open e body (S fuel) k l g
  = (Some l, g, [glfwWindowShouldClose (window g)]).
Proof.
  intros H. cbn [while_window_open]. unfold bind at 1, get_globals at 1.
  unfold bind at 1, issue at 1.
  destruct (ret_glfwWindowShouldClose (frames e k) =? 0) eqn:E.
  - apply Z.eqb_eq in E. contradiction.
  - reflexivity.
Qed.

Lemma run_frames_step {L : Type} (body : nat -> L -> prog L) n k l g :
  run_frames body (S n) k l g
  = match body k l g with
    | (None, g1, t1) => (None, g1, glfwWindowShouldClose (window g) :: t1)
    | (Some l1, g1, t1) =>
        match run_frames body n (S k) l1 g1 with
        | (r, g2, t2) => (r, g2, glfwWindowShouldClose (window g) :: t1 ++ t2)
        end
    end.
Proof.
  cbn [run_frames]. unfold bind at 1, get_globals at 1.
  unfold bind at 1, issue at 1.
  unfold bind at 1. destruct (body k l g) as [[[l1|] g1] t1]; [|reflexivity].
  destruct (run_frames body n (S k) l1 g1) as [[r g2] t2]; reflexivity.
Qed.

Lemma closes_from_next e k n :
  closes_from e k (S n) ->
  ret_glfwWindowShouldClose (frames e k) = 0 /\ closes_from e (S k) n.
Proof.
  intros [H0 H1]. split.
  - specialize (H0 0%nat). rewrite Nat.add_0_r in H0. apply H0. lia.
  - split.
    + intros i Hi. replace (S k + i)%nat with (k + S i)%nat by lia. apply H0. lia.
    + replace (S k + n)%nat with (k + S n)%nat by lia. exact H1.
Qed.

Lemma closes_from_cons e k n :
  ret_glfwWindowShouldClose (frames e k) = 0 -> closes_from e (S k) n ->
  closes_from e k (S n).
Proof.
  intros H0 [H1 H2]. split.
  - intros [|i] Hi.
    + rewrite Nat.add_0_r. exact H0.
    + replace (k + S i)%nat with (S k + i)%nat by lia. apply H1. lia.
  - replace (k + S n)%nat with (S k + n)%nat by lia. exact H2.
Qed.

(** Within [fuel] tests from test [k] on, either the flag reads set at some
    test or it reads unset at all of them. *)
Lemma closes_or_stays_open e fuel :
  forall k,
  (exists n, closes_from e k n /\ (n < fuel)%nat) \/
  (forall i, (i < fuel)%nat -> ret_glfwWindowShouldClose (frames e (k + i)) = 0).
Proof.
  induction fuel as [|fuel IH]; intros k.
  - right. intros i Hi. lia.
  - destruct (Z.eq_dec (ret_glfwWindowShouldClose (frames e k)) 0) as [E|E].
    + destruct (IH (S k)) as [(n & Hn & Hlt)|Hopen].
      * left. exists (S n). split; [apply closes_from_cons; assumption | lia].
      * right. intros [|i] Hi.
        -- rewrite Nat.add_0_r. exact E.
        -- replace (k + S i)%nat with (S k + i)%nat by lia. apply Hopen. lia.
    + left. exists 0%nat. split; [|lia]. split; [intros i Hi; lia|].
      rewrite Nat.add_0_r. exact E.
Qed.

(** With enough fuel the loop is its first [n] turns followed by the test
    that ends it. *)
Lemma while_window_open_closes {L : Type} e (body : nat -> L -> prog L) n :
  forall fuel k l g, closes_from e k n -> (n < fuel)%nat ->
  while_window_open e body fuel k l g
  = match run_frames body n k l g with
    | (None, g', t) => (None, g', t)
    | (Some l', g', t) => (Some l', g', t ++ [glfwWindowShouldClose (window g')])
    end.
Proof.
  induction n as [|n IH]; intros fuel k l g Hc Hf.
  - destruct fuel as [|fuel]; [lia|].
    destruct Hc as [_ Hc]. rewrite Nat.add_0_r in Hc.
    rewrite while_window_open_exit by exact Hc. reflexivity.
  - destruct fuel as [|fuel]; [lia|].
    apply closes_from_next in Hc. destruct Hc as [H0 Hc].
    rewrite while_window_open_step by exact H0.
    rewrite run_frames_step.
    destruct (body k l g) as [[[l1|] g1] t1]; [|reflexivity].
    rewrite (IH fuel (S k) l1 g1 Hc) by lia.
    destruct (run_frames body n (S k) l1 g1) as [[[l2|] g2] t2]; [|reflexivity].
    cbn [app]. rewrite <- app_assoc. reflexivity.
Qed.

(** While the flag reads unset the loop is the turns that its fuel allows,
    and it has not ended. *)
Lemma while_window_open_stays_open {L : Type} e (body : nat -> L -> prog L) :
  forall fuel k l g,
  (forall i, (i < fuel)%nat -> ret_glfwWindowShouldClose (frames e (k + i)) = 0) ->
  while_window_open e body fuel k l g
  = match run_frames body fuel k l g with
    | (_, g', t) => (None, g', t)
    end.
Proof.
  induction fuel as [|fuel IH]; intros k l g Hopen; [reflexivity|].
  assert (H0 : ret_glfwWindowShouldClose (frames e k) = 0).
  { specialize (Hopen 0%nat). rewrite Nat.add_0_r in Hopen. apply Hopen. lia. }
  rewrite while_window_open_step by exact H0. rewrite run_frames_step.
  destruct (body k l g) as [[[l1|] g1] t1]; [|reflexivity].
  rewrite IH.
  - destruct (run_frames body fuel (S k) l1 g1) as [[r g2] t2]. reflexivity.
  - intros i Hi. replace (S k + i)%nat with (k + S i)%nat by lia. apply Hopen. lia.
Qed.

(** An invariant of the turns, with what each turn issues. *)
Lemma run_frames_inv {L : Type} (body : nat -> L -> prog L)
      (I : nat -> L -> globals -> Prop) (w : pointer) (F : list call -> Prop) :
  (forall k l g, I k l g -> window g = w) ->
  (forall k l g, I k l g ->
     exists l1 g1 t1, body k l g = (Some l1, g1, t1) /\ I (S k) l1 g1 /\ F t1) ->
  forall n k l g, I k l g ->
    exists l' g' fs,
      run_frames body n k l g = (Some l', g', List.concat fs) /\
      I (k + n)%nat l' g' /\ List.length fs = n /\ Forall (turn w F) fs.
Proof.
  intros Hw Hbody. induction n as [|n IH]; intros k l g HI.
  - exists l, g, []. rewrite Nat.add_0_r. repeat split; auto.
  - destruct (Hbody k l g HI) as (l1 & g1 & t1 & Hb & HI1 & HF).
    destruct (IH (S k) l1 g1 HI1) as (l' & g' & fs & Hr & HI' & Hlen & Hall).
    exists l', g', ((glfwWindowShouldClose (window g) :: t1) :: fs).
    rewrite run_frames_step, Hb, Hr.
    replace (k + S n)%nat with (S k + n)%nat by lia.
    repeat split; auto.
    + cbn [List.length]. lia.
    + constructor; [|exact Hall]. exists t1. rewrite (Hw k l g HI). split; auto.
Qed.

(** The last turn split off. *)
Lemma run_frames_snoc {L : Type} (body : nat -> L -> prog L) :
  forall n k l g,
  run_frames body (S n) k l g
  = match run_frames body n k l g with
    | (None, g1, t1) => (None, g1, t1)
    | (Some l1, g1, t1) =>
        match body (k + n)%nat l1 g1 with
        | (r, g2, t2) => (r, g2, t1 ++ glfwWindowShouldClose (window g1) :: t2)
        end
    end.
Proof.
  induction n as [|n IH]; intros k l g.
  - rewrite run_frames_step. cbn [run_frames]. unfold ret. rewrite Nat.add_0_r.
    destruct (body k l g) as [[[l1|] g1] t1]; [|reflexivity].
    rewrite app_nil_r. reflexivity.
  - rewrite run_frames_step. rewrite (run_frames_step body n k l g).
    destruct (body k l g) as [[[l1|] g1] t1]; [|reflexivity].
    rewrite IH.
    destruct (run_frames body n (S k) l1 g1) as [[[l2|] g2] t2]; [|reflexivity].
    replace (S k + n)%nat with (k + S n)%nat by lia.
    destruct (body (k + S n)%nat l2 g2) as [[r g3] t3].
    cbn [app]. rewrite <- app_assoc. reflexivity.
Qed.

(** Facts about the calls of the turns. *)
Lemma turns_Forall w (F : list call -> Prop) (P : call -> Prop) fs :
  P (glfwWindowShouldClose w) ->
  (forall t, F t -> Forall P t) ->
  Forall (turn w F) fs -> Forall P (List.concat fs).
Proof.
  intros Hw HF Hall. apply Forall_concat.
  eapply Forall_impl; [|exact Hall].
  intros f (t & -> & Ht). constructor; auto.
Qed.

Lemma count_calls_app f t1 t2 :
  count_calls f (t1 ++ t2) = (count_calls f t1 + count_calls f t2)%nat.
Proof. unfold count_calls. rewrite filter_app, length_app. reflexivity. Qed.

Lemma count_calls_zero f t :
  (forall c, In c t -> f c = false) -> count_calls f t = 0%nat.
Proof.
  induction t as [|c t IH]; intros H; [reflexivity|].
  unfold count_calls in *. cbn [filter]. rewrite (H c (or_introl eq_refl)).
  apply IH. intros c' Hc'. apply H. right. exact Hc'.
Qed.

Lemma turns_count w (F : list call -> Prop) (c : call -> bool) (m : nat) fs :
  c (glfwWindowShouldClose w) = false ->
  (forall t, F t -> count_calls c t = m) ->
  Forall (turn w F) fs ->
  count_calls c (List.concat fs) = (List.length fs * m)%nat.
Proof.
  intros Hw HF Hall. induction Hall as [|f fs (t & -> & Ht) _ IH]; [reflexivity|].
  cbn [List.concat List.length]. rewrite count_calls_app, IH.
  unfold count_calls at 1. cbn [filter]. rewrite Hw.
  fold (count_calls c t). rewrite (HF t Ht). lia.
Qed.

Lemma turns_count_tests w (F : list call -> Prop) fs :
  (forall t, F t -> count_calls is_glfwWindowShouldClose t = 0%nat) ->
  Forall (turn w F) fs ->
  count_calls is_glfwWindowShouldClose (List.concat fs) = List.length fs.
Proof.
  intros HF Hall. induction Hall as [|f fs (t & -> & Ht) _ IH]; [reflexivity|].
  cbn [List.concat List.length]. rewrite count_calls_app, IH.
  unfold count_calls at 1. cbn [filter is_glfwWindowShouldClose List.length].
  fold (count_calls is_glfwWindowShouldClose t). rewrite (HF t Ht). lia.
Qed.

(** ** The parts of [main] *)

Lemma run_main_skeleton p e fuel :
  run_main p e fuel
  = main_skeleton e (setup_of p e) (frame_of p e) (teardown_of p) fuel (initial_globals_of p).
Proof. destruct p; reflexivity. Qed.

Lemma setup_of_spec p e g :
  exists l, setup_of p e g = (Some l, g, setup_calls p e).
Proof. destruct p; eexists; reflexivity. Qed.

Lemma teardown_of_spec p g : teardown_of p g = (Some tt, g, teardown_calls p).
Proof. destruct p; reflexivity. Qed.

Lemma initGLFW_fails e g :
  ret_glfwInit e = GLFW_FALSE ->
  initGLFW e g = (Some false, g, [glfwInit; LOG LOG_ERROR "Failed to initialize GLFW"]).
Proof. intros H. unfold initGLFW, bind, issue. rewrite H. reflexivity. Qed.

Lemma initGLFW_succeeds e g :
  ret_glfwInit e = GLFW_TRUE ->
  initGLFW e g
  = (Some true, with_window (ret_glfwCreateWindow e) g,
     [ glfwInit;
       glfwCreateWindow (ivec2_x (windowSize g)) (ivec2_y (windowSize g)) (windowTitle g);
       glfwMakeContextCurrent (ret_glfwCreateWindow e);
       glfwSetWindowSizeCallback (ret_glfwCreateWindow e) ]).
Proof. intros H. unfold initGLFW, bind, issue. rewrite H. reflexivity. Qed.

Lemma initGLAD_fails e g :
  ret_gladLoadGLLoader e = 0 ->
  initGLAD e g = (Some false, g, [gladLoadGLLoader; LOG LOG_ERROR "Failed to initialize Glad"]).
Proof. intros H. unfold initGLAD, bind, issue. rewrite H. reflexivity. Qed.

Lemma initGLAD_succeeds e g :
  ret_gladLoadGLLoader e <> 0 ->
  initGLAD e g = (Some true, g, [gladLoadGLLoader]).
Proof.
  intros H. unfold initGLAD, bind, issue.
  destruct (ret_gladLoadGLLoader e =? 0) eqn:E; [apply Z.eqb_eq in E; contradiction|].
  reflexivity.
Qed.

Lemma run_main_glfw_fails p e fuel :
  ret_glfwInit e = GLFW_FALSE ->
  run_main p e fuel
  = (Some 1, initial_globals_of p,
     [Logger_Init; glfwInit; LOG LOG_ERROR "Failed to initialize GLFW"]).
Proof.
  intros H. rewrite run_main_skeleton. unfold main_skeleton.
  unfold bind at 1, issue at 1.
  rewrite (bind_Some _ _ _ _ _ _ (initGLFW_fails e _ H)). reflexivity.
Qed.

Lemma run_main_glad_fails p e fuel :
  ret_glfwInit e = GLFW_TRUE -> ret_gladLoadGLLoader e = 0 ->
  run_main p e fuel
  = (Some 1, with_window (ret_glfwCreateWindow e) (initial_globals_of p),
     init_calls e (initial_globals_of p) ++ [LOG LOG_ERROR "Failed to initialize Glad"]).
Proof.
  intros H1 H2. rewrite run_main_skeleton. unfold main_skeleton.
  unfold bind at 1, issue at 1.
  rewrite (bind_Some _ _ _ _ _ _ (initGLFW_succeeds e _ H1)). cbn [negb].
  rewrite (bind_Some _ _ _ _ _ _ (initGLAD_fails e _ H2)). reflexivity.
Qed.

(** A run whose initialisation succeeds is the initialisation, the set-up
    and the loop, and, once the loop has ended, the teardown and the exit
    code 0. *)
Lemma run_main_success p e fuel :
  init_succeeds e ->
  exists l0,
    (forall g, setup_of p e g = (Some l0, g, setup_calls p e)) /\
    run_main p e fuel
    = match while_window_open e (frame_of p e) fuel 0 l0
              (with_window (ret_glfwCreateWindow e) (initial_globals_of p)) with
      | (None, g, tl) =>
          (None, g, init_calls e (initial_globals_of p) ++ setup_calls p e ++ tl)
      | (Some _, g, tl) =>
          (Some 0, g, init_calls e (initial_globals_of p) ++ setup_calls p e
                        ++ tl ++ teardown_calls p)
      end.
Proof.
  intros [Hglfw Hglad].
  destruct (setup_of_spec p e (initial_globals_of p)) as [l0 Hl0].
  exists l0. split.
  { intros g. destruct (setup_of_spec p e g) as [l Hl].
    rewrite Hl. destruct p; cbv in Hl, Hl0; congruence. }
  rewrite run_main_skeleton. unfold main_skeleton.
  unfold bind at 1, issue at 1.
  rewrite (bind_Some _ _ _ _ _ _ (initGLFW_succeeds e _ Hglfw)). cbn [negb].
  rewrite (bind_Some _ _ _ _ _ _ (initGLAD_succeeds e _ Hglad)). cbn [negb].
  destruct (setup_of_spec p e (with_window (ret_glfwCreateWindow e) (initial_globals_of p)))
    as [l Hl].
  assert (l = l0) as -> by (destruct p; cbv in Hl, Hl0; congruence).
  rewrite (bind_Some _ _ _ _ _ _ Hl).
  unfold bind at 1.
  destruct (while_window_open e (frame_of p e) fuel 0 l0 _) as [[[l1|] g1] tl];
    [|reflexivity].
  unfold bind. rewrite teardown_of_spec. unfold ret, init_calls.
  cbn [app]. rewrite app_nil_r. reflexivity.
Qed.

(** ** One turn of the loop *)

Lemma frame_of_spec p e k l g :
  frame_of p e k l g
  = match after_poll_of p e k l (apply_resizes (resize_events (frames e k)) g) with
    | (r, g', t) =>
        (r, g', (glfwPollEvents :: viewport_calls (resize_events (frames e k))) ++ t)
    end.
Proof.
  destruct p; cbn [frame_of after_poll_of];
    [unfold Week3.frame | unfold Part000.frame | unfold Week5.frame];
    rewrite (bind_Some _ _ _ _ _ _ (pollEvents_spec e k g)); reflexivity.
Qed.

Lemma viewport_calls_turn rs :
  forallb turn_call (viewport_calls rs) = true /\
  count_calls is_glfwSwapBuffers (viewport_calls rs) = 0%nat.
Proof.
  induction rs as [|wh rs [IH1 IH2]]; [split; reflexivity|].
  split; [cbn; exact IH1 | exact IH2].
Qed.

Lemma after_poll_of_ok p e k l g :
  locals_inv p l ->
  exists l' t,
    after_poll_of p e k l g = (Some l', g, t) /\ locals_inv p l' /\ turn_calls t.
Proof.
  destruct p; cbn [locals_inv after_poll_of locals_of] in *.
  - destruct l as [[nm cnt ty]]. cbn. intros ->.
    eexists; eexists; split; [reflexivity|].
    split; [reflexivity | split; reflexivity].
  - destruct l as [[nm cnt ty] [nm1 cnt1 ty1] t1 t2 t3 cam]. cbn. intros [-> ->].
    eexists; eexists; split; [reflexivity|].
    split; [split; reflexivity | split; reflexivity].
  - intros _. destruct l as [cam t1 t2 rot pressed].
    unfold Week5.input_handling, Week5.render. cbn.
    destruct (ret_glfwGetKey_space (frames e k) =? 0); destruct pressed; cbn;
      (eexists; eexists; split; [reflexivity|]; split; [exact I | split; reflexivity]).
Qed.

Lemma frame_of_ok p e k l g :
  locals_inv p l ->
  exists l1 g1 t1,
    frame_of p e k l g = (Some l1, g1, t1) /\
    (locals_inv p l1 /\ window g1 = window g) /\ turn_calls t1.
Proof.
  intros Hinv. rewrite frame_of_spec.
  destruct (after_poll_of_ok p e k l (apply_resizes (resize_events (frames e k)) g) Hinv)
    as (l' & t & -> & Hinv' & Hall & Hswap).
  do 3 eexists. split; [reflexivity|]. split; [split; [exact Hinv'|apply apply_resizes_window]|].
  destruct (viewport_calls_turn (resize_events (frames e k))) as [Hv1 Hv2].
  split.
  - cbn [app forallb]. rewrite forallb_app, Hv1, Hall. reflexivity.
  - change ((glfwPollEvents :: viewport_calls (resize_events (frames e k))) ++ t)
      with ([glfwPollEvents] ++ viewport_calls (resize_events (frames e k)) ++ t).
    rewrite !count_calls_app, Hv2, Hswap. reflexivity.
Qed.

Lemma setup_of_inv p e g l g' t :
  setup_of p e g = (Some l, g', t) -> locals_inv p l.
Proof.
  destruct p; cbn [setup_of locals_inv locals_of]; intros H; cbv in H;
    inversion H; subst; cbv; auto.
Qed.

(** ** Whole runs *)

(** The first [n] turns of a program after its set-up. *)
Lemma turns_of_run p e n l0 :
  (forall g, setup_of p e g = (Some l0, g, setup_calls p e)) ->
  exists l g fs,
    run_frames (frame_of p e) n 0 l0
               (with_window (ret_glfwCreateWindow e) (initial_globals_of p))
    = (Some l, g, List.concat fs) /\
    locals_inv p l /\ window g = ret_glfwCreateWindow e /\
    List.length fs = n /\ Forall (turn (ret_glfwCreateWindow e) turn_calls) fs.
Proof.
  intros Hsetup.
  pose (w := ret_glfwCreateWindow e).
  destruct (run_frames_inv (frame_of p e)
              (fun _ l g => locals_inv p l /\ window g = w) w turn_calls) with
    (n := n) (k := 0%nat) (l := l0) (g := with_window w (initial_globals_of p))
    as (l' & g' & fs & Hrun & [Hinv Hw] & Hlen & Hall).
  - intros k l g [_ Hwin]. exact Hwin.
  - intros k l g [Hinv Hwin].
    destruct (frame_of_ok p e k l g Hinv) as (l1 & g1 & t1 & Hf & [Hinv1 Hw1] & Ht).
    exists l1, g1, t1.
    split; [exact Hf | split; [split; [exact Hinv1 | congruence] | exact Ht]].
  - split; [|reflexivity]. eapply setup_of_inv. apply (Hsetup (initial_globals_of p)).
  - exists l', g', fs. fold w.
    split; [exact Hrun | split; [exact Hinv | split; [exact Hw | split; assumption]]].
Qed.

(** The run of a program whose initialisation succeeds and whose window is
    asked to close at loop test [n]. *)
Lemma run_main_closes p e n fuel :
  init_succeeds e -> closes_at e n -> (n < fuel)%nat ->
  exists g fs,
    run_main p e fuel
    = (Some 0, g, init_calls e (initial_globals_of p) ++ setup_calls p e
                    ++ (List.concat fs ++ [glfwWindowShouldClose (ret_glfwCreateWindow e)])
                    ++ teardown_calls p) /\
    window g = ret_glfwCreateWindow e /\
    List.length fs = n /\ Forall (turn (ret_glfwCreateWindow e) turn_calls) fs.
Proof.
  intros Hinit Hclose Hfuel.
  destruct (run_main_success p e fuel Hinit) as (l0 & Hsetup & ->).
  rewrite (while_window_open_closes e (frame_of p e) n fuel 0 l0 _ Hclose Hfuel).
  destruct (turns_of_run p e n l0 Hsetup) as (l & g & fs & -> & _ & Hw & Hlen & Hall).
  exists g, fs. rewrite Hw.
  split; [reflexivity | split; [reflexivity | split; [exact Hlen | exact Hall]]].
Qed.

(** The run of a program whose initialisation succeeds and whose window is
    not asked to close within the fuel. *)
Lemma run_main_stays_open p e fuel :
  init_succeeds e ->
  (forall i, (i < fuel)%nat -> ret_glfwWindowShouldClose (frames e i) = 0) ->
  exists g fs,
    run_main p e fuel
    = (None, g, init_calls e (initial_globals_of p) ++ setup_calls p e ++ List.concat fs) /\
    window g = ret_glfwCreateWindow e /\
    List.length fs = fuel /\ Forall (turn (ret_glfwCreateWindow e) turn_calls) fs.
Proof.
  intros Hinit Hopen.
  destruct (run_main_success p e fuel Hinit) as (l0 & Hsetup & ->).
  rewrite (while_window_open_stays_open e (frame_of p e) fuel 0 l0 _ Hopen).
  destruct (turns_of_run p e fuel l0 Hsetup) as (l & g & fs & -> & _ & Hw & Hlen & Hall).
  exists g, fs. split; [reflexivity | split; [exact Hw | split; [exact Hlen | exact Hall]]].
Qed.

(** Every run whose initialisation succeeds: the initialisation, the set-up,
    some turns of the loop and, when the loop has ended, the test that ends
    it and the teardown. *)
Lemma run_main_shape p e fuel :
  init_succeeds e ->
  exists r g fs tail,
    run_main p e fuel
    = (r, g, (init_calls e (initial_globals_of p) ++ setup_calls p e)
               ++ List.concat fs ++ tail) /\
    window g = ret_glfwCreateWindow e /\
    Forall (turn (ret_glfwCreateWindow e) turn_calls) fs /\
    ((r = Some 0 /\
      tail = glfwWindowShouldClose (ret_glfwCreateWindow e) :: teardown_calls p /\
      closes_at e (List.length fs) /\ (List.length fs < fuel)%nat) \/
     (r = None /\ tail = [] /\ List.length fs = fuel)).
Proof.
  intros Hinit.
  destruct (closes_or_stays_open e fuel 0) as [(n & Hn & Hlt)|Hopen].
  - destruct (run_main_closes p e n fuel Hinit Hn Hlt) as (g & fs & Hrun & Hw & Hlen & Hall).
    exists (Some 0), g, fs, (glfwWindowShouldClose (ret_glfwCreateWindow e) :: teardown_calls p).
    split; [|split; [exact Hw|split; [exact Hall|]]].
    + rewrite Hrun. rewrite <- !app_assoc. reflexivity.
    + left. rewrite Hlen. auto.
  - destruct (run_main_stays_open p e fuel Hinit Hopen)
      as (g & fs & Hrun & Hw & Hlen & Hall).
    exists None, g, fs, [].
    split; [|split; [exact Hw|split; [exact Hall|]]].
    + rewrite Hrun. rewrite app_nil_r, <- !app_assoc. reflexivity.
    + right. auto.
Qed.

(** The initialisation of a run fails at [glfwInit], fails at the GLAD
    loader, or succeeds. *)
Lemma init_cases e :
  ret_glfwInit e = GLFW_FALSE \/
  (ret_glfwInit e = GLFW_TRUE /\ ret_gladLoadGLLoader e = 0) \/
  init_succeeds e.
Proof.
  destruct (ret_glfwInit e) eqn:Hglfw; [|left; reflexivity].
  destruct (Z.eq_dec (ret_gladLoadGLLoader e) 0) as [Hglad|Hglad].
  - right; left. split; [reflexivity | exact Hglad].
  - right; right. split; assumption.
Qed.

Lemma sample_closes_at_2 : closes_at sample_env 2.
Proof.
  split.
  - intros [|[|i]] Hi; [reflexivity | reflexivity | lia].
  - cbn. discriminate.
Qed.

Lemma no_window_closes_at_2 : closes_at no_window_env 2.
Proof.
  split.
  - intros [|[|i]] Hi; [reflexivity | reflexivity | lia].
  - cbn. discriminate.
Qed.

(** * The claims *)

(** ** C9: the debug callback *)

(** C9. [GlDebugMessage] is defined on every input and what it logs is
    decided by the severity: HIGH gives one error line, MEDIUM one warning
    line, LOW and NOTIFICATION one info line, any other severity nothing.
    The line is "[tag] message", the tag being chosen by the source alone
    (API gives "DEBUG", a source that is none of the five named ones gives
    "OTHER"); the type, id, length and userParam arguments do not change the
    result.  The four severity values are distinct, as labels of one
    [switch] are. *)
Theorem GlDebugMessage_routes_by_severity
        (API WINDOW_SYSTEM SHADER_COMPILER THIRD_PARTY APPLICATION : Z)
        (LOW MEDIUM HIGH NOTIFICATION : Z)
        (Hdistinct : MEDIUM <> LOW /\ HIGH <> LOW /\ HIGH <> MEDIUM /\
                     NOTIFICATION <> LOW /\ NOTIFICATION <> MEDIUM /\ NOTIFICATION <> HIGH)
        (source type id severity length : Z) (message : string) (userParam : pointer) :
  let callback :=
    GlDebugMessage API WINDOW_SYSTEM SHADER_COMPILER THIRD_PARTY APPLICATION
                   LOW MEDIUM HIGH NOTIFICATION in
  let tag := source_tag API WINDOW_SYSTEM SHADER_COMPILER THIRD_PARTY APPLICATION source in
  let out := callback source type id severity length message userParam in
  (severity = HIGH -> out = [(LOG_ERROR, format_tagged tag message)]) /\
  (severity = MEDIUM -> out = [(LOG_WARN, format_tagged tag message)]) /\
  (severity = LOW \/ severity = NOTIFICATION -> out = [(LOG_INFO, format_tagged tag message)]) /\
  (~ In severity [LOW; MEDIUM; HIGH; NOTIFICATION] -> out = []) /\
  (source = API -> tag = "DEBUG") /\
  (~ In source [API; WINDOW_SYSTEM; SHADER_COMPILER; THIRD_PARTY; APPLICATION] ->
   tag = "OTHER") /\
  (forall type' id' length' userParam',
     callback source type' id' severity length' message userParam' = out).
Proof.
  destruct Hdistinct as (H1 & H2 & H3 & H4 & H5 & H6).
  cbv zeta. unfold GlDebugMessage, source_tag.
  repeat split.
  - intros ->.
    rewrite (proj2 (Z.eqb_neq HIGH LOW) H2), (proj2 (Z.eqb_neq HIGH MEDIUM) H3), Z.eqb_refl.
    reflexivity.
  - intros ->.
    rewrite (proj2 (Z.eqb_neq MEDIUM LOW) H1), Z.eqb_refl. reflexivity.
  - intros [-> | ->].
    + rewrite Z.eqb_refl. reflexivity.
    + rewrite (proj2 (Z.eqb_neq NOTIFICATION LOW) H4),
        (proj2 (Z.eqb_neq NOTIFICATION MEDIUM) H5),
        (proj2 (Z.eqb_neq NOTIFICATION HIGH) H6), Z.eqb_refl.
      reflexivity.
  - intros Hnot. cbn [In] in Hnot.
    destruct (Z.eqb_spec severity LOW); [exfalso; apply Hnot; auto|].
    destruct (Z.eqb_spec severity MEDIUM); [exfalso; apply Hnot; auto|].
    destruct (Z.eqb_spec severity HIGH); [exfalso; apply Hnot; auto|].
    destruct (Z.eqb_spec severity NOTIFICATION); [exfalso; apply Hnot; auto|].
    reflexivity.
  - intros ->. rewrite Z.eqb_refl. reflexivity.
  - intros Hnot. cbn [In] in Hnot.
    destruct (Z.eqb_spec source API); [exfalso; apply Hnot; auto|].
    destruct (Z.eqb_spec source WINDOW_SYSTEM); [exfalso; apply Hnot; auto|].
    destruct (Z.eqb_spec source SHADER_COMPILER); [exfalso; apply Hnot; auto|].
    destruct (Z.eqb_spec source THIRD_PARTY); [exfalso; apply Hnot; auto|].
    destruct (Z.eqb_spec source APPLICATION); [exfalso; apply Hnot; auto 6|].
    reflexivity.
Qed.

(** With the registry's values: a HIGH message from the API source. *)
Lemma GlDebugMessage_routes_by_severity_witness :
  khronos_GlDebugMessage 0x8246 0x824C 7 0x9146 3 "out of memory" nullptr
  = [(LOG_ERROR, "[DEBUG] out of memory")].
Proof.
  pose proof (GlDebugMessage_routes_by_severity
                0x8246 0x8247 0x8248 0x8249 0x824A 0x9148 0x9147 0x9146 0x826B
                ltac:(lia) 0x8246 0x824C 7 0x9146 3 "out of memory" nullptr) as H.
  cbv zeta in H. destruct H as (Hhigh & _).
  unfold khronos_GlDebugMessage. rewrite (Hhigh eq_refl). reflexivity.
Defined.

(** ** C10: the resize callback *)

(** C10. [GlfwWindowResizedCallback] with width [w] and height [h] issues the
    one call [glViewport(0, 0, w, h)], sets [windowSize] to [(w, h)] and
    leaves the [window] pointer and [windowTitle] as they were. *)
Theorem GlfwWindowResizedCallback_effect (window_arg : pointer) (w h : Z) (g : globals) :
  exists g',
    GlfwWindowResizedCallback window_arg w h g = (Some tt, g', [glViewport 0 0 w h]) /\
    windowSize g' = glm_ivec2 w h /\
    window g' = window g /\
    windowTitle g' = windowTitle g.
Proof.
  eexists. split; [reflexivity|]. repeat split.
Qed.

(** ** C2: failed initialisation *)

Lemma init_calls_no_later_step e g :
  forallb (fun c => negb (is_later_step c)) (init_calls e g) = true.
Proof. reflexivity. Qed.

Lemma setup_calls_later_step p e : existsb is_later_step (setup_calls p e) = true.
Proof. destruct p; reflexivity. Qed.

(** C2. When [glfwInit] fails or the GLAD loader fails, [main] returns 1 and
    none of its calls is a geometry upload, a shader compilation or link, or
    a call of the render loop.  [main] returns 1 in that case only, and it
    issues one of those later calls exactly when both initialisations
    succeed. *)
Theorem main_returns_1_when_initialisation_fails (p : project) (e : environment) (fuel : nat) :
  ((ret_glfwInit e = GLFW_FALSE \/ ret_gladLoadGLLoader e = 0) ->
     exit_code (run_main p e fuel) = Some 1 /\
     forallb (fun c => negb (is_later_step c)) (calls (run_main p e fuel)) = true) /\
  (exit_code (run_main p e fuel) = Some 1 ->
     ret_glfwInit e = GLFW_FALSE \/ ret_gladLoadGLLoader e = 0) /\
  (existsb is_later_step (calls (run_main p e fuel)) = true <-> init_succeeds e).
Proof.
  destruct (init_cases e) as [Hglfw | [[Hglfw Hglad] | Hinit]].
  - rewrite (run_main_glfw_fails p e fuel Hglfw). cbn [exit_code calls fst snd].
    split; [intros _; split; reflexivity|]. split; [intros _; left; exact Hglfw|].
    split; [cbn; discriminate | intros [H _]; congruence].
  - rewrite (run_main_glad_fails p e fuel Hglfw Hglad). cbn [exit_code calls fst snd].
    split; [intros _; split; reflexivity|]. split; [intros _; right; exact Hglad|].
    split; [unfold init_calls; cbn; discriminate | intros [_ H]; contradiction].
  - destruct (run_main_shape p e fuel Hinit) as (r & g & fs & tail & Hrun & _ & _ & Hr).
    rewrite Hrun. cbn [exit_code calls fst snd].
    destruct Hinit as [H1 H2].
    split; [intros [H|H]; [congruence | contradiction]|].
    split; [destruct Hr as [(-> & _)|(-> & _)]; discriminate|].
    split; [intros _; split; assumption|]. intros _.
    rewrite !existsb_app, setup_calls_later_step, orb_true_r. reflexivity.
Qed.

Lemma main_returns_1_when_initialisation_fails_witness :
  exit_code (run_main P_Part000 no_glfw_env 5) = Some 1 /\
  forallb (fun c => negb (is_later_step c)) (calls (run_main P_Part000 no_glfw_env 5)) = true.
Proof.
  apply (proj1 (main_returns_1_when_initialisation_fails P_Part000 no_glfw_env 5)).
  left. reflexivity.
Defined.

(** ** C8: [initGLFW] *)

(** C8. [initGLFW] always returns, and it returns [false] exactly when
    [glfwInit] returns [GLFW_FALSE].  When [glfwInit] succeeds and
    [glfwCreateWindow] hands back a null pointer, [initGLFW] returns [true]
    with [window] null; if the GLAD loader succeeds as well, [main] does not
    return 1 but goes on through its set-up into its loop, where it tests
    [glfwWindowShouldClose] on the null pointer, and [window] stays null. *)
Theorem initGLFW_false_only_when_glfwInit_fails (e : environment) (g : globals) :
  (exists b g' t, initGLFW e g = (Some b, g', t) /\
                  (b = false <-> ret_glfwInit e = GLFW_FALSE)) /\
  (ret_glfwInit e = GLFW_TRUE -> ret_glfwCreateWindow e = nullptr ->
     (exists t, initGLFW e g = (Some true, with_window nullptr g, t)) /\
     (ret_gladLoadGLLoader e <> 0 ->
      forall p fuel,
        exists r g' rest,
          run_main p e fuel
          = (r, g', init_calls e (initial_globals_of p) ++ setup_calls p e ++ rest) /\
          r <> Some 1 /\
          window g' = nullptr /\
          ((0 < fuel)%nat -> In (glfwWindowShouldClose nullptr) rest))).
Proof.
  split.
  - destruct (ret_glfwInit e) eqn:Hglfw.
    + do 3 eexists. split; [apply initGLFW_succeeds; exact Hglfw|].
      split; discriminate.
    + do 3 eexists. split; [apply initGLFW_fails; exact Hglfw|].
      split; reflexivity.
  - intros Hglfw Hnull. split.
    + eexists. rewrite (initGLFW_succeeds e g Hglfw), Hnull. reflexivity.
    + intros Hglad p fuel.
      destruct (run_main_shape p e fuel (conj Hglfw Hglad))
        as (r & g' & fs & tail & Hrun & Hw & Hall & Hr).
      exists r, g', (List.concat fs ++ tail).
      split; [rewrite Hrun, <- app_assoc; reflexivity|].
      split; [destruct Hr as [(-> & _)|(-> & _)]; discriminate|].
      split; [congruence|]. intros Hfuel. rewrite <- Hnull.
      apply in_or_app.
      destruct Hr as [(_ & -> & _)|(_ & _ & Hlen)]; [right; left; reflexivity|].
      left. destruct Hall as [|f fs (t & -> & _) _]; [cbn in Hlen; lia|].
      left. reflexivity.
Qed.

Lemma initGLFW_false_only_when_glfwInit_fails_witness :
  exists r g' rest,
    run_main P_Week3 no_window_env 3
    = (r, g', init_calls no_window_env (initial_globals_of P_Week3)
                ++ setup_calls P_Week3 no_window_env ++ rest) /\
    r <> Some 1 /\
    window g' = nullptr /\
    ((0 < 3)%nat -> In (glfwWindowShouldClose nullptr) rest).
Proof.
  refine (proj2 (proj2 (initGLFW_false_only_when_glfwInit_fails
                          no_window_env Week3.initial_globals) eq_refl eq_refl)
                _ P_Week3 3%nat).
  cbn. discriminate.
Defined.

(** ** Counting calls *)

Lemma turn_call_facts c :
  turn_call c = true ->
  is_glfwWindowShouldClose c = false /\ is_link c = false /\
  is_vertex_compile c = false /\ is_fragment_compile c = false /\
  loads_and_draws_6 c.
Proof.
  destruct c; cbn; try discriminate; intros H; repeat split; try reflexivity.
  apply Z.eqb_eq. exact H.
Qed.

Lemma turn_calls_In t c : turn_calls t -> In c t -> turn_call c = true.
Proof.
  intros [H _] Hc. rewrite forallb_forall in H. apply H. exact Hc.
Qed.

Lemma turn_calls_tests t :
  turn_calls t -> count_calls is_glfwWindowShouldClose t = 0%nat.
Proof.
  intros H. apply count_calls_zero. intros c Hc.
  apply (turn_call_facts c (turn_calls_In t c H Hc)).
Qed.

Lemma turn_calls_swaps t : turn_calls t -> count_calls is_glfwSwapBuffers t = 1%nat.
Proof. intros [_ H]. exact H. Qed.

Lemma teardown_calls_last p :
  exists d, teardown_calls p = d ++ Logger_Uninitialize :: scope_exit p /\
            count_calls is_glfwWindowShouldClose d = 0%nat /\
            count_calls is_glfwSwapBuffers d = 0%nat.
Proof.
  destruct p.
  - exists [Delete "shader"; Delete "vao"; Delete "posVbo"; Delete "color_vbo"].
    repeat split.
  - exists []. repeat split.
  - exists []. repeat split.
Qed.

Lemma setup_calls_counts p e :
  count_calls is_glfwWindowShouldClose (setup_calls p e) = 0%nat /\
  count_calls is_glfwSwapBuffers (setup_calls p e) = 0%nat.
Proof. destruct p; split; reflexivity. Qed.

(** ** C6: the loop ends when the window is asked to close *)

(** C6. Let both initialisations succeed and let the should-close flag read
    unset at the first [n] loop tests and set at the next one.  Then, allowed
    more than [n] tests, [main] returns 0; it has tested the flag [n + 1]
    times and run the body of the loop [n] times (one swap of the buffers
    per turn) before it calls [Logger::Uninitialize()], after which only
    the destructors of its [Sptr] locals run, as it returns.  Allowed [n]
    tests or fewer it is still in its loop, having run the body as many
    times as it was allowed tests. *)
Theorem render_loop_runs_until_close (p : project) (e : environment) (n : nat) :
  init_succeeds e -> closes_at e n ->
  (forall fuel, (n < fuel)%nat ->
     exists g t',
       run_main p e fuel = (Some 0, g, t' ++ Logger_Uninitialize :: scope_exit p) /\
       count_calls is_glfwWindowShouldClose t' = S n /\
       count_calls is_glfwSwapBuffers t' = n) /\
  (forall fuel, (fuel <= n)%nat ->
     exists g t,
       run_main p e fuel = (None, g, t) /\
       count_calls is_glfwWindowShouldClose t = fuel /\
       count_calls is_glfwSwapBuffers t = fuel).
Proof.
  intros Hinit Hn.
  destruct (setup_calls_counts p e) as [Hs1 Hs2].
  split.
  - intros fuel Hlt.
    destruct (run_main_closes p e n fuel Hinit Hn Hlt) as (g & fs & Hrun & _ & Hlen & Hall).
    destruct (teardown_calls_last p) as (d & Hd & Hd1 & Hd2).
    exists g.
    exists (init_calls e (initial_globals_of p) ++ setup_calls p e
              ++ (List.concat fs ++ [glfwWindowShouldClose (ret_glfwCreateWindow e)]) ++ d).
    split; [|split].
    + rewrite Hrun, Hd. rewrite <- !app_assoc. reflexivity.
    + rewrite !count_calls_app, Hs1, Hd1.
      rewrite (turns_count_tests _ turn_calls fs turn_calls_tests Hall), Hlen.
      cbn. lia.
    + rewrite !count_calls_app, Hs2, Hd2.
      rewrite (turns_count _ turn_calls is_glfwSwapBuffers 1 fs
                 eq_refl turn_calls_swaps Hall), Hlen.
      cbn. lia.
  - intros fuel Hle.
    destruct (run_main_stays_open p e fuel Hinit) as (g & fs & Hrun & _ & Hlen & Hall).
    { intros i Hi. destruct Hn as [Hn _]. apply (Hn i). lia. }
    exists g. eexists. split; [exact Hrun|]. split.
    + rewrite !count_calls_app, Hs1.
      rewrite (turns_count_tests _ turn_calls fs turn_calls_tests Hall), Hlen.
      cbn. lia.
    + rewrite !count_calls_app, Hs2.
      rewrite (turns_count _ turn_calls is_glfwSwapBuffers 1 fs
                 eq_refl turn_calls_swaps Hall), Hlen.
      cbn. lia.
Qed.

Lemma render_loop_runs_until_close_witness :
  (forall fuel, (2 < fuel)%nat ->
     exists g t',
       run_main P_Week5 sample_env fuel
       = (Some 0, g, t' ++ [Logger_Uninitialize; Destroy_Sptr "vao4"; Destroy_Sptr "camera"]) /\
       count_calls is_glfwWindowShouldClose t' = 3%nat /\
       count_calls is_glfwSwapBuffers t' = 2%nat) /\
  (forall fuel, (fuel <= 2)%nat ->
     exists g t,
       run_main P_Week5 sample_env fuel = (None, g, t) /\
       count_calls is_glfwWindowShouldClose t = fuel /\
       count_calls is_glfwSwapBuffers t = fuel).
Proof.
  apply (render_loop_runs_until_close P_Week5 sample_env 2).
  - split; [reflexivity | cbn; discriminate].
  - exact sample_closes_at_2.
Defined.

(** ** C5: the order of the phases *)

Lemma ranks_app rank t1 t2 : ranks rank (t1 ++ t2) = ranks rank t1 ++ ranks rank t2.
Proof.
  induction t1 as [|c t1 IH]; [reflexivity|].
  cbn [app ranks]. destruct (phase_of c); rewrite IH; reflexivity.
Qed.

Lemma nondecreasing_Forall a l :
  nondecreasing (a :: l) = true -> Forall (fun b => (a <= b)%nat) l.
Proof.
  revert a; induction l as [|b l IH]; intros a H; [constructor|].
  cbn [nondecreasing] in H. apply andb_true_iff in H. destruct H as [Hab Hl].
  apply Nat.leb_le in Hab. constructor; [exact Hab|].
  eapply Forall_impl; [|apply (IH b Hl)]. cbn. intros c Hc. lia.
Qed.

Lemma nondecreasing_tail a l : nondecreasing (a :: l) = true -> nondecreasing l = true.
Proof.
  destruct l as [|b l]; [reflexivity|]. cbn [nondecreasing].
  intros H. apply andb_true_iff in H. apply H.
Qed.

Lemma nondecreasing_nth l :
  nondecreasing l = true ->
  forall i j ri rj, (i < j)%nat ->
    nth_error l i = Some ri -> nth_error l j = Some rj -> (ri <= rj)%nat.
Proof.
  induction l as [|a l IH]; intros H i j ri rj Hij Hi Hj.
  - destruct i; discriminate.
  - destruct j as [|j]; [lia|]. cbn [nth_error] in Hj.
    destruct i as [|i].
    + cbn [nth_error] in Hi. inversion Hi; subst.
      pose proof (nondecreasing_Forall _ _ H) as Hall.
      rewrite Forall_forall in Hall. apply Hall. eapply nth_error_In; exact Hj.
    + cbn [nth_error] in Hi. apply (IH (nondecreasing_tail _ _ H) i j); [lia|assumption..].
Qed.

Lemma nondecreasing_constant l m :
  Forall (fun b => b = m) l -> nondecreasing l = true.
Proof.
  induction l as [|a l IH]; intros H; [reflexivity|].
  inversion H as [|? ? Ha Hl]; subst.
  destruct l as [|b l]; [reflexivity|].
  cbn [nondecreasing]. inversion Hl; subst. rewrite Nat.leb_refl. apply IH; assumption.
Qed.

Lemma nondecreasing_app l1 l2 m :
  nondecreasing l1 = true -> Forall (fun a => (a <= m)%nat) l1 ->
  Forall (fun b => b = m) l2 ->
  nondecreasing (l1 ++ l2) = true.
Proof.
  intros H1 Hle Heq. induction l1 as [|a l1 IH].
  - cbn [app]. eapply nondecreasing_constant; exact Heq.
  - inversion Hle as [|? ? Ham Hle']; subst.
    specialize (IH (nondecreasing_tail _ _ H1) Hle').
    destruct l1 as [|b l1].
    + cbn [app] in *. destruct l2 as [|c l2]; [reflexivity|].
      cbn [nondecreasing]. inversion Heq; subst.
      apply andb_true_iff. split; [apply Nat.leb_le; exact Ham | exact IH].
    + cbn [app nondecreasing] in *. apply andb_true_iff in H1. destruct H1 as [Hab _].
      rewrite Hab. exact IH.
Qed.

Lemma rank_of_RenderLoop p : rank_of p RenderLoop = 3%nat.
Proof. destruct p; reflexivity. Qed.

Lemma turn_call_ranks rank t :
  forallb turn_call t = true ->
  Forall (fun b => b = rank RenderLoop) (ranks rank t).
Proof.
  induction t as [|c t IH]; intros H; [constructor|].
  cbn [forallb] in H. apply andb_true_iff in H. destruct H as [Hc Ht].
  cbn [ranks]. unfold turn_call in Hc.
  destruct (phase_of c) as [[| | |]|]; cbn in Hc; try discriminate; auto.
Qed.

Lemma turns_ranks w rank fs :
  Forall (turn w turn_calls) fs ->
  Forall (fun b => b = rank RenderLoop) (ranks rank (List.concat fs)).
Proof.
  intros Hall. induction Hall as [|f fs (t & -> & [Ht _]) _ IH]; [constructor|].
  cbn [List.concat]. rewrite ranks_app. apply Forall_app. split; [|exact IH].
  cbn [ranks phase_of]. constructor; [reflexivity|]. apply turn_call_ranks. exact Ht.
Qed.

Lemma prefix_ranks p e :
  nondecreasing (ranks (rank_of p) (init_calls e (initial_globals_of p) ++ setup_calls p e))
  = true /\
  Forall (fun a => (a <= 3)%nat)
         (ranks (rank_of p) (init_calls e (initial_globals_of p) ++ setup_calls p e)).
Proof.
  destruct p; (split; [reflexivity|]); apply Forall_forall; intros a Ha; cbv in Ha;
    repeat (destruct Ha as [<-|Ha]; [lia|]); contradiction.
Qed.

Lemma teardown_ranks p rank : ranks rank (teardown_calls p) = [].
Proof. destruct p; reflexivity. Qed.

Lemma no_draw_before_link_linked t : no_draw_before_link true t = true.
Proof.
  induction t as [|c t IH]; [reflexivity|].
  cbn [no_draw_before_link]. rewrite orb_true_r. exact IH.
Qed.

Lemma no_draw_before_link_app b t1 t2 :
  no_draw_before_link b (t1 ++ t2)
  = no_draw_before_link b t1 && no_draw_before_link (b || existsb is_link t1) t2.
Proof.
  revert b; induction t1 as [|c t1 IH]; intros b.
  - cbn. rewrite orb_false_r. reflexivity.
  - cbn [app no_draw_before_link existsb]. rewrite IH.
    rewrite andb_assoc, orb_assoc. reflexivity.
Qed.

Lemma prefix_links p e :
  no_draw_before_link false (init_calls e (initial_globals_of p) ++ setup_calls p e) = true /\
  existsb is_link (init_calls e (initial_globals_of p) ++ setup_calls p e) = true.
Proof. destruct p; split; reflexivity. Qed.

Lemma prefix_shader_pair p e :
  one_shader_pair (init_calls e (initial_globals_of p) ++ setup_calls p e).
Proof. destruct p; repeat split. Qed.

(** What follows the set-up adds nothing to a count that turns and teardown
    leave alone. *)
Lemma count_after_prefix (c : call -> bool) pre fs w p tail :
  c (glfwWindowShouldClose w) = false ->
  (forall x, turn_call x = true -> c x = false) ->
  Forall (turn w turn_calls) fs ->
  count_calls c (teardown_calls p) = 0%nat ->
  tail = glfwWindowShouldClose w :: teardown_calls p \/ tail = [] ->
  count_calls c (pre ++ List.concat fs ++ tail) = count_calls c pre.
Proof.
  intros Hw Hc Hall Htd Htail.
  rewrite !count_calls_app.
  rewrite (turns_count w turn_calls c 0 fs Hw); [| |exact Hall].
  - destruct Htail as [-> | ->].
    + unfold count_calls at 2. cbn [filter]. rewrite Hw.
      fold (count_calls c (teardown_calls p)). rewrite Htd. lia.
    + cbn. lia.
  - intros t Ht. apply count_calls_zero. intros x Hx. apply Hc.
    apply (turn_calls_In t x Ht Hx).
Qed.

Lemma rank_of_claimed p : p <> P_Week5 -> forall ph, rank_of p ph = claimed_rank ph.
Proof. destruct p; intros H ph; try contradiction; destruct ph; reflexivity. Qed.

Lemma ranks_ext rank1 rank2 t :
  (forall ph, rank1 ph = rank2 ph) -> ranks rank1 t = ranks rank2 t.
Proof.
  intros H. induction t as [|c t IH]; [reflexivity|].
  cbn [ranks]. destruct (phase_of c); rewrite IH; [rewrite H|]; reflexivity.
Qed.

(** C5, as stated, fails: in this run of the Week-5 program the mesh is
    loaded after the shader pair has been linked, so the calls are not in
    the order initialisation, geometry, shaders, loop. *)
Lemma week5_uploads_geometry_after_shaders :
  ~ in_phase_order claimed_rank (calls (run_main P_Week5 sample_env 3)).
Proof.
  intros H. specialize (H 8%nat 9%nat 2%nat 1%nat).
  assert (2 <= 1)%nat as Hle; [|lia].
  apply H; [lia | reflexivity | reflexivity].
Qed.

(** C5, amended. In every run of [main], however long, no call of a later
    phase comes before a call of an earlier one, the phases being
    initialisation, geometry upload, shader compilation and link, render
    loop in the Week-3 program and in part_000, and initialisation, shader
    compilation and link, geometry upload, render loop in the Week-5
    program; no draw call is issued before a shader link; and a run that
    gets past the initialisation compiles exactly one vertex part and one
    fragment part and links once. *)
Theorem phases_in_program_order (p : project) (e : environment) (fuel : nat) :
  in_phase_order (rank_of p) (calls (run_main p e fuel)) /\
  (p <> P_Week5 -> in_phase_order claimed_rank (calls (run_main p e fuel))) /\
  no_draw_before_link false (calls (run_main p e fuel)) = true /\
  (init_succeeds e -> one_shader_pair (calls (run_main p e fuel))).
Proof.
  assert (Hmain : nondecreasing (ranks (rank_of p) (calls (run_main p e fuel))) = true /\
                  no_draw_before_link false (calls (run_main p e fuel)) = true /\
                  (init_succeeds e -> one_shader_pair (calls (run_main p e fuel)))).
  { destruct (init_cases e) as [Hglfw | [[Hglfw Hglad] | Hinit]].
    - rewrite (run_main_glfw_fails p e fuel Hglfw).
      destruct p; (split; [reflexivity | split; [reflexivity|]]);
        intros [H _]; congruence.
    - rewrite (run_main_glad_fails p e fuel Hglfw Hglad).
      destruct p; (split; [reflexivity | split; [reflexivity|]]);
        intros [_ H]; contradiction.
    - destruct (run_main_shape p e fuel Hinit) as (r & g & fs & tail & -> & _ & Hall & Hr).
      cbn [calls snd].
      assert (Htail : tail = glfwWindowShouldClose (ret_glfwCreateWindow e)
                               :: teardown_calls p \/ tail = []).
      { destruct Hr as [(_ & -> & _)|(_ & -> & _)]; auto. }
      destruct (prefix_ranks p e) as [Hsorted Hle].
      destruct (prefix_links p e) as [Hdraw Hlink].
      destruct (prefix_shader_pair p e) as (Hv & Hf & Hl).
      split; [|split].
      + rewrite ranks_app. apply (nondecreasing_app _ _ 3%nat Hsorted Hle).
        rewrite ranks_app. apply Forall_app. split.
        * rewrite <- (rank_of_RenderLoop p). eapply turns_ranks. exact Hall.
        * destruct Htail as [-> | ->]; [|constructor].
          cbn [ranks phase_of]. rewrite teardown_ranks.
          constructor; [apply rank_of_RenderLoop | constructor].
      + rewrite no_draw_before_link_app, Hdraw, Hlink.
        cbn [orb andb]. apply no_draw_before_link_linked.
      + intros _. unfold one_shader_pair.
        rewrite (count_after_prefix is_vertex_compile _ fs _ p tail eq_refl
                   (fun x Hx => proj1 (proj2 (proj2 (turn_call_facts x Hx)))) Hall),
                (count_after_prefix is_fragment_compile _ fs _ p tail eq_refl
                   (fun x Hx => proj1 (proj2 (proj2 (proj2 (turn_call_facts x Hx))))) Hall),
                (count_after_prefix is_link _ fs _ p tail eq_refl
                   (fun x Hx => proj1 (proj2 (turn_call_facts x Hx))) Hall);
          try exact Htail; try (destruct p; reflexivity).
        split; [exact Hv | split; [exact Hf | exact Hl]]. }
  destruct Hmain as (Hsorted & Hdraw & Hpair).
  split; [|split; [|split]]; auto.
  - unfold in_phase_order. apply nondecreasing_nth. exact Hsorted.
  - intros Hp. unfold in_phase_order.
    rewrite <- (ranks_ext _ _ _ (rank_of_claimed p Hp)).
    apply nondecreasing_nth. exact Hsorted.
Qed.

Lemma phases_in_program_order_witness :
  in_phase_order claimed_rank (calls (run_main P_Part000 sample_env 3)) /\
  one_shader_pair (calls (run_main P_Week5 sample_env 3)).
Proof.
  split.
  - apply (proj1 (proj2 (phases_in_program_order P_Part000 sample_env 3))).
    discriminate.
  - apply (proj2 (proj2 (proj2 (phases_in_program_order P_Week5 sample_env 3)))).
    split; [reflexivity | cbn; discriminate].
Defined.

(** ** The state at the top of a turn *)

Lemma top_of_turn_S p e k :
  top_of_turn p e (S k)
  = match top_of_turn p e k with
    | None => None
    | Some (l, g) =>
        match frame_of p e k l g with
        | (Some l', g', _) => Some (l', g')
        | (None, _, _) => None
        end
    end.
Proof.
  unfold top_of_turn.
  destruct (setup_of_spec p e (with_window (ret_glfwCreateWindow e) (initial_globals_of p)))
    as [l0 Hl0].
  rewrite !(bind_Some _ _ _ _ _ _ Hl0). rewrite run_frames_snoc.
  destruct (run_frames (frame_of p e) k 0 l0 _) as [[[l1|] g1] t1]; [|reflexivity].
  cbn [Nat.add].
  destruct (frame_of p e k l1 g1) as [[[l2|] g2] t2]; reflexivity.
Qed.

Lemma top_of_turn_total p e k :
  exists l g, top_of_turn p e k = Some (l, g) /\ locals_inv p l.
Proof.
  induction k as [|k (l & g & Htop & Hinv)].
  - unfold top_of_turn.
    destruct (setup_of_spec p e (with_window (ret_glfwCreateWindow e) (initial_globals_of p)))
      as [l0 Hl0].
    rewrite (bind_Some _ _ _ _ _ _ Hl0). cbn [run_frames]. unfold ret.
    exists l0, (with_window (ret_glfwCreateWindow e) (initial_globals_of p)).
    split; [reflexivity|]. eapply setup_of_inv. exact Hl0.
  - destruct (frame_of_ok p e k l g Hinv) as (l1 & g1 & t1 & Hf & [Hinv1 _] & _).
    exists l1, g1. rewrite top_of_turn_S, Htop, Hf. split; [reflexivity | exact Hinv1].
Qed.

Lemma week5_entry e :
  exists l g,
    top_of_turn P_Week5 e 0 = Some (l, g) /\
    Week5.isRotating l = true /\
    Week5.isButtonPressed l = false /\
    cam_isOrtho (Week5.camera l) = cam_isOrtho (ret_Camera_Create e).
Proof. do 2 eexists. split; [reflexivity|]. repeat split. Qed.

(** What one turn of the Week-5 loop does to the locals. *)
Lemma week5_frame_facts e k l g :
  let key := ret_glfwGetKey_space (frames e k) in
  let now := static_cast_float (ret_glfwGetTime (frames e k)) in
  exists l' g' t,
    Week5.frame e k l g = (Some l', g', t) /\
    Week5.isRotating l' = Week5.isRotating l /\
    (Week5.isRotating l = true ->
     Week5.transform l'
     = glm_rotate (glm_mat4 (f32 1.0)) now (glm_vec3 (f32 0) (f32 0) (f32 1))) /\
    Week5.transform2 l'
    = mat4_mul (glm_rotate (glm_mat4 (f32 1.0)) now (glm_vec3 (f32 0) (f32 1) (f32 0)))
               (glm_translate (glm_mat4 (f32 1.0))
                              (glm_vec3 (f32 10) (f32 0.0) (glm_sin now))) /\
    (key = 0 ->
     Week5.camera l' = Week5.camera l /\
     Week5.isButtonPressed l' = Week5.isButtonPressed l) /\
    (key <> 0 -> Week5.isButtonPressed l = false ->
     Week5.isButtonPressed l' = true /\
     Week5.camera l'
     = SetOrthoVerticalScale (f32 (-20.0)) (SetOrthoEnabled true (Week5.camera l))) /\
    (key <> 0 -> Week5.isButtonPressed l = true ->
     Week5.isButtonPressed l' = false /\
     Week5.camera l'
     = SetPosition (glm_vec3 (f32 0) (f32 15) (f32 15))
                   (SetOrthoEnabled false (Week5.camera l))).
Proof.
  cbv zeta. change (Week5.frame e) with (frame_of P_Week5 e). rewrite frame_of_spec.
  cbn [after_poll_of]. unfold Week5.input_handling, Week5.render.
  destruct l as [cam t1 t2 rot pressed].
  destruct (Z.eqb_spec (ret_glfwGetKey_space (frames e k)) 0) as [E|E];
    destruct pressed; cbn; rewrite ?E; cbn;
    (do 3 eexists; split; [reflexivity|]; cbn;
     split; [reflexivity|]; split; [intros ->; reflexivity|]; split; [reflexivity|];
     split; [intros H|split; intros H H']; try contradiction; try discriminate;
     split; reflexivity).
Qed.

Lemma week5_top e k :
  exists l g,
    top_of_turn P_Week5 e k = Some (l, g) /\
    Week5.isRotating l = true /\
    (cam_isOrtho (ret_Camera_Create e) = false ->
     Week5.isButtonPressed l = cam_isOrtho (Week5.camera l)).
Proof.
  induction k as [|k (l & g & Htop & Hrot & Hinv)].
  - destruct (week5_entry e) as (l & g & Htop & Hrot & Hpressed & Hcam).
    exists l, g. split; [exact Htop|]. split; [exact Hrot|]. intros H. congruence.
  - destruct (week5_frame_facts e k l g)
      as (l' & g' & t & Hframe & Hrot' & _ & _ & Hup & Hon & Hoff).
    exists l', g'. rewrite top_of_turn_S, Htop. cbn [frame_of]. rewrite Hframe.
    split; [reflexivity|]. split; [congruence|]. intros Hcam. specialize (Hinv Hcam).
    destruct (Z.eq_dec (ret_glfwGetKey_space (frames e k)) 0) as [E|E].
    + destruct (Hup E) as [-> ->]. exact Hinv.
    + destruct (Week5.isButtonPressed l) eqn:Hp.
      * destruct (Hoff E eq_refl) as [-> ->]. reflexivity.
      * destruct (Hon E eq_refl) as [-> ->]. reflexivity.
Qed.

(** ** C1: the space key *)

(** C1. Let the camera that [Camera::Create()] hands back have its
    orthographic mode disabled.  In the Week-5 program, at the top of every
    turn of the loop [isButtonPressed] equals the camera's orthographic
    mode; and in a turn where the space key is down the mode flips: from
    disabled it becomes enabled, the vertical scale being set to -20, and
    from enabled it becomes disabled, the position being set to
    (0, 15, 15).  In a turn where the key is up the camera is left as it
    was. *)
Theorem space_key_toggles_projection (e : environment) (k : nat) :
  cam_isOrtho (ret_Camera_Create e) = false ->
  exists l g l' g',
    top_of_turn P_Week5 e k = Some (l, g) /\
    top_of_turn P_Week5 e (S k) = Some (l', g') /\
    Week5.isButtonPressed l = cam_isOrtho (Week5.camera l) /\
    Week5.isButtonPressed l' = cam_isOrtho (Week5.camera l') /\
    (ret_glfwGetKey_space (frames e k) <> 0 ->
     cam_isOrtho (Week5.camera l') = negb (cam_isOrtho (Week5.camera l)) /\
     (cam_isOrtho (Week5.camera l) = false ->
      cam_isOrtho (Week5.camera l') = true /\
      cam_orthoVerticalScale (Week5.camera l') = f32 (-20.0)) /\
     (cam_isOrtho (Week5.camera l) = true ->
      cam_isOrtho (Week5.camera l') = false /\
      cam_position (Week5.camera l') = glm_vec3 (f32 0) (f32 15) (f32 15))) /\
    (ret_glfwGetKey_space (frames e k) = 0 ->
     Week5.camera l' = Week5.camera l).
Proof.
  intros Hcam.
  destruct (week5_top e k) as (l & g & Htop & _ & Hinv).
  destruct (week5_top e (S k)) as (l' & g' & Htop' & _ & Hinv').
  specialize (Hinv Hcam). specialize (Hinv' Hcam).
  exists l, g, l', g'.
  split; [exact Htop|]. split; [exact Htop'|]. split; [exact Hinv|]. split; [exact Hinv'|].
  destruct (week5_frame_facts e k l g)
    as (l1 & g1 & t & Hframe & _ & _ & _ & Hup & Hon & Hoff).
  rewrite top_of_turn_S, Htop in Htop'. cbn [frame_of] in Htop'. rewrite Hframe in Htop'.
  injection Htop' as <- <-.
  split.
  - intros Hkey. destruct (Week5.isButtonPressed l) eqn:Hp.
    + destruct (Hoff Hkey eq_refl) as [_ Hc]. rewrite Hc, <- Hinv. cbn.
      split; [reflexivity|]. split; [discriminate|]. intros _. split; reflexivity.
    + destruct (Hon Hkey eq_refl) as [_ Hc]. rewrite Hc, <- Hinv. cbn.
      split; [reflexivity|]. split; [|discriminate]. intros _. split; reflexivity.
  - intros Hkey. apply (Hup Hkey).
Qed.

(** The first turn of the sample run: the key is down and the camera, in
    perspective mode until then, switches to the orthographic mode. *)
Lemma space_key_toggles_projection_witness :
  exists l g l' g',
    top_of_turn P_Week5 sample_env 0 = Some (l, g) /\
    top_of_turn P_Week5 sample_env 1 = Some (l', g') /\
    Week5.isButtonPressed l = false /\
    cam_isOrtho (Week5.camera l') = true /\
    cam_orthoVerticalScale (Week5.camera l') = f32 (-20.0).
Proof.
  destruct (space_key_toggles_projection sample_env 0 eq_refl)
    as (l & g & l' & g' & Htop & Htop' & Hinv & _ & Hdown & _).
  exists l, g, l', g'.
  assert (Hl : Week5.isButtonPressed l = false).
  { vm_compute in Htop. injection Htop as <- _. reflexivity. }
  split; [exact Htop|]. split; [exact Htop'|]. split; [exact Hl|].
  apply Hdown.
  - cbn. discriminate.
  - rewrite <- Hinv. exact Hl.
Defined.

(** ** C3: the model transforms *)

(** What one turn of the part_000 loop does to the three transforms. *)
Lemma part000_frame_facts e k l g :
  let now := static_cast_float (ret_glfwGetTime (frames e k)) in
  exists l' g' t,
    Part000.frame e k l g = (Some l', g', t) /\
    Part000.transform l'
    = glm_rotate (glm_mat4 (f32 1.0)) now (glm_vec3 (f32 0) (f32 0) (f32 1)) /\
    Part000.transform2 l'
    = glm_translate (glm_mat4 (f32 1.0)) (glm_vec3 (f32 0) (f32 0.0) (glm_sin now)) /\
    Part000.transform3 l'
    = glm_translate (glm_mat4 (f32 1.0)) (glm_vec3 (glm_sin now) (f32 0.0) (f32 0.0)).
Proof.
  cbv zeta. change (Part000.frame e) with (frame_of P_Part000 e). rewrite frame_of_spec.
  cbn [after_poll_of]. unfold Part000.render. cbn.
  do 3 eexists. split; [reflexivity|]. cbn. repeat split.
Qed.

(** C3. In every turn [k] of the loop of part_000 and of the Week-5 program,
    with [now] the timer reading of that turn converted to [float]:
    [transform] is set to the rotation of the identity by the angle [now]
    about the axis (0, 0, 1); in part_000 [transform2] and [transform3] are
    set to the translations of the identity by (0, 0, sin now) and by
    (sin now, 0, 0); in the Week-5 program [transform2] is set to the
    rotation by [now] about (0, 1, 0) times the translation by
    (10, 0, sin now). *)
Theorem transforms_follow_the_timer (e : environment) (k : nat) :
  let now := static_cast_float (ret_glfwGetTime (frames e k)) in
  let identity := glm_mat4 (f32 1.0) in
  (exists l g,
     top_of_turn P_Part000 e (S k) = Some (l, g) /\
     Part000.transform l = glm_rotate identity now (glm_vec3 (f32 0) (f32 0) (f32 1)) /\
     Part000.transform2 l = glm_translate identity (glm_vec3 (f32 0) (f32 0.0) (glm_sin now)) /\
     Part000.transform3 l = glm_translate identity (glm_vec3 (glm_sin now) (f32 0.0) (f32 0.0)))
  /\
  (exists l g,
     top_of_turn P_Week5 e (S k) = Some (l, g) /\
     Week5.transform l = glm_rotate identity now (glm_vec3 (f32 0) (f32 0) (f32 1)) /\
     Week5.transform2 l
     = mat4_mul (glm_rotate identity now (glm_vec3 (f32 0) (f32 1) (f32 0)))
                (glm_translate identity (glm_vec3 (f32 10) (f32 0.0) (glm_sin now)))).
Proof.
  cbv zeta. split.
  - destruct (top_of_turn_total P_Part000 e k) as (l & g & Htop & _).
    destruct (part000_frame_facts e k l g) as (l' & g' & t & Hframe & H1 & H2 & H3).
    exists l', g'. rewrite top_of_turn_S, Htop. cbn [frame_of]. rewrite Hframe.
    split; [reflexivity|]. split; [exact H1|]. split; [exact H2 | exact H3].
  - destruct (week5_top e k) as (l & g & Htop & Hrot & _).
    destruct (week5_frame_facts e k l g) as (l' & g' & t & Hframe & _ & H1 & H2 & _).
    exists l', g'. rewrite top_of_turn_S, Htop. cbn [frame_of]. rewrite Hframe.
    split; [reflexivity|]. split; [exact (H1 Hrot) | exact H2].
Qed.

(** * Further properties of the programs *)

(** ** Every run, turn by turn *)

Lemma apply_resizes_title rs g : windowTitle (apply_resizes rs g) = windowTitle g.
Proof.
  revert g; induction rs as [|wh rs IH]; intros g; simpl; [reflexivity|].
  unfold apply_resizes in IH; rewrite IH; reflexivity.
Qed.

Lemma viewport_calls_facts w rs :
  forallb (fun c => loop_only c && window_ok w c) (viewport_calls rs) = true /\
  forall f, (forall x y a b, f (glViewport x y a b) = false) ->
            count_calls f (viewport_calls rs) = 0%nat.
Proof.
  split.
  - induction rs as [|wh rs IH]; [reflexivity | exact IH].
  - intros f Hf. apply count_calls_zero. intros c Hc.
    unfold viewport_calls in Hc. apply in_map_iff in Hc.
    destruct Hc as (wh & <- & _). apply Hf.
Qed.

Lemma after_poll_of_facts p e k l g :
  locals_inv p l ->
  exists l' t,
    after_poll_of p e k l g = (Some l', g, t) /\ locals_inv p l' /\
    forallb (fun c => loop_only c && window_ok (window g) c) t = true /\
    count_calls is_glfwPollEvents t = 0%nat /\
    count_calls is_glClear t = 1%nat /\
    (count_calls is_glDrawArrays t, count_calls is_glDrawElements t,
     count_calls is_VertexArrayObject_Draw t) = draws_per_turn p /\
    forall prev, draws_follow_binds (indexed_of p) prev t = true.
Proof.
  destruct p; cbn [locals_inv after_poll_of locals_of draws_per_turn indexed_of] in *.
  - destruct l as [[nm cnt ty]]. cbn. intros ->.
    eexists; eexists; split; [reflexivity|]. split; [reflexivity|].
    split; [cbn; rewrite ?Z.eqb_refl; reflexivity|].
    split; [reflexivity|]. split; [reflexivity|]. split; reflexivity.
  - destruct l as [[nm cnt ty] [nm1 cnt1 ty1] t1 t2 t3 cam]. cbn. intros [-> ->].
    eexists; eexists; split; [reflexivity|]. split; [split; reflexivity|].
    split; [cbn; rewrite ?Z.eqb_refl; reflexivity|].
    split; [reflexivity|]. split; [reflexivity|]. split; reflexivity.
  - intros _. destruct l as [cam t1 t2 rot pressed].
    unfold Week5.input_handling, Week5.render. cbn.
    destruct (ret_glfwGetKey_space (frames e k) =? 0); destruct pressed; cbn;
      (eexists; eexists; split; [reflexivity|]; split; [exact I|];
       split; [cbn; rewrite ?Z.eqb_refl; reflexivity|];
       split; [reflexivity|]; split; [reflexivity|]; split; reflexivity).
Qed.

Lemma draws_follow_binds_app ix prev t1 t2 :
  draws_follow_binds ix prev t1 = true ->
  (forall prev', draws_follow_binds ix prev' t2 = true) ->
  draws_follow_binds ix prev (t1 ++ t2) = true.
Proof.
  revert prev; induction t1 as [|c t1 IH]; intros prev H1 H2; [apply H2|].
  cbn [app draws_follow_binds] in *. apply andb_true_iff in H1. destruct H1 as [Hc H1].
  rewrite Hc. cbn [andb]. apply IH; assumption.
Qed.

Lemma draws_follow_binds_viewports ix rs t :
  (forall prev, draws_follow_binds ix prev t = true) ->
  forall prev, draws_follow_binds ix prev (viewport_calls rs ++ t) = true.
Proof.
  intros Ht. induction rs as [|wh rs IH]; intros prev; [apply Ht|].
  cbn [viewport_calls map app draws_follow_binds bound_for andb]. apply IH.
Qed.

Lemma frame_of_facts p e k l g :
  locals_inv p l ->
  exists l1 t1,
    frame_of p e k l g = (Some l1, apply_resizes (resize_events (frames e k)) g, t1) /\
    locals_inv p l1 /\ turn_facts p (window g) t1.
Proof.
  intros Hinv. rewrite frame_of_spec.
  destruct (after_poll_of_facts p e k l (apply_resizes (resize_events (frames e k)) g) Hinv)
    as (l' & t & -> & Hinv' & Hall & Hpoll & Hclear & Hdraws & Hbinds).
  rewrite apply_resizes_window in Hall.
  do 2 eexists. split; [reflexivity|]. split; [exact Hinv'|].
  destruct (viewport_calls_facts (window g) (resize_events (frames e k))) as [Hv Hcount].
  change ((glfwPollEvents :: viewport_calls (resize_events (frames e k))) ++ t)
    with ([glfwPollEvents] ++ viewport_calls (resize_events (frames e k)) ++ t).
  unfold turn_facts. rewrite !forallb_app, Hv, Hall, !count_calls_app.
  rewrite !Hcount by reflexivity. rewrite Hpoll, Hclear.
  split; [reflexivity|]. split; [reflexivity|]. split; [reflexivity|].
  cbn [app count_calls filter List.length is_glDrawArrays is_glDrawElements
       is_VertexArrayObject_Draw Nat.add].
  split; [exact Hdraws|]. intros prev.
  cbn [draws_follow_binds bound_for andb].
  apply draws_follow_binds_viewports. exact Hbinds.
Qed.

(** Every run whose initialisation succeeds, with what its turns issue,
    given by [F], and what its globals keep. *)
Lemma run_main_with (F : pointer -> list call -> Prop) p e fuel :
  init_succeeds e ->
  (forall k l g, locals_inv p l ->
     exists l1 t1,
       frame_of p e k l g = (Some l1, apply_resizes (resize_events (frames e k)) g, t1) /\
       locals_inv p l1 /\ F (window g) t1) ->
  exists r g fs tail,
    run_main p e fuel
    = (r, g, (init_calls e (initial_globals_of p) ++ setup_calls p e)
               ++ List.concat fs ++ tail) /\
    (window g = ret_glfwCreateWindow e /\
     windowTitle g = windowTitle (initial_globals_of p)) /\
    Forall (turn (ret_glfwCreateWindow e) (F (ret_glfwCreateWindow e))) fs /\
    ((r = Some 0 /\
      tail = glfwWindowShouldClose (ret_glfwCreateWindow e) :: teardown_calls p /\
      closes_at e (List.length fs) /\ (List.length fs < fuel)%nat) \/
     (r = None /\ tail = [] /\ List.length fs = fuel /\
      forall i, (i < fuel)%nat -> ret_glfwWindowShouldClose (frames e i) = 0)).
Proof.
  intros Hinit Hframe.
  pose (w := ret_glfwCreateWindow e).
  pose (G := fun g : globals =>
               window g = w /\ windowTitle g = windowTitle (initial_globals_of p)).
  destruct (run_main_success p e fuel Hinit) as (l0 & Hsetup & Hrun).
  assert (Hturns : forall n,
            exists l g fs,
              run_frames (frame_of p e) n 0 l0 (with_window w (initial_globals_of p))
              = (Some l, g, List.concat fs) /\
              G g /\ List.length fs = n /\ Forall (turn w (F w)) fs).
  { intros n.
    destruct (run_frames_inv (frame_of p e)
                (fun _ l g => locals_inv p l /\ G g) w (F w)) with
      (n := n) (k := 0%nat) (l := l0) (g := with_window w (initial_globals_of p))
      as (l' & g' & fs & Hr & [_ HG] & Hlen & Hall).
    - intros k l g [_ [Hw _]]. exact Hw.
    - intros k l g [Hinv [Hw Ht]].
      destruct (Hframe k l g Hinv) as (l1 & t1 & Hf & Hinv1 & Hfacts).
      exists l1, (apply_resizes (resize_events (frames e k)) g), t1.
      split; [exact Hf|]. split; [|rewrite <- Hw; exact Hfacts].
      split; [exact Hinv1|]. split.
      + rewrite apply_resizes_window. exact Hw.
      + rewrite apply_resizes_title. exact Ht.
    - split; [|split; reflexivity].
      eapply setup_of_inv. apply (Hsetup (initial_globals_of p)).
    - exists l', g', fs. auto. }
  destruct (closes_or_stays_open e fuel 0) as [(n & Hn & Hlt)|Hopen].
  - rewrite (while_window_open_closes e (frame_of p e) n fuel 0 l0 _ Hn Hlt) in Hrun.
    destruct (Hturns n) as (l & g & fs & Hr & HG & Hlen & Hall).
    fold w in Hrun. rewrite Hr in Hrun.
    exists (Some 0), g, fs, (glfwWindowShouldClose w :: teardown_calls p).
    split; [|split; [exact HG|split; [exact Hall|]]].
    + rewrite Hrun. destruct HG as [-> _]. rewrite <- !app_assoc. reflexivity.
    + left. rewrite Hlen. auto.
  - rewrite (while_window_open_stays_open e (frame_of p e) fuel 0 l0 _ Hopen) in Hrun.
    destruct (Hturns fuel) as (l & g & fs & Hr & HG & Hlen & Hall).
    fold w in Hrun. rewrite Hr in Hrun.
    exists None, g, fs, [].
    split; [|split; [exact HG|split; [exact Hall|]]].
    + rewrite Hrun. rewrite app_nil_r, <- !app_assoc. reflexivity.
    + right. auto.
Qed.

Lemma run_main_turns p e fuel :
  init_succeeds e ->
  exists r g fs tail,
    run_main p e fuel
    = (r, g, (init_calls e (initial_globals_of p) ++ setup_calls p e)
               ++ List.concat fs ++ tail) /\
    (window g = ret_glfwCreateWindow e /\
     windowTitle g = windowTitle (initial_globals_of p)) /\
    Forall (turn (ret_glfwCreateWindow e) (turn_facts p (ret_glfwCreateWindow e))) fs /\
    ((r = Some 0 /\
      tail = glfwWindowShouldClose (ret_glfwCreateWindow e) :: teardown_calls p /\
      closes_at e (List.length fs) /\ (List.length fs < fuel)%nat) \/
     (r = None /\ tail = [] /\ List.length fs = fuel /\
      forall i, (i < fuel)%nat -> ret_glfwWindowShouldClose (frames e i) = 0)).
Proof.
  intros Hinit. apply (run_main_with (turn_facts p) p e fuel Hinit).
  intros k l g Hinv. apply frame_of_facts. exact Hinv.
Qed.

(** ** The window handle *)

Lemma prefix_window_ok p e :
  forallb (window_ok (ret_glfwCreateWindow e))
          (init_calls e (initial_globals_of p) ++ setup_calls p e) = true.
Proof. destruct p; cbn; rewrite ?Z.eqb_refl; reflexivity. Qed.

Lemma teardown_window_ok p w : forallb (window_ok w) (teardown_calls p) = true.
Proof. destruct p; reflexivity. Qed.

Lemma turn_facts_forallb p w (P : call -> bool) fs :
  P (glfwWindowShouldClose w) = true ->
  (forall c, loop_only c && window_ok w c = true -> P c = true) ->
  Forall (turn w (turn_facts p w)) fs ->
  forallb P (List.concat fs) = true.
Proof.
  intros Hw HP Hall. induction Hall as [|f fs (t & -> & Ht & _) _ IH]; [reflexivity|].
  cbn [List.concat]. rewrite forallb_app, IH, andb_true_r.
  cbn [forallb]. rewrite Hw. cbn [andb].
  apply forallb_forall. intros c Hc. apply HP.
  rewrite forallb_forall in Ht. apply Ht. exact Hc.
Qed.

(** X1: every call that takes a window handle is given the pointer that
    [glfwCreateWindow] returned; the [window] global ends as that pointer when
    [glfwInit] succeeded and stays null otherwise; [windowTitle] is never
    written. *)
Theorem window_handle_is_the_created_one (p : project) (e : environment) (fuel : nat) :
  forallb (window_ok (ret_glfwCreateWindow e)) (calls (run_main p e fuel)) = true /\
  window (final_globals (run_main p e fuel))
  = match ret_glfwInit e with
    | GLFW_TRUE => ret_glfwCreateWindow e
    | GLFW_FALSE => nullptr
    end /\
  windowTitle (final_globals (run_main p e fuel)) = windowTitle (initial_globals_of p).
Proof.
  destruct (init_cases e) as [Hglfw | [[Hglfw Hglad] | Hinit]].
  - rewrite (run_main_glfw_fails p e fuel Hglfw), Hglfw.
    destruct p; repeat split.
  - rewrite (run_main_glad_fails p e fuel Hglfw Hglad), Hglfw.
    cbn [calls final_globals fst snd]. split; [|split; reflexivity].
    unfold init_calls. cbn. rewrite ?Z.eqb_refl. reflexivity.
  - destruct (run_main_turns p e fuel Hinit) as (r & g & fs & tail & -> & [Hw Ht] & Hall & Hr).
    destruct Hinit as [Hglfw _]. rewrite Hglfw.
    cbn [calls final_globals fst snd]. split; [|split; assumption].
    rewrite forallb_app, prefix_window_ok, forallb_app.
    rewrite (turn_facts_forallb p _ _ fs (Z.eqb_refl _)
               (fun c Hc => proj2 (proj1 (andb_true_iff _ _) Hc)) Hall).
    destruct Hr as [(_ & -> & _)|(_ & -> & _)]; [|reflexivity].
    cbn [forallb window_ok andb]. rewrite Z.eqb_refl. apply teardown_window_ok.
Qed.

(** ** Initialisation *)

Lemma each_preceded_by_seen a b t : each_preceded_by a b true t = true.
Proof.
  induction t as [|c t IH]; [reflexivity|].
  cbn [each_preceded_by]. rewrite orb_true_r. exact IH.
Qed.

Lemma each_preceded_by_app a b seen t1 t2 :
  each_preceded_by a b seen (t1 ++ t2)
  = each_preceded_by a b seen t1 && each_preceded_by a b (seen || existsb a t1) t2.
Proof.
  revert seen; induction t1 as [|c t1 IH]; intros seen.
  - cbn. rewrite orb_false_r. reflexivity.
  - cbn [app each_preceded_by existsb]. rewrite IH.
    rewrite andb_assoc, orb_assoc. reflexivity.
Qed.

Lemma turn_facts_count p w (f : call -> bool) fs :
  f (glfwWindowShouldClose w) = false ->
  (forall c, loop_only c = true -> f c = false) ->
  Forall (turn w (turn_facts p w)) fs ->
  count_calls f (List.concat fs) = 0%nat.
Proof.
  intros Hw Hf Hall.
  rewrite (turns_count w (turn_facts p w) f 0 fs Hw); [lia | | exact Hall].
  intros t (Ht & _). apply count_calls_zero. intros c Hc. apply Hf.
  rewrite forallb_forall in Ht. specialize (Ht c Hc).
  apply andb_true_iff in Ht. apply Ht.
Qed.

Lemma tail_count p e (f : call -> bool) r tail (fs : list (list call)) fuel :
  f (glfwWindowShouldClose (ret_glfwCreateWindow e)) = false ->
  ((r = Some 0 /\
    tail = glfwWindowShouldClose (ret_glfwCreateWindow e) :: teardown_calls p /\
    closes_at e (List.length fs) /\ (List.length fs < fuel)%nat) \/
   (r = None /\ tail = [] /\ List.length fs = fuel /\
    forall i, (i < fuel)%nat -> ret_glfwWindowShouldClose (frames e i) = 0)) ->
  count_calls f tail = match r with
                       | Some _ => count_calls f (teardown_calls p)
                       | None => 0%nat
                       end.
Proof.
  intros Hw [(-> & -> & _)|(-> & -> & _)]; [|reflexivity].
  unfold count_calls at 1. cbn [filter]. rewrite Hw. reflexivity.
Qed.

(** X2: the GLAD loader is called only after a context was made current, as
    the comment on [initGLFW] asks; it is called once when [glfwInit]
    succeeds and not at all when it fails, and so is [glfwCreateWindow]. *)
Theorem glad_is_loaded_after_the_context_is_current
        (p : project) (e : environment) (fuel : nat) :
  each_preceded_by is_glfwMakeContextCurrent is_gladLoadGLLoader false
                   (calls (run_main p e fuel)) = true /\
  count_calls is_gladLoadGLLoader (calls (run_main p e fuel))
  = match ret_glfwInit e with GLFW_TRUE => 1%nat | GLFW_FALSE => 0%nat end /\
  count_calls is_glfwCreateWindow (calls (run_main p e fuel))
  = match ret_glfwInit e with GLFW_TRUE => 1%nat | GLFW_FALSE => 0%nat end.
Proof.
  destruct (init_cases e) as [Hglfw | [[Hglfw Hglad] | Hinit]].
  - rewrite (run_main_glfw_fails p e fuel Hglfw), Hglfw. repeat split.
  - rewrite (run_main_glad_fails p e fuel Hglfw Hglad), Hglfw. repeat split.
  - destruct (run_main_turns p e fuel Hinit) as (r & g & fs & tail & -> & _ & Hall & Hr).
    destruct Hinit as [Hglfw _]. rewrite Hglfw. cbn [calls snd].
    split; [|split].
    + rewrite each_preceded_by_app.
      replace (existsb is_glfwMakeContextCurrent
                 (init_calls e (initial_globals_of p) ++ setup_calls p e))
        with true by (destruct p; reflexivity).
      cbn [orb]. rewrite each_preceded_by_seen, andb_true_r.
      destruct p; reflexivity.
    + rewrite !count_calls_app.
      rewrite (turn_facts_count p _ is_gladLoadGLLoader fs eq_refl) by
        (try exact Hall; intros c; destruct c; cbn; congruence).
      rewrite (tail_count p e is_gladLoadGLLoader r tail fs fuel eq_refl Hr).
      destruct r; destruct p; reflexivity.
    + rewrite !count_calls_app.
      rewrite (turn_facts_count p _ is_glfwCreateWindow fs eq_refl) by
        (try exact Hall; intros c; destruct c; cbn; congruence).
      rewrite (tail_count p e is_glfwCreateWindow r tail fs fuel eq_refl Hr).
      destruct r; destruct p; reflexivity.
Qed.

(** ** The logger and the exit code *)

Lemma teardown_calls_uninitialize p :
  exists d, teardown_calls p = d ++ Logger_Uninitialize :: scope_exit p /\
            count_calls is_Logger_Uninitialize d = 0%nat /\
            count_calls is_Logger_Init d = 0%nat /\
            count_calls is_Destroy_Sptr d = 0%nat /\
            count_calls is_Logger_Init (scope_exit p) = 0%nat.
Proof.
  destruct p.
  - exists [Delete "shader"; Delete "vao"; Delete "posVbo"; Delete "color_vbo"].
    repeat split.
  - exists []. repeat split.
  - exists []. repeat split.
Qed.

(** X3: [Logger::Init()] is the first call of every run and is not called
    again.  [Logger::Uninitialize()] is called exactly when [main] returns 0,
    once, and what follows it is the destruction of the [Sptr] locals of
    [main], the last declared first, and nothing else: the eleven smart
    pointers of part_000 and the two of the Week-5 program give up their
    objects after the logger has been uninitialised.  A run that returns 1,
    or that is still in its loop, neither uninitialises the logger nor
    destroys a smart pointer. *)
Theorem logger_is_uninitialized_only_on_exit_0
        (p : project) (e : environment) (fuel : nat) :
  (exists t, calls (run_main p e fuel) = Logger_Init :: t /\
             count_calls is_Logger_Init t = 0%nat) /\
  (exit_code (run_main p e fuel) = Some 0 ->
   exists t', calls (run_main p e fuel) = t' ++ Logger_Uninitialize :: scope_exit p /\
              count_calls is_Logger_Uninitialize t' = 0%nat /\
              count_calls is_Destroy_Sptr t' = 0%nat) /\
  (exit_code (run_main p e fuel) <> Some 0 ->
   count_calls is_Logger_Uninitialize (calls (run_main p e fuel)) = 0%nat /\
   count_calls is_Destroy_Sptr (calls (run_main p e fuel)) = 0%nat).
Proof.
  destruct (init_cases e) as [Hglfw | [[Hglfw Hglad] | Hinit]].
  - rewrite (run_main_glfw_fails p e fuel Hglfw). cbn [calls exit_code fst snd].
    split; [eexists; split; reflexivity|]. split; [discriminate | split; reflexivity].
  - rewrite (run_main_glad_fails p e fuel Hglfw Hglad). cbn [calls exit_code fst snd].
    split; [eexists; split; reflexivity|]. split; [discriminate | split; reflexivity].
  - destruct (run_main_turns p e fuel Hinit) as (r & g & fs & tail & -> & _ & Hall & Hr).
    cbn [calls exit_code fst snd].
    destruct (teardown_calls_uninitialize p) as (d & Hd & Hd1 & Hd2 & Hd3 & Hd4).
    assert (Hturns : forall f : call -> bool,
               f (glfwWindowShouldClose (ret_glfwCreateWindow e)) = false ->
               (forall c, loop_only c = true -> f c = false) ->
               count_calls f (List.concat fs) = 0%nat).
    { intros f Hw Hf. apply (turn_facts_count p _ f fs Hw Hf Hall). }
    split; [|split].
    + unfold init_calls. cbn [app]. eexists. split; [reflexivity|].
      change (count_calls is_Logger_Init
                ([glfwInit;
                  glfwCreateWindow (ivec2_x (windowSize (initial_globals_of p)))
                                   (ivec2_y (windowSize (initial_globals_of p)))
                                   (windowTitle (initial_globals_of p));
                  glfwMakeContextCurrent (ret_glfwCreateWindow e);
                  glfwSetWindowSizeCallback (ret_glfwCreateWindow e);
                  gladLoadGLLoader]
                   ++ setup_calls p e ++ List.concat fs ++ tail) = 0%nat).
      rewrite !count_calls_app.
      rewrite (Hturns is_Logger_Init eq_refl) by (intros c; destruct c; cbn; congruence).
      rewrite (tail_count p e is_Logger_Init r tail fs fuel eq_refl Hr).
      rewrite Hd, count_calls_app, Hd2.
      change (Logger_Uninitialize :: scope_exit p)
        with ([Logger_Uninitialize] ++ scope_exit p).
      rewrite count_calls_app, Hd4.
      destruct r; destruct p; reflexivity.
    + intros Hexit. destruct Hr as [(_ & -> & _)|(-> & _)]; [|discriminate].
      exists ((init_calls e (initial_globals_of p) ++ setup_calls p e)
                ++ List.concat fs ++ glfwWindowShouldClose (ret_glfwCreateWindow e) :: d).
      split; [|split].
      * rewrite Hd. rewrite <- !app_assoc. reflexivity.
      * rewrite !count_calls_app.
        rewrite (Hturns is_Logger_Uninitialize eq_refl)
          by (intros c; destruct c; cbn; congruence).
        unfold count_calls at 3. cbn [filter is_Logger_Uninitialize].
        fold (count_calls is_Logger_Uninitialize d). rewrite Hd1.
        destruct p; reflexivity.
      * rewrite !count_calls_app.
        rewrite (Hturns is_Destroy_Sptr eq_refl)
          by (intros c; destruct c; cbn; congruence).
        unfold count_calls at 3. cbn [filter is_Destroy_Sptr].
        fold (count_calls is_Destroy_Sptr d). rewrite Hd3.
        destruct p; reflexivity.
    + intros Hexit. destruct Hr as [(-> & _)|(_ & -> & _)]; [contradiction|].
      rewrite !count_calls_app.
      rewrite (Hturns is_Logger_Uninitialize eq_refl)
        by (intros c; destruct c; cbn; congruence).
      rewrite (Hturns is_Destroy_Sptr eq_refl)
        by (intros c; destruct c; cbn; congruence).
      destruct p; split; reflexivity.
Qed.

(** The sample run of part_000: after [Logger::Uninitialize()] the eleven
    smart pointers are destroyed, [camera] first and [posVbo] last. *)
Lemma logger_is_uninitialized_only_on_exit_0_witness :
  exists t',
    calls (run_main P_Part000 sample_env 3)
    = t' ++ Logger_Uninitialize
           :: map Destroy_Sptr
                [ "camera"; "shader"; "vao3"; "interleaved_ibo1"; "interleaved_vbo1";
                  "vao2"; "interleaved_ibo"; "interleaved_vbo"; "vao"; "color_vbo";
                  "posVbo" ] /\
    count_calls is_Logger_Uninitialize t' = 0%nat /\
    count_calls is_Destroy_Sptr t' = 0%nat.
Proof.
  apply (proj1 (proj2 (logger_is_uninitialized_only_on_exit_0 P_Part000 sample_env 3))).
  vm_compute. reflexivity.
Defined.

(** X4: [main] returns 0 exactly when both initialisations succeed and the
    should-close flag reads set at one of the loop tests; it is still in its
    loop exactly when both succeed and the flag reads unset at every test it
    was allowed. *)
Theorem main_returns_0_iff_the_window_closes (p : project) (e : environment) (fuel : nat) :
  (exit_code (run_main p e fuel) = Some 0 <->
   init_succeeds e /\ exists n, closes_at e n /\ (n < fuel)%nat) /\
  (exit_code (run_main p e fuel) = None <->
   init_succeeds e /\
   forall i, (i < fuel)%nat -> ret_glfwWindowShouldClose (frames e i) = 0).
Proof.
  destruct (init_cases e) as [Hglfw | [[Hglfw Hglad] | Hinit]].
  - rewrite (run_main_glfw_fails p e fuel Hglfw). cbn [exit_code fst].
    split; (split; [discriminate | intros [[H _] _]; congruence]).
  - rewrite (run_main_glad_fails p e fuel Hglfw Hglad). cbn [exit_code fst].
    split; (split; [discriminate | intros [[_ H] _]; contradiction]).
  - split; split.
    + intros Hexit.
      destruct (run_main_turns p e fuel Hinit) as (r & g & fs & tail & Hrun & _ & _ & Hr).
      rewrite Hrun in Hexit. cbn [exit_code fst] in Hexit.
      destruct Hr as [(_ & _ & Hn & Hlt)|(-> & _)]; [|discriminate].
      split; [exact Hinit|]. exists (List.length fs). split; assumption.
    + intros [_ (n & Hn & Hlt)].
      destruct (run_main_closes p e n fuel Hinit Hn Hlt) as (g & fs & -> & _).
      reflexivity.
    + intros Hexit.
      destruct (run_main_turns p e fuel Hinit) as (r & g & fs & tail & Hrun & _ & _ & Hr).
      rewrite Hrun in Hexit. cbn [exit_code fst] in Hexit.
      destruct Hr as [(-> & _)|(_ & _ & _ & Hopen)]; [discriminate|].
      split; assumption.
    + intros [_ Hopen].
      destruct (run_main_stays_open p e fuel Hinit Hopen) as (g & fs & -> & _).
      reflexivity.
Qed.

Lemma main_returns_0_iff_the_window_closes_witness :
  exit_code (run_main P_Week5 sample_env 3) = Some 0.
Proof.
  apply (proj1 (main_returns_0_iff_the_window_closes P_Week5 sample_env 3)).
  split; [split; [reflexivity | cbn; discriminate]|].
  exists 2%nat. split; [|lia].
  split; [intros [|[|i]] Hi; [reflexivity | reflexivity | lia] | cbn; discriminate].
Defined.

(** ** Objects constructed and deleted *)

Lemma turn_facts_flat_map {B : Type} p w (f : call -> list B) fs :
  f (glfwWindowShouldClose w) = [] ->
  (forall c, loop_only c = true -> f c = []) ->
  Forall (turn w (turn_facts p w)) fs ->
  flat_map f (List.concat fs) = [].
Proof.
  intros Hw Hf Hall. induction Hall as [|t fs (t' & -> & Ht & _) _ IH]; [reflexivity|].
  cbn [List.concat]. rewrite flat_map_app, IH, app_nil_r.
  cbn [flat_map]. rewrite Hw. cbn [app].
  rewrite forallb_forall in Ht.
  induction t' as [|c t' IHt]; [reflexivity|].
  cbn [flat_map]. rewrite Hf, IHt; [reflexivity | |].
  - intros x Hx. apply Ht. right. exact Hx.
  - specialize (Ht c (or_introl eq_refl)). apply andb_true_iff in Ht. apply Ht.
Qed.

(** X5: the Week-3 program constructs seven objects with [new] and deletes
    four of them, once each, when its loop has ended and only then;
    [interleaved_vbo], [interleaved_ibo] and [vao2] are never deleted.  After
    the first [delete] it only deletes and uninitialises the logger.  The
    other two programs never delete. *)
Theorem week3_deletes_four_of_its_seven_objects (e : environment) (fuel : nat) :
  (init_succeeds e ->
   constructed (calls (run_main P_Week3 e fuel))
   = ["interleaved_vbo"; "interleaved_ibo"; "vao2"; "posVbo"; "color_vbo"; "vao"; "shader"]) /\
  (exit_code (run_main P_Week3 e fuel) = Some 0 ->
   exists t',
     calls (run_main P_Week3 e fuel)
     = t' ++ [Delete "shader"; Delete "vao"; Delete "posVbo"; Delete "color_vbo";
              Logger_Uninitialize] /\
     deleted t' = []) /\
  (exit_code (run_main P_Week3 e fuel) <> Some 0 ->
   deleted (calls (run_main P_Week3 e fuel)) = []) /\
  (forall p, p <> P_Week3 -> deleted (calls (run_main p e fuel)) = []).
Proof.
  assert (Hfail : forall p,
             ~ init_succeeds e ->
             deleted (calls (run_main p e fuel)) = [] /\
             exit_code (run_main p e fuel) <> Some 0).
  { intros p Hnot. destruct (init_cases e) as [Hglfw | [[Hglfw Hglad] | Hinit]].
    - rewrite (run_main_glfw_fails p e fuel Hglfw). split; [reflexivity | discriminate].
    - rewrite (run_main_glad_fails p e fuel Hglfw Hglad). split; [reflexivity | discriminate].
    - contradiction. }
  assert (Hloop : forall p fs,
             Forall (turn (ret_glfwCreateWindow e) (turn_facts p (ret_glfwCreateWindow e))) fs ->
             deleted (List.concat fs) = [] /\ constructed (List.concat fs) = []).
  { intros p fs Hall. split.
    - apply (turn_facts_flat_map p (ret_glfwCreateWindow e) _ fs eq_refl); [|exact Hall].
      intros c; destruct c; cbn; congruence.
    - apply (turn_facts_flat_map p (ret_glfwCreateWindow e) _ fs eq_refl); [|exact Hall].
      intros c; destruct c; cbn; congruence. }
  split; [|split; [|split]].
  - intros Hinit.
    destruct (run_main_turns P_Week3 e fuel Hinit) as (r & g & fs & tail & -> & _ & Hall & Hr).
    cbn [calls snd]. unfold constructed. rewrite !flat_map_app.
    fold (constructed (List.concat fs)). rewrite (proj2 (Hloop _ fs Hall)).
    destruct Hr as [(_ & -> & _)|(_ & -> & _)]; reflexivity.
  - intros Hexit.
    destruct (init_cases e) as [Hglfw | [[Hglfw Hglad] | Hinit]].
    + exfalso. apply (proj2 (Hfail P_Week3 ltac:(intros [H _]; congruence))). exact Hexit.
    + exfalso. apply (proj2 (Hfail P_Week3 ltac:(intros [_ H]; contradiction))). exact Hexit.
    + destruct (run_main_turns P_Week3 e fuel Hinit)
        as (r & g & fs & tail & Hrun & _ & Hall & Hr).
      rewrite Hrun in Hexit |- *. cbn [calls exit_code fst snd] in Hexit |- *.
      destruct Hr as [(_ & -> & _)|(-> & _)]; [|discriminate].
      exists ((init_calls e (initial_globals_of P_Week3) ++ setup_calls P_Week3 e)
                ++ List.concat fs ++ [glfwWindowShouldClose (ret_glfwCreateWindow e)]).
      split; [rewrite <- !app_assoc; reflexivity|].
      unfold deleted. rewrite !flat_map_app.
      fold (deleted (List.concat fs)). rewrite (proj1 (Hloop _ fs Hall)). reflexivity.
  - intros Hexit.
    destruct (init_cases e) as [Hglfw | [[Hglfw Hglad] | Hinit]].
    + apply Hfail. intros [H _]; congruence.
    + apply Hfail. intros [_ H]; contradiction.
    + destruct (run_main_turns P_Week3 e fuel Hinit)
        as (r & g & fs & tail & Hrun & _ & Hall & Hr).
      rewrite Hrun in Hexit |- *. cbn [calls exit_code fst snd] in Hexit |- *.
      destruct Hr as [(-> & _)|(_ & -> & _)]; [contradiction|].
      unfold deleted. rewrite !flat_map_app.
      fold (deleted (List.concat fs)). rewrite (proj1 (Hloop _ fs Hall)). reflexivity.
  - intros p Hp.
    destruct (init_cases e) as [Hglfw | [[Hglfw Hglad] | Hinit]].
    + apply Hfail. intros [H _]; congruence.
    + apply Hfail. intros [_ H]; contradiction.
    + destruct (run_main_turns p e fuel Hinit) as (r & g & fs & tail & -> & _ & Hall & Hr).
      cbn [calls snd]. unfold deleted. rewrite !flat_map_app.
      fold (deleted (List.concat fs)). rewrite (proj1 (Hloop _ fs Hall)).
      destruct Hr as [(_ & -> & _)|(_ & -> & _)]; destruct p;
        try contradiction; reflexivity.
Qed.

Lemma week3_deletes_four_of_its_seven_objects_witness :
  exists t',
    calls (run_main P_Week3 sample_env 3)
    = t' ++ [Delete "shader"; Delete "vao"; Delete "posVbo"; Delete "color_vbo";
             Logger_Uninitialize] /\
    deleted t' = [].
Proof.
  apply (proj1 (proj2 (week3_deletes_four_of_its_seven_objects sample_env 3))).
  vm_compute. reflexivity.
Defined.

(** ** What a turn draws *)

Lemma closes_from_unique e k n m : closes_from e k n -> closes_from e k m -> n = m.
Proof.
  intros [Hn1 Hn2] [Hm1 Hm2].
  destruct (Nat.lt_trichotomy n m) as [H | [H | H]]; [|exact H|].
  - exfalso. apply Hn2. apply Hm1. exact H.
  - exfalso. apply Hm2. apply Hn1. exact H.
Qed.

Lemma turn_facts_counts p w t :
  turn_facts p w t ->
  count_calls is_glfwPollEvents t = 1%nat /\
  count_calls is_glClear t = 1%nat /\
  count_calls is_glDrawArrays t = fst (fst (draws_per_turn p)) /\
  count_calls is_glDrawElements t = snd (fst (draws_per_turn p)) /\
  count_calls is_VertexArrayObject_Draw t = snd (draws_per_turn p).
Proof.
  intros (_ & H1 & H2 & H3 & _). rewrite <- H3. cbn [fst snd]. auto.
Qed.

(** X6: a run whose window closes at loop test [n] has polled the events and
    cleared the buffers [n] times, and has issued in each of its [n] turns
    the same draws: one [glDrawArrays] and one [glDrawElements] in the
    Week-3 program, one and two in part_000, and two [vao4->Draw()] and no
    direct GL draw in the Week-5 program. *)
Theorem each_turn_issues_the_same_draws (p : project) (e : environment) (n fuel : nat) :
  init_succeeds e -> closes_at e n -> (n < fuel)%nat ->
  count_calls is_glfwPollEvents (calls (run_main p e fuel)) = n /\
  count_calls is_glClear (calls (run_main p e fuel)) = n /\
  count_calls is_glDrawArrays (calls (run_main p e fuel))
  = (n * fst (fst (draws_per_turn p)))%nat /\
  count_calls is_glDrawElements (calls (run_main p e fuel))
  = (n * snd (fst (draws_per_turn p)))%nat /\
  count_calls is_VertexArrayObject_Draw (calls (run_main p e fuel))
  = (n * snd (draws_per_turn p))%nat.
Proof.
  intros Hinit Hn Hlt.
  destruct (run_main_turns p e fuel Hinit) as (r & g & fs & tail & -> & _ & Hall & Hr).
  cbn [calls snd].
  assert (Hlen : List.length fs = n).
  { destruct Hr as [(_ & _ & Hc & _)|(_ & _ & Hlen & Hopen)].
    - apply (closes_from_unique e 0 _ _ Hc Hn).
    - exfalso. destruct Hn as [_ Hn]. apply Hn. apply Hopen. lia. }
  assert (Hcount : forall (f : call -> bool) m,
             f (glfwWindowShouldClose (ret_glfwCreateWindow e)) = false ->
             (forall t, turn_facts p (ret_glfwCreateWindow e) t -> count_calls f t = m) ->
             count_calls f (init_calls e (initial_globals_of p) ++ setup_calls p e) = 0%nat ->
             count_calls f (teardown_calls p) = 0%nat ->
             count_calls f ((init_calls e (initial_globals_of p) ++ setup_calls p e)
                              ++ List.concat fs ++ tail) = (n * m)%nat).
  { intros f m Hw Hf Hpre Htd.
    rewrite count_calls_app, Hpre, count_calls_app.
    rewrite (turns_count _ _ f m fs Hw Hf Hall), Hlen.
    rewrite (tail_count p e f r tail fs fuel Hw Hr), Htd.
    destruct r; lia. }
  repeat split.
  - rewrite (Hcount is_glfwPollEvents 1%nat eq_refl); try (destruct p; reflexivity); [lia|].
    intros t Ht. apply (turn_facts_counts p _ t Ht).
  - rewrite (Hcount is_glClear 1%nat eq_refl); try (destruct p; reflexivity); [lia|].
    intros t Ht. apply (turn_facts_counts p _ t Ht).
  - apply (Hcount is_glDrawArrays _ eq_refl); try (destruct p; reflexivity).
    intros t Ht. apply (turn_facts_counts p _ t Ht).
  - apply (Hcount is_glDrawElements _ eq_refl); try (destruct p; reflexivity).
    intros t Ht. apply (turn_facts_counts p _ t Ht).
  - apply (Hcount is_VertexArrayObject_Draw _ eq_refl); try (destruct p; reflexivity).
    intros t Ht. apply (turn_facts_counts p _ t Ht).
Qed.

Lemma each_turn_issues_the_same_draws_witness :
  count_calls is_glDrawElements (calls (run_main P_Part000 sample_env 3)) = 4%nat /\
  count_calls is_VertexArrayObject_Draw (calls (run_main P_Part000 sample_env 3)) = 0%nat.
Proof.
  destruct (each_turn_issues_the_same_draws P_Part000 sample_env 2 3)
    as (_ & _ & _ & H4 & H5).
  - split; [reflexivity | cbn; discriminate].
  - split; [intros [|[|i]] Hi; [reflexivity | reflexivity | lia] | cbn; discriminate].
  - lia.
  - split; [exact H4 | exact H5].
Defined.

(** ** Resizes *)

Lemma filter_viewport_calls rs : filter is_glViewport (viewport_calls rs) = viewport_calls rs.
Proof.
  unfold viewport_calls. induction rs as [|wh rs IH]; [reflexivity|].
  cbn [map filter is_glViewport]. f_equal. exact IH.
Qed.

Lemma apply_resizes_app a b g :
  apply_resizes (a ++ b) g = apply_resizes b (apply_resizes a g).
Proof. unfold apply_resizes. apply fold_left_app. Qed.

Lemma after_poll_of_no_viewport p e k l g :
  locals_inv p l ->
  exists l' t,
    after_poll_of p e k l g = (Some l', g, t) /\ locals_inv p l' /\
    filter is_glViewport t = [].
Proof.
  destruct p; cbn [locals_inv after_poll_of locals_of] in *.
  - destruct l as [[nm cnt ty]]. cbn. intros ->.
    eexists; eexists; split; [reflexivity|]. split; reflexivity.
  - destruct l as [[nm cnt ty] [nm1 cnt1 ty1] t1 t2 t3 cam]. cbn. intros [-> ->].
    eexists; eexists; split; [reflexivity|]. split; [split; reflexivity | reflexivity].
  - intros _. destruct l as [cam t1 t2 rot pressed].
    unfold Week5.input_handling, Week5.render. cbn.
    destruct (ret_glfwGetKey_space (frames e k) =? 0); destruct pressed; cbn;
      (eexists; eexists; split; [reflexivity|]; split; [exact I | reflexivity]).
Qed.

(** The turns from [k] on forward the resizes of each turn, in order, and
    leave the globals that these resizes give. *)
Lemma run_frames_resizes p e :
  forall n k l g, locals_inv p l ->
  exists l' t,
    run_frames (frame_of p e) n k l g
    = (Some l',
       apply_resizes (flat_map (fun i => resize_events (frames e i)) (seq k n)) g, t) /\
    filter is_glViewport t
    = viewport_calls (flat_map (fun i => resize_events (frames e i)) (seq k n)).
Proof.
  induction n as [|n IH]; intros k l g Hinv.
  - exists l, []. split; reflexivity.
  - rewrite run_frames_step, frame_of_spec.
    destruct (after_poll_of_no_viewport p e k l
                (apply_resizes (resize_events (frames e k)) g) Hinv)
      as (l1 & t1 & -> & Hinv1 & Hno).
    destruct (IH (S k) l1 (apply_resizes (resize_events (frames e k)) g) Hinv1)
      as (l' & t & -> & Hfilter).
    exists l'. eexists. split.
    + cbn [seq flat_map]. rewrite apply_resizes_app. reflexivity.
    + cbn [seq flat_map filter is_glViewport app].
      rewrite !filter_app, Hno, Hfilter, filter_viewport_calls.
      unfold viewport_calls. rewrite map_app, app_nil_r. reflexivity.
Qed.

(** A run whose initialisation succeeds: the turns it completes, what it
    forwards to [glViewport] and the globals it leaves. *)
Lemma run_main_resizes p e fuel :
  init_succeeds e ->
  exists n,
    ((closes_at e n /\ (n < fuel)%nat) \/
     (n = fuel /\ forall i, (i < fuel)%nat -> ret_glfwWindowShouldClose (frames e i) = 0)) /\
    filter is_glViewport (calls (run_main p e fuel))
    = viewport_calls (resizes_through e n) /\
    final_globals (run_main p e fuel)
    = apply_resizes (resizes_through e n)
                    (with_window (ret_glfwCreateWindow e) (initial_globals_of p)).
Proof.
  intros Hinit.
  destruct (run_main_success p e fuel Hinit) as (l0 & Hsetup & Hrun).
  assert (Hinv : locals_inv p l0).
  { eapply setup_of_inv. apply (Hsetup (initial_globals_of p)). }
  assert (Hpre : filter is_glViewport (init_calls e (initial_globals_of p)) = [] /\
                 filter is_glViewport (setup_calls p e) = [] /\
                 filter is_glViewport (teardown_calls p) = []).
  { destruct p; repeat split. }
  destruct Hpre as (Hp1 & Hp2 & Hp3).
  destruct (closes_or_stays_open e fuel 0) as [(n & Hn & Hlt)|Hopen].
  - exists n. split; [left; split; assumption|].
    rewrite (while_window_open_closes e (frame_of p e) n fuel 0 l0 _ Hn Hlt) in Hrun.
    destruct (run_frames_resizes p e n 0 l0
                (with_window (ret_glfwCreateWindow e) (initial_globals_of p)) Hinv)
      as (l & t & Hr & Hfilter).
    rewrite Hr in Hrun. rewrite Hrun. cbn [calls final_globals fst snd].
    split; [|reflexivity].
    rewrite !filter_app, Hp1, Hp2, Hp3, Hfilter. cbn [filter is_glViewport app].
    rewrite !app_nil_r. reflexivity.
  - exists fuel. split; [right; split; [reflexivity | exact Hopen]|].
    rewrite (while_window_open_stays_open e (frame_of p e) fuel 0 l0 _ Hopen) in Hrun.
    destruct (run_frames_resizes p e fuel 0 l0
                (with_window (ret_glfwCreateWindow e) (initial_globals_of p)) Hinv)
      as (l & t & Hr & Hfilter).
    rewrite Hr in Hrun. rewrite Hrun. cbn [calls final_globals fst snd].
    split; [|reflexivity].
    rewrite !filter_app, Hp1, Hp2, Hfilter. reflexivity.
Qed.

(** X7: the [glViewport] calls of a run are the resizes that GLFW dispatched
    in its turns, one call per resize and in the same order, each with the
    origin (0, 0); nothing else sets the viewport. *)
Theorem resizes_reach_the_viewport_in_order (p : project) (e : environment) (n fuel : nat) :
  init_succeeds e -> closes_at e n -> (n < fuel)%nat ->
  filter is_glViewport (calls (run_main p e fuel))
  = map (fun wh => glViewport 0 0 (fst wh) (snd wh)) (resizes_through e n).
Proof.
  intros Hinit Hn Hlt.
  destruct (run_main_resizes p e fuel Hinit) as (m & Hm & Hfilter & _).
  rewrite Hfilter. unfold viewport_calls.
  destruct Hm as [[Hc _]|[-> Hopen]].
  - rewrite (closes_from_unique e 0 _ _ Hc Hn). reflexivity.
  - exfalso. destruct Hn as [_ Hn]. apply Hn. apply Hopen. lia.
Qed.

Lemma resizes_reach_the_viewport_in_order_witness :
  filter is_glViewport (calls (run_main P_Week3 sample_env 3)) = [glViewport 0 0 640 480].
Proof.
  rewrite (resizes_reach_the_viewport_in_order P_Week3 sample_env 2 3).
  - reflexivity.
  - split; [reflexivity | cbn; discriminate].
  - split; [intros [|[|i]] Hi; [reflexivity | reflexivity | lia] | cbn; discriminate].
  - lia.
Defined.

Lemma viewport_size_filter s t :
  viewport_size s t = viewport_size s (filter is_glViewport t).
Proof.
  revert s; induction t as [|c t IH]; intros s; [reflexivity|].
  destruct c; cbn [filter is_glViewport]; cbn; apply IH.
Qed.

Lemma viewport_size_resizes rs g :
  viewport_size (windowSize g) (viewport_calls rs) = windowSize (apply_resizes rs g).
Proof.
  revert g; induction rs as [|wh rs IH]; intros g; [reflexivity|].
  cbn. rewrite <- IH. reflexivity.
Qed.

(** X8: in every run, however long, [windowSize] ends as the size given to
    the last [glViewport] call, and as the initial 800 x 800 when there was
    none: the global and the viewport never disagree. *)
Theorem windowSize_is_the_last_viewport (p : project) (e : environment) (fuel : nat) :
  windowSize (final_globals (run_main p e fuel))
  = viewport_size (glm_ivec2 800 800) (calls (run_main p e fuel)).
Proof.
  destruct (init_cases e) as [Hglfw | [[Hglfw Hglad] | Hinit]].
  - rewrite (run_main_glfw_fails p e fuel Hglfw). destruct p; reflexivity.
  - rewrite (run_main_glad_fails p e fuel Hglfw Hglad). destruct p; reflexivity.
  - destruct (run_main_resizes p e fuel Hinit) as (n & _ & Hfilter & ->).
    rewrite viewport_size_filter, Hfilter.
    rewrite <- viewport_size_resizes. destruct p; reflexivity.
Qed.

(** ** The cameras *)

Lemma part000_frame_camera e k l g :
  exists l' g' t,
    Part000.frame e k l g = (Some l', g', t) /\ Part000.camera l' = Part000.camera l.
Proof.
  change (Part000.frame e) with (frame_of P_Part000 e). rewrite frame_of_spec.
  cbn [after_poll_of]. unfold Part000.render. cbn.
  do 3 eexists. split; reflexivity.
Qed.

Lemma week5_state e k :
  exists l g,
    top_of_turn P_Week5 e k = Some (l, g) /\
    Week5.isButtonPressed l = Nat.odd (key_down_turns e k) /\
    cam_position (Week5.camera l) = glm_vec3 (f32 0) (f32 15) (f32 15) /\
    cam_lookAt (Week5.camera l) = Some (glm_vec3 (f32 0.0) (f32 0.0) (f32 0.0)) /\
    cam_isOrtho (Week5.camera l)
    = match key_down_turns e k with
      | O => cam_isOrtho (ret_Camera_Create e)
      | S _ => Nat.odd (key_down_turns e k)
      end /\
    cam_orthoVerticalScale (Week5.camera l)
    = match key_down_turns e k with
      | O => cam_orthoVerticalScale (ret_Camera_Create e)
      | S _ => f32 (-20.0)
      end.
Proof.
  induction k as [|k (l & g & Htop & Hp & Hpos & Hlook & Hortho & Hscale)].
  - do 2 eexists. split; [reflexivity|]. repeat split.
  - destruct (week5_frame_facts e k l g)
      as (l' & g' & t & Hframe & _ & _ & _ & Hup & Hon & Hoff).
    exists l', g'. rewrite top_of_turn_S, Htop. cbn [frame_of]. rewrite Hframe.
    split; [reflexivity|]. cbn [key_down_turns].
    destruct (Z.eqb_spec (ret_glfwGetKey_space (frames e k)) 0) as [E|E].
    + destruct (Hup E) as [-> ->]. auto.
    + rewrite Nat.odd_succ, <- Nat.negb_odd, <- Hp.
      destruct (Week5.isButtonPressed l) eqn:Hpressed.
      * destruct (Hoff E eq_refl) as [-> ->]. cbn.
        destruct (key_down_turns e k); [discriminate|].
        repeat split; assumption.
      * destruct (Hon E eq_refl) as [-> ->]. cbn. repeat split; assumption.
Qed.

(** X9: in the Week-5 program the orthographic mode at the top of a turn is
    the parity of the number of earlier turns in which the space key was
    down (the mode of the created camera as long as there was none): a key
    held down over several turns flips the mode in each of them.
    [isButtonPressed] is that parity as well. *)
Theorem ortho_mode_is_the_parity_of_key_down_turns (e : environment) (k : nat) :
  exists l g,
    top_of_turn P_Week5 e k = Some (l, g) /\
    Week5.isButtonPressed l = Nat.odd (key_down_turns e k) /\
    cam_isOrtho (Week5.camera l)
    = match key_down_turns e k with
      | O => cam_isOrtho (ret_Camera_Create e)
      | S _ => Nat.odd (key_down_turns e k)
      end.
Proof.
  destruct (week5_state e k) as (l & g & Htop & Hp & _ & _ & Hortho & _).
  exists l, g. auto.
Qed.

(** X10: the cameras stay where the set-up put them.  In part_000 the camera
    is never touched in the loop.  In the Week-5 program the position is
    (0, 15, 15) and the target the origin at the top of every turn, so that
    the [SetPosition] of the toggle moves nothing; and the vertical scale is
    that of the created camera until the first turn with the key down and
    -20 ever after: switching back to perspective does not restore it. *)
Theorem cameras_stay_where_the_setup_put_them (e : environment) (k : nat) :
  (exists l g,
     top_of_turn P_Part000 e k = Some (l, g) /\
     Part000.camera l
     = LookAt (glm_vec3 (f32 0.0) (f32 0.0) (f32 0.0))
              (SetPosition (glm_vec3 (f32 0) (f32 1) (f32 1)) (ret_Camera_Create e))) /\
  (exists l g,
     top_of_turn P_Week5 e k = Some (l, g) /\
     cam_position (Week5.camera l) = glm_vec3 (f32 0) (f32 15) (f32 15) /\
     cam_lookAt (Week5.camera l) = Some (glm_vec3 (f32 0.0) (f32 0.0) (f32 0.0)) /\
     cam_orthoVerticalScale (Week5.camera l)
     = match key_down_turns e k with
       | O => cam_orthoVerticalScale (ret_Camera_Create e)
       | S _ => f32 (-20.0)
       end).
Proof.
  split.
  - induction k as [|k (l & g & Htop & Hcam)].
    + do 2 eexists. split; reflexivity.
    + destruct (part000_frame_camera e k l g) as (l' & g' & t & Hframe & Hsame).
      exists l', g'. rewrite top_of_turn_S, Htop. cbn [frame_of]. rewrite Hframe.
      split; [reflexivity | congruence].
  - destruct (week5_state e k) as (l & g & Htop & _ & Hpos & Hlook & _ & Hscale).
    exists l, g. auto.
Qed.

(** ** The uniforms *)

Lemma uniform_uploads_after_poll rs t :
  uniform_uploads ((glfwPollEvents :: viewport_calls rs) ++ t) = uniform_uploads t.
Proof.
  cbn [app]. unfold uniform_uploads. cbn [flat_map app]. rewrite flat_map_app.
  replace (flat_map _ (viewport_calls rs)) with (@nil (string * mat4)); [reflexivity|].
  induction rs as [|wh rs IH]; [reflexivity | exact IH].
Qed.

Lemma week3_frame_uniforms e k l g :
  exists l' g' t,
    Week3.frame e k l g = (Some l', g', t) /\ uniform_uploads t = [].
Proof.
  change (Week3.frame e) with (frame_of P_Week3 e). rewrite frame_of_spec.
  cbn [after_poll_of]. unfold Week3.render, bind, issue, get_globals, ret.
  do 3 eexists. split; [reflexivity|].
  rewrite uniform_uploads_after_poll. reflexivity.
Qed.

Lemma part000_frame_uniforms e k l g :
  exists l' g' t,
    Part000.frame e k l g = (Some l', g', t) /\
    uniform_uploads t
    = map (fun m => ("u_ModelViewProjection",
                     mat4_mul (GetViewProjection (Part000.camera l')) m))
          [Part000.transform l'; Part000.transform2 l'; Part000.transform3 l'].
Proof.
  change (Part000.frame e) with (frame_of P_Part000 e). rewrite frame_of_spec.
  cbn [after_poll_of]. unfold Part000.render, bind, issue, get_globals, ret.
  do 3 eexists. split; [reflexivity|].
  rewrite uniform_uploads_after_poll. reflexivity.
Qed.

Lemma week5_frame_uniforms e k l g :
  Week5.isRotating l = true ->
  exists l' g' t,
    Week5.frame e k l g = (Some l', g', t) /\
    uniform_uploads t
    = map (fun m => ("u_ModelViewProjection",
                     mat4_mul (GetViewProjection (Week5.camera l')) m))
          [Week5.transform l'; Week5.transform2 l'].
Proof.
  intros Hrot.
  change (Week5.frame e) with (frame_of P_Week5 e). rewrite frame_of_spec.
  cbn [after_poll_of]. unfold Week5.input_handling, Week5.render.
  destruct l as [cam t1 t2 rot pressed]. cbn in Hrot. subst rot.
  unfold bind, issue, get_globals, ret. cbn [Week5.isButtonPressed Week5.camera].
  destruct (ret_glfwGetKey_space (frames e k) =? 0); destruct pressed;
    cbn [negb andb Bool.eqb];
    (do 3 eexists; split; [reflexivity|];
     rewrite uniform_uploads_after_poll; reflexivity).
Qed.

Lemma turn_calls_of_frame p e k l g l' g' t :
  top_of_turn p e k = Some (l, g) ->
  frame_of p e k l g = (Some l', g', t) ->
  top_of_turn p e (S k) = Some (l', g') /\ turn_calls_of p e k = t.
Proof.
  intros Htop Hframe. split.
  - rewrite top_of_turn_S, Htop, Hframe. reflexivity.
  - unfold turn_calls_of, calls_of. rewrite Htop, Hframe. reflexivity.
Qed.

(** X11: the uniforms that a turn uploads are, in order, the view-projection of
    the camera times each of the transforms, all taken as the turn leaves
    them: in the Week-5 program a key press changes the projection of the
    very frame in which it is read.  The Week-3 program uploads none. *)
Theorem uniforms_are_taken_after_the_input (e : environment) (k : nat) :
  uniform_uploads (turn_calls_of P_Week3 e k) = [] /\
  (exists l g,
     top_of_turn P_Part000 e (S k) = Some (l, g) /\
     uniform_uploads (turn_calls_of P_Part000 e k)
     = map (fun m => ("u_ModelViewProjection",
                      mat4_mul (GetViewProjection (Part000.camera l)) m))
           [Part000.transform l; Part000.transform2 l; Part000.transform3 l]) /\
  (exists l g,
     top_of_turn P_Week5 e (S k) = Some (l, g) /\
     uniform_uploads (turn_calls_of P_Week5 e k)
     = map (fun m => ("u_ModelViewProjection",
                      mat4_mul (GetViewProjection (Week5.camera l)) m))
           [Week5.transform l; Week5.transform2 l]).
Proof.
  split; [|split].
  - destruct (top_of_turn_total P_Week3 e k) as (l & g & Htop & _).
    destruct (week3_frame_uniforms e k l g) as (l' & g' & t & Hframe & Hu).
    destruct (turn_calls_of_frame P_Week3 e k l g l' g' t Htop Hframe) as [_ ->].
    exact Hu.
  - destruct (top_of_turn_total P_Part000 e k) as (l & g & Htop & _).
    destruct (part000_frame_uniforms e k l g) as (l' & g' & t & Hframe & Hu).
    destruct (turn_calls_of_frame P_Part000 e k l g l' g' t Htop Hframe) as [Htop' ->].
    exists l', g'. split; assumption.
  - destruct (week5_top e k) as (l & g & Htop & Hrot & _).
    destruct (week5_frame_uniforms e k l g Hrot) as (l' & g' & t & Hframe & Hu).
    destruct (turn_calls_of_frame P_Week5 e k l g l' g' t Htop Hframe) as [Htop' ->].
    exists l', g'. split; assumption.
Qed.

(** ** The debug callback, further *)

Lemma append_cancel_l (a b c : string) : (a ++ b)%string = (a ++ c)%string -> b = c.
Proof.
  induction a as [|x a IH]; cbn; intros H; [exact H|].
  injection H as H. apply IH. exact H.
Qed.

(** X12: with source values that are distinct, as labels of one [switch] are,
    the window system, the shader compiler, third parties and the
    application get the tags "WINDOW", "SHADER", "THIRD PARTY" and "APP";
    and for a given source a logged line tells the message: two calls that
    log the same line were given the same message. *)
Theorem GlDebugMessage_tags_and_message
        (API WINDOW_SYSTEM SHADER_COMPILER THIRD_PARTY APPLICATION : Z)
        (LOW MEDIUM HIGH NOTIFICATION : Z)
        (Hdistinct : NoDup [API; WINDOW_SYSTEM; SHADER_COMPILER; THIRD_PARTY; APPLICATION]) :
  let tag := source_tag API WINDOW_SYSTEM SHADER_COMPILER THIRD_PARTY APPLICATION in
  let callback :=
    GlDebugMessage API WINDOW_SYSTEM SHADER_COMPILER THIRD_PARTY APPLICATION
                   LOW MEDIUM HIGH NOTIFICATION in
  (tag WINDOW_SYSTEM = "WINDOW" /\ tag SHADER_COMPILER = "SHADER" /\
   tag THIRD_PARTY = "THIRD PARTY" /\ tag APPLICATION = "APP") /\
  (forall source type id severity length message userParam
          type' id' length' message' userParam',
     In severity [LOW; MEDIUM; HIGH; NOTIFICATION] ->
     callback source type id severity length message userParam
     = callback source type' id' severity length' message' userParam' ->
     message = message').
Proof.
  cbv zeta. split.
  - unfold source_tag.
    repeat match goal with
           | H : NoDup (_ :: _) |- _ => inversion H; clear H; subst
           end.
    cbn [In] in *.
    repeat split;
      repeat match goal with
             | |- context [?a =? ?a] => rewrite (Z.eqb_refl a)
             | |- context [?a =? ?b] =>
                 destruct (Z.eqb_spec a b); [exfalso; subst; tauto|]
             end; reflexivity.
  - intros source type id severity length message userParam
           type' id' length' message' userParam' Hsev.
    unfold GlDebugMessage. intros Heq.
    assert (Hline : format_tagged
                      (source_tag API WINDOW_SYSTEM SHADER_COMPILER THIRD_PARTY
                                  APPLICATION source) message
                    = format_tagged
                        (source_tag API WINDOW_SYSTEM SHADER_COMPILER THIRD_PARTY
                                    APPLICATION source) message').
    { revert Heq.
      destruct (Z.eqb_spec severity LOW) as [E1|E1]; [intros Heq; congruence|].
      destruct (Z.eqb_spec severity MEDIUM) as [E2|E2]; [intros Heq; congruence|].
      destruct (Z.eqb_spec severity HIGH) as [E3|E3]; [intros Heq; congruence|].
      destruct (Z.eqb_spec severity NOTIFICATION) as [E4|E4]; [intros Heq; congruence|].
      intros _. exfalso. cbn [In] in Hsev.
      destruct Hsev as [H|[H|[H|[H|[]]]]]; subst; contradiction. }
    unfold format_tagged in Hline.
    apply append_cancel_l in Hline. apply append_cancel_l in Hline.
    apply append_cancel_l in Hline. exact Hline.
Qed.

Lemma GlDebugMessage_tags_and_message_witness :
  source_tag 0x8246 0x8247 0x8248 0x8249 0x824A 0x8248 = "SHADER".
Proof.
  refine (proj1 (proj2 (proj1 (GlDebugMessage_tags_and_message
                                 0x8246 0x8247 0x8248 0x8249 0x824A
                                 0x9148 0x9147 0x9146 0x826B _)))).
  repeat (constructor;
          [cbn [In]; intros H;
           repeat (destruct H as [H|H]; [discriminate|]); contradiction|]).
  constructor.
Defined.

(** ** Draws and binds *)

Lemma turns_draws_follow_binds p w fs :
  Forall (turn w (turn_facts p w)) fs ->
  forall prev, draws_follow_binds (indexed_of p) prev (List.concat fs) = true.
Proof.
  intros Hall. induction Hall as [|f fs (t & -> & Ht) _ IH]; intros prev; [reflexivity|].
  cbn [List.concat]. apply draws_follow_binds_app; [|exact IH].
  cbn [draws_follow_binds bound_for andb]. apply Ht.
Qed.

(** X13: in every run, however long, each [glDrawArrays] call comes right
    after the bind of a vertex array, and each [glDrawElements] call right
    after the bind of a vertex array that the set-up gave an index buffer
    ([vao2], and [vao3] in part_000): no indexed draw is issued on a vertex
    array without indices. *)
Theorem gl_draws_follow_the_bind_of_their_vertex_array
        (p : project) (e : environment) (fuel : nat) :
  draws_follow_binds (indexed_vaos (calls (run_main p e fuel))) None
                     (calls (run_main p e fuel)) = true /\
  (init_succeeds e -> indexed_vaos (calls (run_main p e fuel)) = indexed_of p).
Proof.
  destruct (init_cases e) as [Hglfw | [[Hglfw Hglad] | Hinit]].
  - rewrite (run_main_glfw_fails p e fuel Hglfw).
    split; [reflexivity | intros [H _]; congruence].
  - rewrite (run_main_glad_fails p e fuel Hglfw Hglad).
    split; [reflexivity | intros [_ H]; contradiction].
  - destruct (run_main_turns p e fuel Hinit) as (r & g & fs & tail & -> & _ & Hall & Hr).
    cbn [calls snd].
    assert (Hix : indexed_vaos ((init_calls e (initial_globals_of p) ++ setup_calls p e)
                                  ++ List.concat fs ++ tail) = indexed_of p).
    { unfold indexed_vaos. rewrite !flat_map_app.
      rewrite (turn_facts_flat_map p (ret_glfwCreateWindow e) _ fs eq_refl)
        by (try exact Hall; intros c; destruct c; cbn; congruence).
      destruct Hr as [(_ & -> & _)|(_ & -> & _)]; destruct p; reflexivity. }
    split; [|intros _; exact Hix]. rewrite Hix.
    apply draws_follow_binds_app; [destruct p; reflexivity|].
    intros prev. apply draws_follow_binds_app.
    + apply (turns_draws_follow_binds p _ fs Hall).
    + intros prev'. destruct Hr as [(_ & -> & _)|(_ & -> & _)]; destruct p; reflexivity.
Qed.

Lemma gl_draws_follow_the_bind_of_their_vertex_array_witness :
  indexed_vaos (calls (run_main P_Part000 sample_env 3)) = ["vao2"; "vao3"].
Proof.
  apply (proj2 (gl_draws_follow_the_bind_of_their_vertex_array P_Part000 sample_env 3)).
  split; [reflexivity | cbn; discriminate].
Defined.

(** * The indexed draws *)

(** ** Bindings along the calls *)

Lemma bindings_after_app t1 t2 s :
  bindings_after (t1 ++ t2) s = bindings_after t2 (bindings_after t1 s).
Proof. unfold bindings_after. apply fold_left_app. Qed.

Lemma draws_use_loaded_counts_app t1 t2 s :
  draws_use_loaded_counts s (t1 ++ t2)
  = draws_use_loaded_counts s t1 && draws_use_loaded_counts (bindings_after t1 s) t2.
Proof.
  revert s; induction t1 as [|c t1 IH]; intros s; [reflexivity|].
  cbn [app draws_use_loaded_counts bindings_after fold_left].
  fold (bindings_after t1 (track s c)). rewrite IH, andb_assoc. reflexivity.
Qed.

Lemma indexed_draws_app t1 t2 s :
  indexed_draws s (t1 ++ t2)
  = indexed_draws s t1 ++ indexed_draws (bindings_after t1 s) t2.
Proof.
  revert s; induction t1 as [|c t1 IH]; intros s; [reflexivity|].
  cbn [app indexed_draws bindings_after fold_left].
  fold (bindings_after t1 (track s c)). rewrite IH, app_assoc. reflexivity.
Qed.

(** The resize callbacks leave the bindings alone. *)
Lemma viewport_calls_bindings rs s :
  bindings_after (viewport_calls rs) s = s /\
  draws_use_loaded_counts s (viewport_calls rs) = true /\
  indexed_draws s (viewport_calls rs) = [].
Proof.
  induction rs as [|wh rs (IH1 & IH2 & IH3)]; [repeat split|].
  split; [exact IH1 | split; [exact IH2 | exact IH3]].
Qed.

Lemma turn_draws_app p t1 t2 :
  (forall s, bindings_after t1 s = s /\ draws_use_loaded_counts s t1 = true /\
             indexed_draws s t1 = []) ->
  turn_draws p t2 -> turn_draws p (t1 ++ t2).
Proof.
  intros H1 H2 s Hs. destruct (H1 s) as (Ha & Hb & Hc). destruct (H2 s Hs) as (Hd & He & Hf).
  rewrite draws_use_loaded_counts_app, indexed_draws_app, bindings_after_app, Ha, Hb, Hc.
  split; [exact Hd | split; [exact He | exact Hf]].
Qed.

(** ** One turn *)

Lemma after_poll_of_draws p e k l g :
  locals_inv p l ->
  exists l' t, after_poll_of p e k l g = (Some l', g, t) /\ turn_draws p t.
Proof.
  destruct p; cbn [locals_inv after_poll_of locals_of] in *.
  - destruct l as [[nm cnt ty]]. cbn. intros ->.
    eexists; eexists; split; [reflexivity|].
    intros [b ib lc] [Hib Hlc]. cbn in Hib, Hlc. subst ib lc. repeat split.
  - destruct l as [[nm cnt ty] [nm1 cnt1 ty1] t1 t2 t3 cam]. cbn. intros [-> ->].
    eexists; eexists; split; [reflexivity|].
    intros [b ib lc] [Hib Hlc]. cbn in Hib, Hlc. subst ib lc. repeat split.
  - intros _. destruct l as [cam t1 t2 rot pressed].
    unfold Week5.input_handling, Week5.render. cbn.
    destruct (ret_glfwGetKey_space (frames e k) =? 0); destruct pressed; cbn;
      (eexists; eexists; split; [reflexivity|];
       intros [b ib lc] [Hib Hlc]; cbn in Hib, Hlc; subst ib lc; repeat split).
Qed.

Lemma frame_of_draws p e k l g :
  locals_inv p l ->
  exists l1 t1,
    frame_of p e k l g = (Some l1, apply_resizes (resize_events (frames e k)) g, t1) /\
    locals_inv p l1 /\ turn_facts p (window g) t1 /\ turn_draws p t1.
Proof.
  intros Hinv.
  destruct (frame_of_facts p e k l g Hinv) as (l1 & t1 & Hf & Hinv1 & Hfacts).
  exists l1, t1. split; [exact Hf|]. split; [exact Hinv1|]. split; [exact Hfacts|].
  rewrite frame_of_spec in Hf.
  destruct (after_poll_of_draws p e k l (apply_resizes (resize_events (frames e k)) g) Hinv)
    as (l' & t & Ha & Hd).
  rewrite Ha in Hf. injection Hf as _ <-.
  change ((glfwPollEvents :: viewport_calls (resize_events (frames e k))) ++ t)
    with ([glfwPollEvents] ++ viewport_calls (resize_events (frames e k)) ++ t).
  apply (turn_draws_app p [glfwPollEvents]
                        (viewport_calls (resize_events (frames e k)) ++ t));
    [intros s; split; [reflexivity | split; reflexivity]|].
  apply turn_draws_app; [apply viewport_calls_bindings | exact Hd].
Qed.

(** A turn of a loop leaves the index buffers among the locals as they
    are. *)
Lemma frame_of_index_buffers p e k l g :
  exists l' g' t,
    frame_of p e k l g = (Some l', g', t) /\ index_buffers_of p l' = index_buffers_of p l.
Proof.
  rewrite frame_of_spec.
  destruct p; cbn [after_poll_of index_buffers_of locals_of] in *.
  - unfold Week3.render, bind, issue, get_globals, ret.
    do 3 eexists. split; reflexivity.
  - unfold Part000.render, bind, issue, get_globals, ret.
    do 3 eexists. split; reflexivity.
  - unfold Week5.input_handling, Week5.render, bind, issue, get_globals, ret.
    destruct (negb (ret_glfwGetKey_space (frames e k) =? 0)
              && Bool.eqb (Week5.isButtonPressed l) false);
      [|destruct (negb (ret_glfwGetKey_space (frames e k) =? 0)
                  && Bool.eqb (Week5.isButtonPressed l) true)];
      do 3 eexists; split; reflexivity.
Qed.

(** At the top of every turn the wrappers of the index buffers answer
    [GetElementCount()] with the count that the set-up loaded. *)
Lemma top_of_turn_index_buffers p e k :
  exists l g,
    top_of_turn p e k = Some (l, g) /\
    map IndexBuffer.name (index_buffers_of p l) = map snd (meshes_of p) /\
    Forall (fun b =>
              lookup (IndexBuffer.name b)
                     (loaded_count (bindings_after (setup_calls p e) no_bindings))
              = Some (IndexBuffer.GetElementCount b))
           (index_buffers_of p l).
Proof.
  induction k as [|k (l & g & Htop & Hnames & Hcounts)].
  - destruct p; do 2 eexists; (split; [reflexivity|]); split;
      try reflexivity; repeat constructor.
  - destruct (frame_of_index_buffers p e k l g) as (l' & g' & t & Hframe & Hsame).
    exists l', g'. rewrite top_of_turn_S, Htop, Hframe, Hsame.
    split; [reflexivity | split; assumption].
Qed.

(** ** Whole runs *)

Lemma prefix_bindings p e :
  draws_use_loaded_counts no_bindings
    (init_calls e (initial_globals_of p) ++ setup_calls p e) = true /\
  indexed_draws no_bindings (init_calls e (initial_globals_of p) ++ setup_calls p e) = [] /\
  buffers_of p (bindings_after (init_calls e (initial_globals_of p) ++ setup_calls p e)
                               no_bindings).
Proof. destruct p; repeat split. Qed.

Lemma turns_draws p w fs :
  Forall (turn w (fun t => turn_facts p w t /\ turn_draws p t)) fs ->
  forall s, buffers_of p s ->
    draws_use_loaded_counts s (List.concat fs) = true /\
    indexed_draws s (List.concat fs)
    = List.concat (repeat (draws_of_a_turn p) (List.length fs)) /\
    buffers_of p (bindings_after (List.concat fs) s).
Proof.
  intros Hall. induction Hall as [|f fs (t & -> & _ & Ht) _ IH]; intros s Hs.
  - split; [reflexivity | split; [reflexivity | exact Hs]].
  - destruct (Ht s Hs) as (Ha & Hb & Hc).
    destruct (IH _ Hc) as (Hd & He & Hf).
    cbn [List.concat List.length repeat].
    change ((glfwWindowShouldClose w :: t) ++ List.concat fs)
      with ([glfwWindowShouldClose w] ++ t ++ List.concat fs).
    rewrite !draws_use_loaded_counts_app, !indexed_draws_app, !bindings_after_app.
    cbn [bindings_after fold_left track draws_use_loaded_counts indexed_draws app andb].
    fold (bindings_after t s). rewrite Ha, Hb, Hd, He.
    split; [reflexivity | split; [reflexivity | exact Hf]].
Qed.

Lemma tail_bindings p w s :
  buffers_of p s ->
  draws_use_loaded_counts s (glfwWindowShouldClose w :: teardown_calls p) = true /\
  indexed_draws s (glfwWindowShouldClose w :: teardown_calls p) = [].
Proof. intros _. destruct p; split; reflexivity. Qed.

(** A run whose initialisation succeeds, with the draws of its turns. *)
Lemma run_main_draws p e fuel :
  init_succeeds e ->
  exists r g fs tail,
    run_main p e fuel
    = (r, g, (init_calls e (initial_globals_of p) ++ setup_calls p e)
               ++ List.concat fs ++ tail) /\
    Forall (turn (ret_glfwCreateWindow e)
                 (fun t => turn_facts p (ret_glfwCreateWindow e) t /\ turn_draws p t)) fs /\
    ((r = Some 0 /\
      tail = glfwWindowShouldClose (ret_glfwCreateWindow e) :: teardown_calls p /\
      closes_at e (List.length fs) /\ (List.length fs < fuel)%nat) \/
     (r = None /\ tail = [] /\ List.length fs = fuel /\
      forall i, (i < fuel)%nat -> ret_glfwWindowShouldClose (frames e i) = 0)).
Proof.
  intros Hinit.
  destruct (run_main_with (fun w t => turn_facts p w t /\ turn_draws p t) p e fuel Hinit)
    as (r & g & fs & tail & Hrun & _ & Hall & Hr).
  - intros k l g Hinv.
    destruct (frame_of_draws p e k l g Hinv) as (l1 & t1 & Hf & Hinv1 & Hfacts & Hdraws).
    exists l1, t1. auto.
  - exists r, g, fs, tail. auto.
Qed.

Lemma init_calls_loads_and_draws e g : Forall loads_and_draws_6 (init_calls e g).
Proof. repeat constructor. Qed.

Lemma setup_calls_loads_and_draws p e : Forall loads_and_draws_6 (setup_calls p e).
Proof. destruct p; repeat constructor. Qed.

Lemma teardown_calls_loads_and_draws p : Forall loads_and_draws_6 (teardown_calls p).
Proof. destruct p; repeat constructor. Qed.

Lemma turn_calls_loads_and_draws t : turn_calls t -> Forall loads_and_draws_6 t.
Proof.
  intros H. apply Forall_forall. intros c Hc.
  apply (turn_call_facts c (turn_calls_In t c H Hc)).
Qed.

Lemma run_main_loads_and_draws p e fuel :
  Forall loads_and_draws_6 (calls (run_main p e fuel)).
Proof.
  destruct (init_cases e) as [Hglfw | [[Hglfw Hglad] | Hinit]].
  - rewrite (run_main_glfw_fails p e fuel Hglfw). repeat constructor.
  - rewrite (run_main_glad_fails p e fuel Hglfw Hglad). cbn [calls snd].
    apply Forall_app. split; [apply init_calls_loads_and_draws | repeat constructor].
  - destruct (run_main_shape p e fuel Hinit) as (r & g & fs & tail & -> & _ & Hall & Hr).
    cbn [calls snd].
    repeat (apply Forall_app; split).
    + apply init_calls_loads_and_draws.
    + apply setup_calls_loads_and_draws.
    + apply (turns_Forall (ret_glfwCreateWindow e) turn_calls);
        [exact I | exact turn_calls_loads_and_draws | exact Hall].
    + destruct Hr as [(_ & -> & _)|(_ & -> & _)]; [|constructor].
      constructor; [exact I | apply teardown_calls_loads_and_draws].
Qed.

(** ** C4: the count of the indexed draws *)

(** C4. In every run of [main], however long:
    - each [glDrawElements] call is issued while a vertex array is bound
      that was given an index buffer which [LoadData] has loaded, and its
      count is the count last passed to that [LoadData];
    - every [IndexBuffer::LoadData] call is given the index array
      {3, 0, 1, 3, 1, 2} with the count 6 (written 3 * 2), and every
      [glDrawElements] call has the count 6;
    - at the top of every turn of the loop the index buffers among the
      locals are those of the indexed meshes, and each answers
      [GetElementCount()] with the count that the set-up loaded into it.
    When the initialisation succeeds, the indexed meshes are [vao2] with
    [interleaved_ibo] and, in part_000, [vao3] with [interleaved_ibo1] (none
    in the Week-5 program); the index buffer of each is loaded exactly once;
    and in each of its turns the run draws every indexed mesh once, with its
    vertex array bound and the count 6: a run of [n] turns has exactly these
    indexed draws, [n] times over. *)
Theorem indexed_draws_use_loaded_count (p : project) (e : environment) (fuel : nat) :
  let t := calls (run_main p e fuel) in
  draws_use_loaded_counts no_bindings t = true /\
  Forall loads_and_draws_6 t /\
  (forall k, exists l g,
     top_of_turn p e k = Some (l, g) /\
     map IndexBuffer.name (index_buffers_of p l) = map snd (meshes_of p) /\
     Forall (fun b =>
               lookup (IndexBuffer.name b)
                      (loaded_count (bindings_after (setup_calls p e) no_bindings))
               = Some (IndexBuffer.GetElementCount b))
            (index_buffers_of p l)) /\
  (init_succeeds e ->
   indexed_meshes t = meshes_of p /\
   (forall m, In m (indexed_meshes t) -> loads_of (snd m) t = [([3; 0; 1; 3; 1; 2], 6)]) /\
   exists n,
     ((closes_at e n /\ (n < fuel)%nat) \/
      (n = fuel /\
       forall i, (i < fuel)%nat -> ret_glfwWindowShouldClose (frames e i) = 0)) /\
     indexed_draws no_bindings t
     = List.concat (repeat (map (fun m => (Some (fst m), 6)) (indexed_meshes t)) n)).
Proof.
  cbv zeta.
  split; [|split; [apply run_main_loads_and_draws|split; [apply top_of_turn_index_buffers|]]].
  - destruct (init_cases e) as [Hglfw | [[Hglfw Hglad] | Hinit]].
    + rewrite (run_main_glfw_fails p e fuel Hglfw). reflexivity.
    + rewrite (run_main_glad_fails p e fuel Hglfw Hglad). reflexivity.
    + destruct (run_main_draws p e fuel Hinit) as (r & g & fs & tail & -> & Hall & Hr).
      cbn [calls snd].
      destruct (prefix_bindings p e) as (Hp1 & _ & Hp3).
      destruct (turns_draws p _ fs Hall _ Hp3) as (Ht1 & _ & Ht3).
      rewrite draws_use_loaded_counts_app, Hp1. cbn [andb].
      rewrite draws_use_loaded_counts_app, Ht1. cbn [andb].
      destruct Hr as [(_ & -> & _)|(_ & -> & _)]; [|reflexivity].
      apply (tail_bindings p _ _ Ht3).
  - intros Hinit.
    destruct (run_main_draws p e fuel Hinit) as (r & g & fs & tail & -> & Hall & Hr).
    cbn [calls snd].
    assert (Hfacts : Forall (turn (ret_glfwCreateWindow e)
                                  (turn_facts p (ret_glfwCreateWindow e))) fs).
    { eapply Forall_impl; [|exact Hall]. intros f (t & -> & Ht & _). exists t. auto. }
    assert (Hflat : forall (B : Type) (f : call -> list B),
               f (glfwWindowShouldClose (ret_glfwCreateWindow e)) = [] ->
               (forall c, loop_only c = true -> f c = []) ->
               flat_map f (teardown_calls p) = [] ->
               flat_map f ((init_calls e (initial_globals_of p) ++ setup_calls p e)
                             ++ List.concat fs ++ tail)
               = flat_map f (init_calls e (initial_globals_of p) ++ setup_calls p e)).
    { intros B f Hw Hf Htd. rewrite !flat_map_app.
      rewrite (turn_facts_flat_map p (ret_glfwCreateWindow e) f fs Hw Hf Hfacts).
      destruct Hr as [(_ & -> & _)|(_ & -> & _)]; cbn [flat_map];
        rewrite ?Hw, ?Htd, ?app_nil_r; reflexivity. }
    assert (Hmeshes : indexed_meshes ((init_calls e (initial_globals_of p) ++ setup_calls p e)
                                        ++ List.concat fs ++ tail) = meshes_of p).
    { unfold indexed_meshes. rewrite Hflat; [destruct p; reflexivity |reflexivity | |].
      - intros c; destruct c; cbn; congruence.
      - destruct p; reflexivity. }
    rewrite Hmeshes. split; [reflexivity|]. split.
    + intros m Hm. unfold loads_of. rewrite Hflat.
      * destruct p; cbn [meshes_of In] in Hm;
          repeat (destruct Hm as [<-|Hm]; [reflexivity|]); contradiction.
      * reflexivity.
      * intros c; destruct c; cbn; congruence.
      * destruct p; reflexivity.
    + exists (List.length fs). split.
      * destruct Hr as [(_ & _ & Hc & Hlt)|(_ & _ & Hlen & Hopen)]; [left; auto|].
        right. rewrite Hlen. auto.
      * destruct (prefix_bindings p e) as (_ & Hp2 & Hp3).
        destruct (turns_draws p _ fs Hall _ Hp3) as (_ & Ht2 & Ht3).
        rewrite indexed_draws_app, Hp2. cbn [app].
        rewrite indexed_draws_app, Ht2. unfold draws_of_a_turn.
        destruct Hr as [(_ & -> & _)|(_ & -> & _)]; [|apply app_nil_r].
        rewrite (proj2 (tail_bindings p _ _ Ht3)). apply app_nil_r.
Qed.

(** The sample run of part_000 closes after two turns: both indexed meshes
    are drawn in each of them, with the count 6. *)
Lemma indexed_draws_use_loaded_count_witness :
  indexed_meshes (calls (run_main P_Part000 sample_env 3))
  = [("vao2", "interleaved_ibo"); ("vao3", "interleaved_ibo1")] /\
  exists n,
    ((closes_at sample_env n /\ (n < 3)%nat) \/
     (n = 3%nat /\
      forall i, (i < 3)%nat -> ret_glfwWindowShouldClose (frames sample_env i) = 0)) /\
    indexed_draws no_bindings (calls (run_main P_Part000 sample_env 3))
    = List.concat
        (repeat (map (fun m => (Some (fst m), 6))
                     (indexed_meshes (calls (run_main P_Part000 sample_env 3)))) n).
Proof.
  destruct (indexed_draws_use_loaded_count P_Part000 sample_env 3)
    as (_ & _ & _ & H).
  destruct H as (Hmeshes & _ & Hdraws).
  - split; [reflexivity | cbn; discriminate].
  - split; [exact Hmeshes | exact Hdraws].
Defined.

(** Two turns of part_000 draw its two indexed meshes twice. *)
Example part000_draws_four_times :
  count_calls (fun c => match c with glDrawElements _ 6 _ => true | _ => false end)
              (calls (run_main P_Part000 sample_env 3)) = 4%nat.
Proof. vm_compute. reflexivity. Qed.
